(** * Inventory analytics of api-stock-v1: model of [app/custom_logic.py]

    The analytics layer is a library of functions over three pandas
    DataFrames (Stock, Sales = [ventas_df], History = [historico_df]).
    A DataFrame is modelled as the list of its rows, a row as a record
    with the columns that [app/utils.py] validates.  Python exceptions are
    modelled by an error monad, a Python [dict] keyed by strings by a
    [gmap string _].

    Numbers.  Integer columns are [Z], and a column sum wraps around as
    int64 does.  A [Timestamp] is the number of nanoseconds since
    1970-01-01 (the int64 that pandas stores); two dates of a table are
    taken to be less than the range of a Timedelta (292 years) apart.
    Python floats are idealised: a finite float is an exact rational kept
    in reduced form, and the one non-finite value that the code can
    produce, NaN, is a constructor of its own.  A float of an output is
    so stated as the exact value that the double of the code approximates;
    which SKUs or rows an output has is stated in the numbered theorems so
    as not to depend on that rounding, nor on the order in which a sort
    leaves equal values.  The cells of a table are all present (no NaN or
    NaT in a column), as [app/utils.py] delivers them for complete CSV
    files. *)

From Stdlib Require Import ZArith QArith Qround Lia List Permutation Sorted.
From stdpp Require Import base gmap strings list pretty sorting.

Local Open Scope Z_scope.

(** ** Exceptions *)

Inductive pyerror : Type :=
| IndexError
| ZeroDivisionError.

Inductive result (A : Type) : Type :=
| Ok (a : A)
| Raise (e : pyerror).

Arguments Ok {A} a.
Arguments Raise {A} e.

#[global] Instance result_ret : MRet result := fun A a => Ok a.

#[global] Instance result_bind : MBind result := fun A B k c =>
  match c with
  | Ok a => k a
  | Raise e => Raise e
  end.

(** ** Python numbers *)

Inductive pynum : Type :=
| NaN
| Fin (q : Q).

Definition of_int (z : Z) : pynum := Fin (inject_Z z).

(** [bool(x)]: zero is falsy, every other number, NaN included, is truthy. *)
Definition truthy (x : pynum) : bool :=
  match x with
  | NaN => true
  | Fin q => negb (Qeq_bool q 0)
  end.

(** [a / b].  A zero divisor raises, as for Python numbers. *)
Definition truediv (a b : pynum) : result pynum :=
  match b with
  | NaN => Ok NaN
  | Fin qb =>
      if Qeq_bool qb 0 then Raise ZeroDivisionError
      else match a with
           | NaN => Ok NaN
           | Fin qa => Ok (Fin (Qred (qa / qb)))
           end
  end.

Definition mul (a b : pynum) : pynum :=
  match a, b with
  | Fin qa, Fin qb => Fin (Qred (qa * qb))
  | _, _ => NaN
  end.

(** [a < b]; every comparison with NaN is false. *)
Definition ltb (a b : pynum) : bool :=
  match a, b with
  | Fin qa, Fin qb => negb (Qle_bool qb qa)
  | _, _ => false
  end.

(** [0 <= x] as a proposition; it fails for NaN. *)
Definition nonneg (x : pynum) : Prop :=
  match x with
  | NaN => False
  | Fin q => (0 <= q)%Q
  end.

(** Rounding of a rational to the nearest integer, ties to even. *)
Definition round_half_even (q : Q) : Z :=
  let f := Qfloor q in
  let r := (q - inject_Z f)%Q in
  match (r ?= 1 # 2)%Q with
  | Lt => f
  | Gt => f + 1
  | Eq => if Z.even f then f else f + 1
  end.

(** [round(x, 2)]. *)
Definition round2 (x : pynum) : pynum :=
  match x with
  | NaN => NaN
  | Fin q => Fin (Qred (inject_Z (round_half_even (q * 100)) / 100))
  end.

(** ** Dates *)

Definition Timestamp : Type := Z.

Definition ns_per_day : Z := 86400000000000.

(** [Timedelta.days]: whole days, rounded towards minus infinity. *)
Definition Timedelta_days (delta : Z) : Z := delta / ns_per_day.

(** Proleptic Gregorian date of a day number counted from 1970-01-01. *)
Definition civil_from_days (n : Z) : Z * Z * Z :=
  let z := n + 719468 in
  let era := z / 146097 in
  let doe := z - era * 146097 in
  let yoe := (doe - doe / 1460 + doe / 36524 - doe / 146096) / 365 in
  let doy := doe - (365 * yoe + yoe / 4 - yoe / 100) in
  let mp := (5 * doy + 2) / 153 in
  let d := doy - (153 * mp + 2) / 5 + 1 in
  let m := if mp <? 10 then mp + 3 else mp - 9 in
  let y := yoe + era * 400 + (if m <=? 2 then 1 else 0) in
  (y, m, d).

Definition date (t : Timestamp) : Z * Z * Z := civil_from_days (t / ns_per_day).
Definition year (t : Timestamp) : Z := fst (fst (date t)).
Definition month (t : Timestamp) : Z := snd (fst (date t)).

(** Decimal digits of a non-negative number, padded with zeros on the left
    up to [width] characters. *)
Fixpoint zeros (k : nat) (s : string) : string :=
  match k with
  | O => s
  | S k' => String.append "0" (zeros k' s)
  end.

Definition zero_pad (width : nat) (z : Z) : string :=
  let s := pretty (Z.to_N z) in
  zeros (width - String.length s)%nat s.

(** [str(t.date())], the ISO form YYYY-MM-DD. *)
Definition str_date (t : Timestamp) : string :=
  let '(y, m, d) := date t in
  String.append (zero_pad 4 y)
    (String.append "-" (String.append (zero_pad 2 m)
       (String.append "-" (zero_pad 2 d)))).


(** ** The three tables

    One record per table, with the columns that [read_stock_csv],
    [read_ventas_csv] and [read_historico_csv] require. *)

Module Stock.
Record row : Type := {
  SKU : Z;
  Producto : string;
  Categoria : string;
  Talla : string;
  Color : string;
  Stock : Z;
  Precio_Unitario : Q;
  Umbral : Z
}.
End Stock.

Module Ventas.
Record row : Type := {
  Fecha : Timestamp;
  SKU : Z;
  Unidades_Vendidas : Z
}.
End Ventas.

Module Historico.
Record row : Type := {
  Fecha : Timestamp;
  SKU : Z;
  Stock : Z;
  Unidades_Vendidas : Z;
  Reposicion : Z;
  Precio_Unitario : Q;
  Ingresos_Brutos : Q
}.
End Historico.

(** ** pandas primitives *)

(** [Series.max()] and [Series.min()] of a datetime column; [None] is NaT,
    the result on an empty column. *)
Definition Series_max (l : list Z) : option Z :=
  match l with
  | [] => None
  | x :: l' => Some (fold_left Z.max l' x)
  end.

Definition Series_min (l : list Z) : option Z :=
  match l with
  | [] => None
  | x :: l' => Some (fold_left Z.min l' x)
  end.

(** An int64 result wraps around. *)
Definition wrap_int64 (z : Z) : Z := (z + 2 ^ 63) mod 2 ^ 64 - 2 ^ 63.

(** [Series.sum()] of an int64 column. *)
Definition Series_sum (l : list Z) : Z := wrap_int64 (foldr Z.add 0 l).

(** The group keys of [groupby]: distinct, in ascending order. *)
Fixpoint insert_key (k : Z) (l : list Z) : list Z :=
  match l with
  | [] => [k]
  | k' :: t =>
      if k <? k' then k :: l
      else if k =? k' then l
      else k' :: insert_key k t
  end.

Definition group_keys (l : list Z) : list Z := foldr insert_key [] l.

(** [ventas_df[ventas_df['SKU'] == sku]]. *)
Definition ventas_of_sku (sku : Z) (ventas_df : list Ventas.row)
  : list Ventas.row :=
  filter (fun r => Ventas.SKU r = sku) ventas_df.

(** [ventas_df.groupby('SKU')['Unidades_Vendidas'].sum()]: a Series indexed
    by SKU, one entry per group. *)
Definition groupby_SKU_sum (ventas_df : list Ventas.row) : list (Z * Z) :=
  (fun sku =>
     (sku, Series_sum (Ventas.Unidades_Vendidas <$> ventas_of_sku sku ventas_df)))
  <$> group_keys (Ventas.SKU <$> ventas_df).

(** [Series.get(key, default)]. *)
Fixpoint Series_get (s : list (Z * Z)) (key : Z) (default : Z) : Z :=
  match s with
  | [] => default
  | (k, v) :: s' => if k =? key then v else Series_get s' key default
  end.

(** [Series.sort_values(ascending=False)].  pandas sorts with quicksort,
    which leaves the order of entries with equal values to the algorithm;
    the model takes the order of a stable sort among them, and the
    theorems on rankings hold for every order of equal values. *)
Fixpoint insert_desc (x : Z * Z) (l : list (Z * Z)) : list (Z * Z) :=
  match l with
  | [] => [x]
  | y :: t => if x.2 <? y.2 then y :: insert_desc x t else x :: l
  end.

Definition sort_values_desc (s : list (Z * Z)) : list (Z * Z) :=
  foldr insert_desc [] s.

(** [Series.head(n)]: the first [n] entries, and for a negative [n] all
    but the last [-n]. *)
Definition Series_head {A : Type} (n : Z) (s : list A) : list A :=
  if 0 <=? n then take (Z.to_nat n) s
  else take (length s - Z.to_nat (- n))%nat s.

(** [df.iloc[0]]: the first row; out of bounds on an empty frame. *)
Definition iloc0 {A : Type} (df : list A) : result A :=
  match df with
  | [] => Raise IndexError
  | r :: _ => Ok r
  end.

(** [stock_df[stock_df['SKU'] == sku].iloc[0].to_dict()]. *)
Definition stock_row_of (stock_df : list Stock.row) (sku : Z)
  : result Stock.row :=
  iloc0 (filter (fun r => Stock.SKU r = sku) stock_df).

(** [stock_df['SKU'].nunique()]. *)
Definition nunique (l : list Z) : Z :=
  Z.of_nat (size (list_to_set l : gset Z)).

(** A [for] loop over [l] whose body updates a local state and may raise. *)
Fixpoint for_loop {A S : Type} (body : S -> A -> result S) (s : S) (l : list A)
  : result S :=
  match l with
  | [] => Ok s
  | x :: l' => s' ← body s x; for_loop body s' l'
  end.

(** [(ventas_df['Fecha'].max() - ventas_df['Fecha'].min()).days + 1].  On an
    empty table both extremes are NaT, whose [days] is NaN. *)
Definition dias_ventas (ventas_df : list Ventas.row) : pynum :=
  match Series_max (Ventas.Fecha <$> ventas_df),
        Series_min (Ventas.Fecha <$> ventas_df) with
  | Some fmax, Some fmin => of_int (Timedelta_days (fmax - fmin) + 1)
  | _, _ => NaN
  end.

(** ** Bloque OpenAI *)

Definition productos_bajo_stock (stock_df : list Stock.row) : list Stock.row :=
  filter (fun r => Stock.Stock r <= Stock.Umbral r) stock_df.

Module Lento.
Record t : Type := {
  producto : Stock.row;
  media_diaria : pynum
}.
End Lento.

(** The value of [media_global] in [productos_rotacion_lenta]. *)
Definition media_global (ventas_df : list Ventas.row) : result pynum :=
  let ventas_por_sku := groupby_SKU_sum ventas_df in
  let dias := dias_ventas ventas_df in
  if truthy dias && truthy (of_int (Z.of_nat (length ventas_por_sku))) then
    truediv (of_int (Series_sum (Ventas.Unidades_Vendidas <$> ventas_df)))
            (mul (of_int (Z.of_nat (length ventas_por_sku))) dias)
  else Ok (of_int 0).

Definition umbral_default : pynum := Fin (1 # 2).

(** [total / dias if dias else 0]. *)
Definition media_diaria_de (dias : pynum) (total : Z) : result pynum :=
  if truthy dias then truediv (of_int total) dias else Ok (of_int 0).

Definition productos_rotacion_lenta (ventas_df : list Ventas.row)
    (historico_df : list Historico.row) (stock_df : list Stock.row)
    (umbral : pynum) : result (list Lento.t) :=
  let ventas_por_sku := groupby_SKU_sum ventas_df in
  let dias := dias_ventas ventas_df in
  media_global ← media_global ventas_df;
  for_loop (fun lentos '(sku, total) =>
      media_diaria ← media_diaria_de dias total;
      if ltb media_diaria (mul umbral media_global) then
        producto ← stock_row_of stock_df sku;
        Ok (lentos ++ [ {| Lento.producto := producto;
                           Lento.media_diaria := media_diaria |} ])
      else Ok lentos)
    [] ventas_por_sku.

Definition umbral_dias_default : Z := 14.

(** The test of [productos_muertos]:
    [pd.isnull(ult_venta) or (fecha_max - ult_venta).days >= umbral_dias]. *)
Definition sin_ventas_recientes (fecha_max ult_venta : option Timestamp)
    (umbral_dias : Z) : bool :=
  match ult_venta with
  | None => true
  | Some u =>
      match fecha_max with
      | Some m => umbral_dias <=? Timedelta_days (m - u)
      | None => false
      end
  end.

Definition productos_muertos (ventas_df : list Ventas.row)
    (stock_df : list Stock.row) (umbral_dias : Z) : result (list Stock.row) :=
  let fecha_max := Series_max (Ventas.Fecha <$> ventas_df) in
  for_loop (fun muertos sku =>
      let ult_venta :=
        Series_max (Ventas.Fecha <$> ventas_of_sku sku ventas_df) in
      if sin_ventas_recientes fecha_max ult_venta umbral_dias then
        producto ← stock_row_of stock_df sku;
        Ok (muertos ++ [producto])
      else Ok muertos)
    [] (Stock.SKU <$> stock_df).

Module TopMes.
Record t : Type := {
  producto : Stock.row;
  total_vendido_mes : Z
}.
End TopMes.

(** [ventas_df[(Fecha.dt.month == mes) & (Fecha.dt.year == año)]]. *)
Definition ventas_del_mes (mes año : Z) (ventas_df : list Ventas.row)
  : list Ventas.row :=
  filter (fun r => month (Ventas.Fecha r) = mes /\ year (Ventas.Fecha r) = año)
         ventas_df.

Definition top_n_vendidos_mes (ventas_df : list Ventas.row)
    (stock_df : list Stock.row) (n : Z) : result (list TopMes.t) :=
  if (length ventas_df =? 0)%nat then Ok []
  else
    match Series_max (Ventas.Fecha <$> ventas_df) with
    | None => Ok []
    | Some fmax =>
        let mes := month fmax in
        let año := year fmax in
        let mes_df := ventas_del_mes mes año ventas_df in
        let ranking :=
          Series_head n (sort_values_desc (groupby_SKU_sum mes_df)) in
        for_loop (fun res '(sku, total) =>
            prod ← stock_row_of stock_df sku;
            Ok (res ++ [ {| TopMes.producto := prod;
                            TopMes.total_vendido_mes := total |} ]))
          [] ranking
    end.

(** [round(ventas.get(sku, 0) / dias, 2) if dias else 0]. *)
Definition velocidad (ventas : list (Z * Z)) (dias : pynum) (sku : Z)
  : result pynum :=
  if truthy dias then
    x ← truediv (of_int (Series_get ventas sku 0)) dias;
    Ok (round2 x)
  else Ok (of_int 0).

Definition estimaciones_velocidad_venta (ventas_df : list Ventas.row)
    (stock_df : list Stock.row) : result (gmap string pynum) :=
  let dias := dias_ventas ventas_df in
  let ventas := groupby_SKU_sum ventas_df in
  for_loop (fun d sku => v ← velocidad ventas dias sku; Ok (<[pretty sku := v]> d))
    ∅ (Stock.SKU <$> stock_df).

Definition promedios_unidades_vendidas (ventas_df : list Ventas.row)
  : result (gmap string pynum) :=
  let dias := dias_ventas ventas_df in
  let ventas := groupby_SKU_sum ventas_df in
  for_loop (fun d sku => v ← velocidad ventas dias sku; Ok (<[pretty sku := v]> d))
    ∅ (ventas.*1).

(** [round(total_vendido / num_productos, 2) if num_productos else 0]. *)
Definition media_rotacion (total_vendido num_productos : Z) : result pynum :=
  if truthy (of_int num_productos) then
    x ← truediv (of_int total_vendido) (of_int num_productos);
    Ok (round2 x)
  else Ok (of_int 0).

Module Metricas.
Record t : Type := {
  total_stock : Z;
  total_vendido : Z;
  num_productos : Z;
  num_roturas_detectadas : Z;
  num_reposiciones_detectadas : Z;
  media_rotacion_por_producto : pynum
}.
End Metricas.

Definition metricas_globales (stock_df : list Stock.row)
    (ventas_df : list Ventas.row) (historico_df : list Historico.row)
  : result Metricas.t :=
  let total_stock := Series_sum (Stock.Stock <$> stock_df) in
  let total_vendido := Series_sum (Ventas.Unidades_Vendidas <$> ventas_df) in
  let num_productos := nunique (Stock.SKU <$> stock_df) in
  let roturas :=
    Z.of_nat (length (filter (fun r => Historico.Stock r = 0) historico_df)) in
  let reposiciones :=
    Z.of_nat (length (filter (fun r => Historico.Reposicion r = 1) historico_df)) in
  media_rotacion ← media_rotacion total_vendido num_productos;
  Ok {| Metricas.total_stock := total_stock;
        Metricas.total_vendido := total_vendido;
        Metricas.num_productos := num_productos;
        Metricas.num_roturas_detectadas := roturas;
        Metricas.num_reposiciones_detectadas := reposiciones;
        Metricas.media_rotacion_por_producto := media_rotacion |}.

Module Evento.
Record t : Type := {
  tipo : string;
  SKU : Z;
  fecha : string
}.
End Evento.

Definition evento_rotura (row : Historico.row) : Evento.t :=
  {| Evento.tipo := "rotura_stock";
     Evento.SKU := Historico.SKU row;
     Evento.fecha := str_date (Historico.Fecha row) |}.

Definition evento_reposicion (row : Historico.row) : Evento.t :=
  {| Evento.tipo := "reposicion";
     Evento.SKU := Historico.SKU row;
     Evento.fecha := str_date (Historico.Fecha row) |}.

(** The body of the loop of [eventos_detectados]: two independent tests,
    each appending to [eventos]. *)
Definition eventos_paso (eventos : list Evento.t) (row : Historico.row)
  : list Evento.t :=
  let eventos :=
    if Historico.Stock row =? 0 then eventos ++ [evento_rotura row]
    else eventos in
  let eventos :=
    if Historico.Reposicion row =? 1 then eventos ++ [evento_reposicion row]
    else eventos in
  eventos.

Definition eventos_detectados (historico_df : list Historico.row)
  : list Evento.t :=
  fold_left eventos_paso historico_df [].

(** ** Bloque dashboard *)

Module Resumen.
Record t : Type := {
  total_productos : Z;
  total_vendido : Z;
  promedio_rotacion : pynum
}.
End Resumen.

Definition resumen_global_dashboard (stock_df : list Stock.row)
    (ventas_df : list Ventas.row) (historico_df : list Historico.row)
  : result Resumen.t :=
  let total_productos := nunique (Stock.SKU <$> stock_df) in
  let total_vendido := Series_sum (Ventas.Unidades_Vendidas <$> ventas_df) in
  let dias := dias_ventas ventas_df in
  media_rotacion ← media_rotacion total_vendido total_productos;
  Ok {| Resumen.total_productos := total_productos;
        Resumen.total_vendido := total_vendido;
        Resumen.promedio_rotacion := media_rotacion |}.

Module Top3.
Record t : Type := {
  nombre : string;
  sku : Z;
  total_vendido : Z
}.
End Top3.

Definition top_3_vendidos_dashboard (ventas_df : list Ventas.row)
    (stock_df : list Stock.row) : result (list Top3.t) :=
  let ranking := Series_head 3 (sort_values_desc (groupby_SKU_sum ventas_df)) in
  for_loop (fun res '(sku, total) =>
      prod ← stock_row_of stock_df sku;
      Ok (res ++ [ {| Top3.nombre := Stock.Producto prod;
                      Top3.sku := sku;
                      Top3.total_vendido := total |} ]))
    [] ranking.

(** [max(fechas)] of a non-empty Python list. *)
Definition py_max (x : Z) (l : list Z) : Z := fold_left Z.max l x.

Definition fecha_ultimo_analisis (ventas_df : list Ventas.row)
    (historico_df : list Historico.row) : string :=
  let fecha_ventas :=
    if bool_decide (ventas_df = []) then None
    else Series_max (Ventas.Fecha <$> ventas_df) in
  let fecha_hist :=
    if bool_decide (historico_df = []) then None
    else Series_max (Historico.Fecha <$> historico_df) in
  let fechas := omap id [fecha_ventas; fecha_hist] in
  match fechas with
  | f :: fs => str_date (py_max f fs)
  | [] => ""
  end.

(** * Ingestion and endpoint: [app/utils.py] and [app/main.py]

    [pd.read_csv] is taken as given: a reader receives the frame that it
    returns for the uploaded bytes, as the list of its column names and
    its rows, the [Fecha] column still being text.  [pd.to_datetime] is a
    parameter of the model: a function from a column of text to the column
    of its timestamps, which may raise instead.  The endpoint ends with
    [JSONResponse], which renders its content with [allow_nan=False]. *)

Module DataFrame.
Record t (A : Type) : Type := {
  columns : list string;
  rows : list A
}.
Arguments columns {A} _.
Arguments rows {A} _.
End DataFrame.

(** The rows of ventas.csv and of the history as [pd.read_csv] returns
    them, before the conversion of [Fecha]. *)
Module VentasCSV.
Record row : Type := {
  Fecha : string;
  SKU : Z;
  Unidades_Vendidas : Z
}.
End VentasCSV.

Module HistoricoCSV.
Record row : Type := {
  Fecha : string;
  SKU : Z;
  Stock : Z;
  Unidades_Vendidas : Z;
  Reposicion : Z;
  Precio_Unitario : Q;
  Ingresos_Brutos : Q
}.
End HistoricoCSV.

(** The exceptions of the endpoint: a [ValueError] with its message, an
    exception of the analytics layer passing through, and the [ValueError]
    of [json.dumps(..., allow_nan=False)] on a float that is out of range
    (its message depends on the version of the interpreter). *)
Inductive excepcion : Type :=
| ValueError (msg : string)
| Propagada (e : pyerror)
| FloatFueraDeRango.

Inductive intento (A : Type) : Type :=
| Exito (a : A)
| Fallo (e : excepcion).

Arguments Exito {A} a.
Arguments Fallo {A} e.

#[global] Instance intento_bind : MBind intento := fun A B k c =>
  match c with
  | Exito a => k a
  | Fallo e => Fallo e
  end.

(** A call into the analytics layer from the endpoint. *)
Definition llamar {A : Type} (r : result A) : intento A :=
  match r with
  | Ok a => Exito a
  | Raise e => Fallo (Propagada e)
  end.

(** [pd.to_datetime] on a column of text. *)
Definition conversor : Type := list string → intento (list Timestamp).

(** [repr] of a list of strings that need no escaping: ['a', 'b']. *)
Fixpoint py_repr_items (l : list string) : string :=
  match l with
  | [] => ""
  | [x] => String.append "'" (String.append x "'")
  | x :: l' =>
      String.append "'" (String.append x (String.append "', " (py_repr_items l')))
  end.

Definition py_repr_list (l : list string) : string :=
  String.append "[" (String.append (py_repr_items l) "]").

Definition stock_expected_cols : list string :=
  ["SKU"; "Producto"; "Categoría"; "Talla"; "Color"; "Stock";
   "Precio_Unitario"; "Umbral"]%string.

Definition ventas_expected_cols : list string :=
  ["Fecha"; "SKU"; "Unidades_Vendidas"]%string.

Definition historico_expected_cols : list string :=
  ["Fecha"; "SKU"; "Stock"; "Unidades_Vendidas"; "Reposicion";
   "Precio_Unitario"; "Ingresos_Brutos"]%string.

Definition read_stock_csv (df : DataFrame.t Stock.row)
  : intento (DataFrame.t Stock.row) :=
  if decide (DataFrame.columns df ≠ stock_expected_cols) then
    Fallo (ValueError (String.append "stock.csv debe tener columnas: "
                         (py_repr_list stock_expected_cols)))
  else Exito df.

(** [df["Fecha"] = fechas] on a row of each table. *)
Definition ventas_con_fecha (r : VentasCSV.row) (fecha : Timestamp)
  : Ventas.row :=
  {| Ventas.Fecha := fecha;
     Ventas.SKU := VentasCSV.SKU r;
     Ventas.Unidades_Vendidas := VentasCSV.Unidades_Vendidas r |}.

Definition historico_con_fecha (r : HistoricoCSV.row) (fecha : Timestamp)
  : Historico.row :=
  {| Historico.Fecha := fecha;
     Historico.SKU := HistoricoCSV.SKU r;
     Historico.Stock := HistoricoCSV.Stock r;
     Historico.Unidades_Vendidas := HistoricoCSV.Unidades_Vendidas r;
     Historico.Reposicion := HistoricoCSV.Reposicion r;
     Historico.Precio_Unitario := HistoricoCSV.Precio_Unitario r;
     Historico.Ingresos_Brutos := HistoricoCSV.Ingresos_Brutos r |}.

Definition read_ventas_csv (to_datetime : conversor)
    (df : DataFrame.t VentasCSV.row) : intento (DataFrame.t Ventas.row) :=
  if decide (DataFrame.columns df ≠ ventas_expected_cols) then
    Fallo (ValueError (String.append "ventas.csv debe tener columnas: "
                         (py_repr_list ventas_expected_cols)))
  else
    fechas ← to_datetime (VentasCSV.Fecha <$> DataFrame.rows df);
    Exito {| DataFrame.columns := DataFrame.columns df;
             DataFrame.rows :=
               zip_with ventas_con_fecha (DataFrame.rows df) fechas |}.

Definition read_historico_csv (to_datetime : conversor)
    (df : DataFrame.t HistoricoCSV.row) : intento (DataFrame.t Historico.row) :=
  if decide (DataFrame.columns df ≠ historico_expected_cols) then
    Fallo (ValueError
             (String.append "historico_stock_ventas.csv debe tener columnas: "
                (py_repr_list historico_expected_cols)))
  else
    fechas ← to_datetime (HistoricoCSV.Fecha <$> DataFrame.rows df);
    Exito {| DataFrame.columns := DataFrame.columns df;
             DataFrame.rows :=
               zip_with historico_con_fecha (DataFrame.rows df) fechas |}.

Module Alerta.
Record t : Type := {
  nombre : string;
  sku : Z;
  stock_restante : Z
}.
End Alerta.

Module OpenAI.
Record t : Type := {
  productos_bajo_stock : list Stock.row;
  productos_rotacion_lenta : list Lento.t;
  productos_muertos : list Stock.row;
  top_5_mas_vendidos_mes : list TopMes.t;
  estimaciones_velocidad_venta : gmap string pynum;
  promedios_unidades_vendidas : gmap string pynum;
  metricas_globales : Metricas.t;
  eventos_detectados : list Evento.t
}.
End OpenAI.

Module Dashboard.
Record t : Type := {
  alerta_stock_bajo : list Alerta.t;
  resumen_global : Resumen.t;
  top_3_mas_vendidos : list Top3.t;
  fecha_ultimo_analisis : string
}.
End Dashboard.

Module Respuesta.
Record t : Type := {
  openai : OpenAI.t;
  dashboard : Dashboard.t
}.
End Respuesta.

(** One entry of [alerta_stock_bajo]. *)
Definition alerta_de (prod : Stock.row) : Alerta.t :=
  {| Alerta.nombre := Stock.Producto prod;
     Alerta.sku := Stock.SKU prod;
     Alerta.stock_restante := Stock.Stock prod |}.

Definition es_nan (x : pynum) : bool :=
  match x with
  | NaN => true
  | Fin _ => false
  end.

(** The floats that the analytics layer computes into a content: the daily
    averages of the slow products, the values of the two velocity
    mappings and the two rotation averages. *)
Definition floats_de (content : Respuesta.t) : list pynum :=
  let o := Respuesta.openai content in
  let d := Respuesta.dashboard content in
  (Lento.media_diaria <$> OpenAI.productos_rotacion_lenta o)
  ++ (map_to_list (OpenAI.estimaciones_velocidad_venta o)).*2
  ++ (map_to_list (OpenAI.promedios_unidades_vendidas o)).*2
  ++ [Metricas.media_rotacion_por_producto (OpenAI.metricas_globales o);
      Resumen.promedio_rotacion (Dashboard.resumen_global d)].

(** [JSONResponse(content=...)]: the content is rendered at once, and a NaN
    in it is refused. *)
Definition JSONResponse (content : Respuesta.t) : intento Respuesta.t :=
  if forallb (fun x => negb (es_nan x)) (floats_de content) then Exito content
  else Fallo FloatFueraDeRango.

(** [procesar_todos], from the three uploads as [pd.read_csv] parses them
    to the content of the response.  The entries of each block are
    evaluated in the order of the dict display, and the first exception
    ends the request. *)
Definition procesar_todos (to_datetime : conversor)
    (stock_file : DataFrame.t Stock.row)
    (ventas_file : DataFrame.t VentasCSV.row)
    (historico_file : DataFrame.t HistoricoCSV.row) : intento Respuesta.t :=
  stock ← read_stock_csv stock_file;
  ventas ← read_ventas_csv to_datetime ventas_file;
  historico ← read_historico_csv to_datetime historico_file;
  let stock_df := DataFrame.rows stock in
  let ventas_df := DataFrame.rows ventas in
  let historico_df := DataFrame.rows historico in
  let bajo := productos_bajo_stock stock_df in
  lentos ← llamar (productos_rotacion_lenta ventas_df historico_df stock_df
                     umbral_default);
  muertos ← llamar (productos_muertos ventas_df stock_df umbral_dias_default);
  top_5 ← llamar (top_n_vendidos_mes ventas_df stock_df 5);
  velocidades ← llamar (estimaciones_velocidad_venta ventas_df stock_df);
  promedios ← llamar (promedios_unidades_vendidas ventas_df);
  metricas ← llamar (metricas_globales stock_df ventas_df historico_df);
  let eventos := eventos_detectados historico_df in
  let openai_block :=
    {| OpenAI.productos_bajo_stock := bajo;
       OpenAI.productos_rotacion_lenta := lentos;
       OpenAI.productos_muertos := muertos;
       OpenAI.top_5_mas_vendidos_mes := top_5;
       OpenAI.estimaciones_velocidad_venta := velocidades;
       OpenAI.promedios_unidades_vendidas := promedios;
       OpenAI.metricas_globales := metricas;
       OpenAI.eventos_detectados := eventos |} in
  let alerta := alerta_de <$> productos_bajo_stock stock_df in
  resumen ← llamar (resumen_global_dashboard stock_df ventas_df historico_df);
  top_3 ← llamar (top_3_vendidos_dashboard ventas_df stock_df);
  let fecha := fecha_ultimo_analisis ventas_df historico_df in
  let dashboard_block :=
    {| Dashboard.alerta_stock_bajo := alerta;
       Dashboard.resumen_global := resumen;
       Dashboard.top_3_mas_vendidos := top_3;
       Dashboard.fecha_ultimo_analisis := fecha |} in
  JSONResponse {| Respuesta.openai := openai_block;
                  Respuesta.dashboard := dashboard_block |}.

(** * Vocabulary of the specification

    Definitions that follow the words of the specification, and the few
    auxiliary notions that the statements below need; the theorems compare
    them with the functions above. *)

(** ** Dates *)

(** [m] is the latest (greatest) date of a column. *)
Definition es_maximo (m : Z) (l : list Z) : Prop := m ∈ l ∧ ∀ x, x ∈ l → x <= m.

(** [m] is the maximum date across all Sales rows. *)
Definition fecha_maxima (ventas_df : list Ventas.row) (m : Timestamp) : Prop :=
  (∃ v, v ∈ ventas_df ∧ Ventas.Fecha v = m)
  ∧ ∀ v, v ∈ ventas_df → Ventas.Fecha v <= m.

(** ** Divisions *)

(** A divisor that [truediv] accepts. *)
Definition no_cero (x : pynum) : Prop :=
  match x with
  | NaN => True
  | Fin q => ¬ (q == 0)%Q
  end.

(** ** Slow rotation *)

(** The Sales tables on which the specification asks slow-rotation
    detection to flag nothing: the day span is undefined or zero, or no SKU
    has sales (no group at all, or no unit sold). *)
Definition ventas_degeneradas (ventas_df : list Ventas.row) : Prop :=
  dias_ventas ventas_df = NaN
  ∨ dias_ventas ventas_df = of_int 0
  ∨ groupby_SKU_sum ventas_df = []
  ∨ Forall (fun r => Ventas.Unidades_Vendidas r = 0) ventas_df.

(** The test of the loop of [productos_rotacion_lenta] on one entry of the
    per-SKU totals. *)
Definition es_lento (ventas_df : list Ventas.row) (umbral : pynum)
    (x : Z * Z) : bool :=
  match media_global ventas_df, media_diaria_de (dias_ventas ventas_df) x.2 with
  | Ok mg, Ok md => ltb md (mul umbral mg)
  | _, _ => false
  end.

(** The daily average of an entry of the per-SKU totals, NaN standing for a
    computation that raised (none does). *)
Definition media_diaria_o_nan (ventas_df : list Ventas.row) (x : Z * Z) : pynum :=
  match media_diaria_de (dias_ventas ventas_df) x.2 with
  | Ok md => md
  | Raise _ => NaN
  end.

(** ** Dead stock *)

(** Dead stock, as the specification words it: the SKU never sold, or its
    most recent sale is at least [umbral_dias] days before the latest date
    of the whole Sales table. *)
Definition nunca_vendido (ventas_df : list Ventas.row) (sku : Z) : Prop :=
  ∀ v, v ∈ ventas_df → Ventas.SKU v ≠ sku.

Definition ultima_venta (ventas_df : list Ventas.row) (sku : Z) (u : Timestamp)
  : Prop :=
  (∃ v, v ∈ ventas_df ∧ Ventas.SKU v = sku ∧ Ventas.Fecha v = u)
  ∧ ∀ v, v ∈ ventas_df → Ventas.SKU v = sku → Ventas.Fecha v <= u.

Definition producto_muerto (ventas_df : list Ventas.row) (umbral_dias : Z)
    (sku : Z) : Prop :=
  nunca_vendido ventas_df sku
  ∨ ∃ u m, ultima_venta ventas_df sku u ∧ fecha_maxima ventas_df m
           ∧ umbral_dias * ns_per_day <= m - u.

(** The test of [productos_muertos] on one SKU of the Stock table. *)
Definition prueba_muerto (ventas_df : list Ventas.row) (umbral_dias : Z)
    (sku : Z) : bool :=
  sin_ventas_recientes
    (Series_max (Ventas.Fecha <$> ventas_df))
    (Series_max (Ventas.Fecha <$> ventas_of_sku sku ventas_df))
    umbral_dias.

(** ** Lookups in Stock *)

(** The Stock table has no row for [sku]. *)
Definition sin_fila_stock (stock_df : list Stock.row) (sku : Z) : Prop :=
  ∀ r, r ∈ stock_df → Stock.SKU r ≠ sku.

(** The entries that each lookup-based operation looks up in Stock: the
    SKUs flagged as slow, the ranking of the month and the overall ranking. *)
Definition lentos_de (ventas_df : list Ventas.row) (umbral : pynum)
  : list (Z * Z) :=
  filter (fun x => es_lento ventas_df umbral x = true) (groupby_SKU_sum ventas_df).

Definition ranking_mes (ventas_df : list Ventas.row) (n : Z) : list (Z * Z) :=
  match Series_max (Ventas.Fecha <$> ventas_df) with
  | None => []
  | Some fmax =>
      Series_head n (sort_values_desc
        (groupby_SKU_sum (ventas_del_mes (month fmax) (year fmax) ventas_df)))
  end.

Definition ranking_total (ventas_df : list Ventas.row) : list (Z * Z) :=
  Series_head 3 (sort_values_desc (groupby_SKU_sum ventas_df)).

(** What a lookup-based operation does with the entries it looks up: it
    raises [IndexError] when one of them has no Stock row, and otherwise
    returns one record per entry, in the order of the entries. *)
Definition resultado_busqueda {B : Type} (res : result (list B))
    (buscados : list (Z * Z)) (sku_de : B → Z) (stock_df : list Stock.row)
  : Prop :=
  (res = Raise IndexError
   ∧ ∃ x, x ∈ buscados ∧ sin_fila_stock stock_df x.1)
  ∨ (∃ filas, res = Ok filas
       ∧ (∀ x, x ∈ buscados → ¬ sin_fila_stock stock_df x.1)
       ∧ sku_de <$> filas = buscados.*1).

(** The same, for an operation known by the SKUs that it looks up. *)
Definition busqueda_sin_omision {B : Type} (res : result (list B))
    (buscados : list Z) (sku_de : B → Z) (stock_df : list Stock.row) : Prop :=
  (res = Raise IndexError
   ∧ ∃ sku, sku ∈ buscados ∧ sin_fila_stock stock_df sku)
  ∨ (∃ filas, res = Ok filas
       ∧ (∀ sku, sku ∈ buscados → ¬ sin_fila_stock stock_df sku)
       ∧ sku_de <$> filas = buscados).

(** The Stock table has a row for every SKU of Sales. *)
Definition stock_cubre (stock_df : list Stock.row)
    (ventas_df : list Ventas.row) : Prop :=
  ∀ v, v ∈ ventas_df → ¬ sin_fila_stock stock_df (Ventas.SKU v).

(** ** Top N of the month *)

(** The sale [v] falls in the calendar month and year of [fmax]. *)
Definition en_mes_de (fmax : Timestamp) (v : Ventas.row) : Prop :=
  month (Ventas.Fecha v) = month fmax ∧ year (Ventas.Fecha v) = year fmax.

(** The units of [sku] sold in the calendar month and year of [fmax]. *)
Definition unidades_del_mes (ventas_df : list Ventas.row) (fmax : Timestamp)
    (sku : Z) : Z :=
  Series_sum (Ventas.Unidades_Vendidas
              <$> filter (fun v => Ventas.SKU v = sku ∧ en_mes_de fmax v) ventas_df).

(** Totals in descending order: each one is at least every later one. *)
Definition descendente (l : list Z) : Prop :=
  StronglySorted (fun a b => b <= a) l.

(** What the specification asks of the rows of the top N of the month. *)
Definition top_mes_correcto (ventas_df : list Ventas.row) (n : Z)
    (res : list TopMes.t) : Prop :=
  ∃ fmax, fecha_maxima ventas_df fmax
    ∧ Z.of_nat (length res) <= n
    ∧ (∀ t, t ∈ res →
         TopMes.total_vendido_mes t
         = unidades_del_mes ventas_df fmax (Stock.SKU (TopMes.producto t))
         ∧ ∃ v, v ∈ ventas_df
                ∧ Ventas.SKU v = Stock.SKU (TopMes.producto t)
                ∧ en_mes_de fmax v)
    ∧ descendente (TopMes.total_vendido_mes <$> res).

(** ** Velocity *)

(** The units of [sku] over the whole Sales table. *)
Definition unidades_de (ventas_df : list Ventas.row) (sku : Z) : Z :=
  Series_sum (Ventas.Unidades_Vendidas <$> ventas_of_sku sku ventas_df).

(** The velocity that the specification gives to [sku]: its units sold
    divided by the day span, rounded to 2 decimal places. *)
Definition velocidad_esperada (ventas_df : list Ventas.row) (dias sku : Z)
  : pynum :=
  round2 (Fin (Qred (inject_Z (unidades_de ventas_df sku) / inject_Z dias))).

(** A dict comprehension over [skus] with values [g]. *)
Definition mapa_de (g : Z → pynum) (skus : list Z) (d0 : gmap string pynum)
  : gmap string pynum :=
  foldl (fun d sku => <[pretty sku := g sku]> d) d0 skus.

(** ** Events *)

(** What one History row contributes, as the specification words it. *)
Definition eventos_de_fila (row : Historico.row) : list Evento.t :=
  (if decide (Historico.Stock row = 0) then [evento_rotura row] else [])
  ++ (if decide (Historico.Reposicion row = 1) then [evento_reposicion row] else []).

Definition es_rotura (e : Evento.t) : Prop := Evento.tipo e = "rotura_stock"%string.
Definition es_reposicion (e : Evento.t) : Prop := Evento.tipo e = "reposicion"%string.

#[local] Instance es_rotura_dec e : Decision (es_rotura e) :=
  decide_rel (=) (Evento.tipo e) "rotura_stock"%string.

#[local] Instance es_reposicion_dec e : Decision (es_reposicion e) :=
  decide_rel (=) (Evento.tipo e) "reposicion"%string.

(** ** Dashboard *)

(** The three fields of Global Metrics that the dashboard summary shows. *)
Definition proyeccion_resumen (m : Metricas.t) : Resumen.t :=
  {| Resumen.total_productos := Metricas.num_productos m;
     Resumen.total_vendido := Metricas.total_vendido m;
     Resumen.promedio_rotacion := Metricas.media_rotacion_por_producto m |}.

(** ** Dashboard top 3 *)

(** What the rows of the dashboard top 3 are: at most three, one per SKU,
    each with the units of its SKU over the whole Sales table and the name
    of its Stock row, in descending order of units, and no SKU left out
    sold more than one that is in. *)
Definition top_3_correcto (ventas_df : list Ventas.row)
    (stock_df : list Stock.row) (res : list Top3.t) : Prop :=
  length res
  = Nat.min 3 (size (list_to_set (Ventas.SKU <$> ventas_df) : gset Z))
  ∧ NoDup (Top3.sku <$> res)
  ∧ (∀ t, t ∈ res →
       Top3.total_vendido t = unidades_de ventas_df (Top3.sku t)
       ∧ Top3.sku t ∈ Ventas.SKU <$> ventas_df
       ∧ ∃ r, r ∈ stock_df ∧ Stock.SKU r = Top3.sku t
              ∧ Top3.nombre t = Stock.Producto r)
  ∧ descendente (Top3.total_vendido <$> res)
  ∧ (∀ sku t, sku ∈ Ventas.SKU <$> ventas_df → sku ∉ Top3.sku <$> res →
       t ∈ res → unidades_de ventas_df sku <= Top3.total_vendido t).

(** The dashboard row of a row of the top N of the month. *)
Definition top_3_de (t : TopMes.t) : Top3.t :=
  {| Top3.nombre := Stock.Producto (TopMes.producto t);
     Top3.sku := Stock.SKU (TopMes.producto t);
     Top3.total_vendido := TopMes.total_vendido_mes t |}.

(** All the sales fall in one calendar month. *)
Definition ventas_de_un_mes (ventas_df : list Ventas.row) : Prop :=
  ∀ v w, v ∈ ventas_df → w ∈ ventas_df →
    month (Ventas.Fecha v) = month (Ventas.Fecha w)
    ∧ year (Ventas.Fecha v) = year (Ventas.Fecha w).

(** The value that both velocity mappings give to [sku], NaN standing for
    a computation that raised (none does). *)
Definition velocidad_o_nan (ventas_df : list Ventas.row) (sku : Z) : pynum :=
  match velocidad (groupby_SKU_sum ventas_df) (dias_ventas ventas_df) sku with
  | Ok v => v
  | Raise _ => NaN
  end.

(** ** Endpoint *)

(** The message of the [ValueError] of a reader. *)
Definition mensaje_columnas (archivo : string) (cols : list string) : string :=
  String.append archivo
    (String.append " debe tener columnas: " (py_repr_list cols)).

(** The three uploads have the headers that the readers require. *)
Definition cabeceras_validas (stock_file : DataFrame.t Stock.row)
    (ventas_file : DataFrame.t VentasCSV.row)
    (historico_file : DataFrame.t HistoricoCSV.row) : Prop :=
  DataFrame.columns stock_file = stock_expected_cols
  ∧ DataFrame.columns ventas_file = ventas_expected_cols
  ∧ DataFrame.columns historico_file = historico_expected_cols.

(** The content of a request, from what its analytics calls return. *)
Definition contenido (stock_df : list Stock.row) (ventas_df : list Ventas.row)
    (historico_df : list Historico.row) (lentos : list Lento.t)
    (muertos : list Stock.row) (top_5 : list TopMes.t)
    (velocidades promedios : gmap string pynum) (metricas : Metricas.t)
    (resumen : Resumen.t) (top_3 : list Top3.t) : Respuesta.t :=
  {| Respuesta.openai :=
       {| OpenAI.productos_bajo_stock := productos_bajo_stock stock_df;
          OpenAI.productos_rotacion_lenta := lentos;
          OpenAI.productos_muertos := muertos;
          OpenAI.top_5_mas_vendidos_mes := top_5;
          OpenAI.estimaciones_velocidad_venta := velocidades;
          OpenAI.promedios_unidades_vendidas := promedios;
          OpenAI.metricas_globales := metricas;
          OpenAI.eventos_detectados := eventos_detectados historico_df |};
     Respuesta.dashboard :=
       {| Dashboard.alerta_stock_bajo :=
            alerta_de <$> productos_bajo_stock stock_df;
          Dashboard.resumen_global := resumen;
          Dashboard.top_3_mas_vendidos := top_3;
          Dashboard.fecha_ultimo_analisis :=
            fecha_ultimo_analisis ventas_df historico_df |} |}.

(** What holds between the entries of a content: the alerts are the
    low-stock products, the summary is the projection of Global Metrics,
    the velocity map has one entry per product counted, the two event
    counters add up to the event list, and the rankings are bounded. *)
Definition contenido_coherente (stock_df : list Stock.row)
    (resp : Respuesta.t) : Prop :=
  let o := Respuesta.openai resp in
  let d := Respuesta.dashboard resp in
  OpenAI.productos_bajo_stock o = productos_bajo_stock stock_df
  ∧ Dashboard.alerta_stock_bajo d = alerta_de <$> OpenAI.productos_bajo_stock o
  ∧ (∀ a, a ∈ Dashboard.alerta_stock_bajo d →
       ∃ r, r ∈ stock_df ∧ a = alerta_de r ∧ Stock.Stock r <= Stock.Umbral r)
  ∧ Dashboard.resumen_global d = proyeccion_resumen (OpenAI.metricas_globales o)
  ∧ Z.of_nat (size (OpenAI.estimaciones_velocidad_venta o))
    = Metricas.num_productos (OpenAI.metricas_globales o)
  ∧ Metricas.num_roturas_detectadas (OpenAI.metricas_globales o)
    + Metricas.num_reposiciones_detectadas (OpenAI.metricas_globales o)
    = Z.of_nat (length (OpenAI.eventos_detectados o))
  ∧ (length (OpenAI.top_5_mas_vendidos_mes o) <= 5)%nat
  ∧ (length (Dashboard.top_3_mas_vendidos d) <= 3)%nat
  ∧ (∀ t, t ∈ Dashboard.top_3_mas_vendidos d →
       ∃ r, r ∈ stock_df ∧ Stock.SKU r = Top3.sku t
            ∧ Top3.nombre t = Stock.Producto r).

(** ** Sample rows, for the instances below *)

Definition fila_stock (sku : Z) (nombre : string) (stock umbral : Z)
  : Stock.row :=
  {| Stock.SKU := sku; Stock.Producto := nombre; Stock.Categoria := "Ropa";
     Stock.Talla := "M"; Stock.Color := "Azul"; Stock.Stock := stock;
     Stock.Precio_Unitario := 10; Stock.Umbral := umbral |}.

(** A sale on day [dia], counted from 1970-01-01, at midnight. *)
Definition fila_venta (dia sku unidades : Z) : Ventas.row :=
  {| Ventas.Fecha := dia * ns_per_day; Ventas.SKU := sku;
     Ventas.Unidades_Vendidas := unidades |}.

Definition fila_historico (dia sku stock reposicion : Z) : Historico.row :=
  {| Historico.Fecha := dia * ns_per_day; Historico.SKU := sku;
     Historico.Stock := stock; Historico.Unidades_Vendidas := 0;
     Historico.Reposicion := reposicion; Historico.Precio_Unitario := 10;
     Historico.Ingresos_Brutos := 0 |}.

(** The same rows as [pd.read_csv] returns them, with the date as text. *)
Definition fila_venta_csv (fecha : string) (sku unidades : Z) : VentasCSV.row :=
  {| VentasCSV.Fecha := fecha; VentasCSV.SKU := sku;
     VentasCSV.Unidades_Vendidas := unidades |}.

Definition fila_historico_csv (fecha : string) (sku stock reposicion : Z)
  : HistoricoCSV.row :=
  {| HistoricoCSV.Fecha := fecha; HistoricoCSV.SKU := sku;
     HistoricoCSV.Stock := stock; HistoricoCSV.Unidades_Vendidas := 0;
     HistoricoCSV.Reposicion := reposicion;
     HistoricoCSV.Precio_Unitario := 10; HistoricoCSV.Ingresos_Brutos := 0 |}.

(** Three uploads with the headers that the readers require. *)
Definition archivo_stock (filas : list Stock.row) : DataFrame.t Stock.row :=
  {| DataFrame.columns := stock_expected_cols; DataFrame.rows := filas |}.

Definition archivo_ventas (filas : list VentasCSV.row)
  : DataFrame.t VentasCSV.row :=
  {| DataFrame.columns := ventas_expected_cols; DataFrame.rows := filas |}.

Definition archivo_historico (filas : list HistoricoCSV.row)
  : DataFrame.t HistoricoCSV.row :=
  {| DataFrame.columns := historico_expected_cols; DataFrame.rows := filas |}.

(** A conversor for the instances below.  It reads the dates written
    YYYY-MM-DD, the form of the sample files, as midnight of that day, and
    raises on any other text ([pd.to_datetime] reads more forms). *)
Definition digito (c : Ascii.ascii) : option Z :=
  let n := Z.of_N (Ascii.N_of_ascii c) - 48 in
  if (0 <=? n) && (n <=? 9) then Some n else None.

Definition numero (l : list Ascii.ascii) : option Z :=
  foldl (fun acc c => a ← acc; d ← digito c; Some (10 * a + d)) (Some 0) l.

(** Day number, counted from 1970-01-01, of a proleptic Gregorian date. *)
Definition days_from_civil (y m d : Z) : Z :=
  let y := if m <=? 2 then y - 1 else y in
  let era := y / 400 in
  let yoe := y - era * 400 in
  let mp := if m <=? 2 then m + 9 else m - 3 in
  let doy := (153 * mp + 2) / 5 + d - 1 in
  let doe := yoe * 365 + yoe / 4 - yoe / 100 + doy in
  era * 146097 + doe - 719468.

Definition fecha_iso (s : string) : option Timestamp :=
  match String.list_ascii_of_string s with
  | [y1; y2; y3; y4; g1; m1; m2; g2; d1; d2] =>
      if decide ([g1; g2] = String.list_ascii_of_string "--") then
        y ← numero [y1; y2; y3; y4];
        m ← numero [m1; m2];
        d ← numero [d1; d2];
        let n := days_from_civil y m d in
        if decide (civil_from_days n = (y, m, d)) then Some (n * ns_per_day)
        else None
      else None
  | _ => None
  end.

Definition to_datetime_iso : conversor := fun col =>
  match mapM fecha_iso col with
  | Some fechas => Exito fechas
  | None => Fallo (ValueError "Unknown datetime string format")
  end.

(** * Properties *)

Example str_date_epoch : str_date 0 = "1970-01-01"%string.
Proof. vm_compute. reflexivity. Qed.

Example str_date_leap : str_date (19782 * ns_per_day + 5) = "2024-02-29"%string.
Proof. vm_compute. reflexivity. Qed.

Example str_date_before_epoch : str_date (-1) = "1969-12-31"%string.
Proof. vm_compute. reflexivity. Qed.

(** The example of the specification: one product with 5 in stock and a
    threshold of 10, one sale of 2 units on 2024-01-01. *)
Example ejemplo_bajo_stock :
  productos_bajo_stock [fila_stock 1 "Camisa" 5 10] = [fila_stock 1 "Camisa" 5 10].
Proof. reflexivity. Qed.

Example ejemplo_velocidad :
  (d ← estimaciones_velocidad_venta [fila_venta 19723 1 2]
         [fila_stock 1 "Camisa" 5 10];
   Ok (map_to_list d))
  = Ok [("1"%string, Fin 2)].
Proof. vm_compute. reflexivity. Qed.

Example ejemplo_fecha :
  fecha_ultimo_analisis [fila_venta 19723 1 2] [fila_historico 19725 1 0 1]
  = "2024-01-03"%string.
Proof. vm_compute. reflexivity. Qed.

Example ejemplo_top_3 :
  top_3_vendidos_dashboard
    [fila_venta 19723 7 1; fila_venta 19724 8 4; fila_venta 19725 7 2;
     fila_venta 19726 9 5; fila_venta 19727 6 1]
    [fila_stock 6 "Cinto" 1 1; fila_stock 7 "Camisa" 4 2;
     fila_stock 8 "Gorra" 0 1; fila_stock 9 "Bufanda" 6 1]
  = Ok [ {| Top3.nombre := "Bufanda"; Top3.sku := 9; Top3.total_vendido := 5 |};
         {| Top3.nombre := "Gorra"; Top3.sku := 8; Top3.total_vendido := 4 |};
         {| Top3.nombre := "Camisa"; Top3.sku := 7; Top3.total_vendido := 3 |} ].
Proof. vm_compute. reflexivity. Qed.

(** ** Low-stock detection *)

(** C2. A Stock row is in the low-stock output iff its [Stock] is at most its
    [Umbral]; the output holds the stored records themselves, in the order
    and with the multiplicity of the table. *)
Theorem productos_bajo_stock_iff (stock_df : list Stock.row) :
  (∀ r, r ∈ productos_bajo_stock stock_df
        ↔ r ∈ stock_df ∧ Stock.Stock r <= Stock.Umbral r)
  ∧ productos_bajo_stock stock_df `sublist_of` stock_df.
Proof.
  unfold productos_bajo_stock. split.
  - intros r. rewrite list_elem_of_filter. tauto.
  - apply sublist_filter.
Qed.

(** ** Event extraction *)

Lemma eventos_paso_app (eventos : list Evento.t) (row : Historico.row) :
  eventos_paso eventos row = eventos ++ eventos_de_fila row.
Proof.
  unfold eventos_paso, eventos_de_fila.
  destruct (Z.eqb_spec (Historico.Stock row) 0) as [H0 | H0];
    destruct (Z.eqb_spec (Historico.Reposicion row) 1) as [H1 | H1];
    repeat case_decide; try contradiction;
    rewrite <- ?app_assoc; simpl; rewrite ?app_nil_r; reflexivity.
Qed.

Lemma fold_eventos_paso (historico_df : list Historico.row) :
  ∀ eventos,
    fold_left eventos_paso historico_df eventos
    = eventos ++ concat (eventos_de_fila <$> historico_df).
Proof.
  induction historico_df as [| row rest IH]; intros eventos; simpl.
  - by rewrite app_nil_r.
  - rewrite IH, eventos_paso_app, <- app_assoc. reflexivity.
Qed.

Lemma eventos_detectados_concat (historico_df : list Historico.row) :
  eventos_detectados historico_df = concat (eventos_de_fila <$> historico_df).
Proof. unfold eventos_detectados. by rewrite fold_eventos_paso. Qed.

Lemma eventos_detectados_app (h1 h2 : list Historico.row) :
  eventos_detectados (h1 ++ h2) = eventos_detectados h1 ++ eventos_detectados h2.
Proof. by rewrite !eventos_detectados_concat, fmap_app, concat_app. Qed.

Lemma roturas_de_fila (row : Historico.row) :
  filter es_rotura (eventos_de_fila row)
  = if decide (Historico.Stock row = 0) then [evento_rotura row] else [].
Proof. unfold eventos_de_fila. repeat case_decide; reflexivity. Qed.

Lemma reposiciones_de_fila (row : Historico.row) :
  filter es_reposicion (eventos_de_fila row)
  = if decide (Historico.Reposicion row = 1) then [evento_reposicion row] else [].
Proof. unfold eventos_de_fila. repeat case_decide; reflexivity. Qed.

(** C6. The stockout events are, in order, one per History row with
    [Stock = 0]; the restock events are, in order, one per row with
    [Reposicion = 1]; nothing else is emitted; and the events of an earlier
    part of the table precede those of a later part. *)
Theorem eventos_detectados_spec (historico_df : list Historico.row) :
  filter es_rotura (eventos_detectados historico_df)
    = evento_rotura <$> filter (fun r => Historico.Stock r = 0) historico_df
  ∧ filter es_reposicion (eventos_detectados historico_df)
    = evento_reposicion <$> filter (fun r => Historico.Reposicion r = 1) historico_df
  ∧ length (eventos_detectados historico_df)
    = Nat.add (length (filter (fun r => Historico.Stock r = 0) historico_df))
              (length (filter (fun r => Historico.Reposicion r = 1) historico_df))
  ∧ (∀ h1 h2, historico_df = h1 ++ h2 →
       eventos_detectados historico_df
       = eventos_detectados h1 ++ eventos_detectados h2).
Proof.
  repeat split.
  - rewrite eventos_detectados_concat.
    induction historico_df as [| row rest IH]; [reflexivity |].
    rewrite fmap_cons, concat_cons, filter_app, roturas_de_fila, IH, filter_cons.
    case_decide; reflexivity.
  - rewrite eventos_detectados_concat.
    induction historico_df as [| row rest IH]; [reflexivity |].
    rewrite fmap_cons, concat_cons, filter_app, reposiciones_de_fila, IH, filter_cons.
    case_decide; reflexivity.
  - rewrite eventos_detectados_concat.
    induction historico_df as [| row rest IH]; [reflexivity |].
    rewrite fmap_cons, concat_cons, length_app, IH, !filter_cons.
    unfold eventos_de_fila. repeat case_decide; simpl; lia.
  - intros h1 h2 ->. apply eventos_detectados_app.
Qed.

(** C10. A row with [Stock = 0] and [Reposicion = 1] emits its stockout
    event immediately before its restock event, after the events of the
    rows above it and before those of the rows below it. *)
Theorem eventos_rotura_antes_de_reposicion
    (h1 h2 : list Historico.row) (row : Historico.row) :
  Historico.Stock row = 0 →
  Historico.Reposicion row = 1 →
  eventos_detectados (h1 ++ row :: h2)
  = eventos_detectados h1
    ++ [evento_rotura row; evento_reposicion row]
    ++ eventos_detectados h2.
Proof.
  intros H0 H1.
  rewrite eventos_detectados_app. f_equal.
  change (row :: h2) with ([row] ++ h2).
  rewrite eventos_detectados_app. f_equal.
  unfold eventos_detectados. simpl. unfold eventos_paso.
  rewrite H0, H1. reflexivity.
Qed.

Lemma eventos_rotura_antes_de_reposicion_witness :
  let arriba := [fila_historico 19723 1 4 1] in
  let fila := fila_historico 19724 2 0 1 in
  let abajo := [fila_historico 19725 3 0 0] in
  eventos_detectados (arriba ++ fila :: abajo)
  = eventos_detectados arriba
    ++ [evento_rotura fila; evento_reposicion fila]
    ++ eventos_detectados abajo.
Proof.
  exact (eventos_rotura_antes_de_reposicion
           [fila_historico 19723 1 4 1] [fila_historico 19725 3 0 0]
           (fila_historico 19724 2 0 1) eq_refl eq_refl).
Defined.

(** ** Extremes of a date column *)

Lemma fold_left_max_spec (l : list Z) :
  ∀ x, (fold_left Z.max l x = x ∨ fold_left Z.max l x ∈ l)
       ∧ x <= fold_left Z.max l x
       ∧ ∀ y, y ∈ l → y <= fold_left Z.max l x.
Proof.
  induction l as [| a l IH]; intros x; simpl.
  - split; [by left |]. split; [lia |]. intros y Hy. inversion Hy.
  - destruct (IH (Z.max x a)) as (Hin & Hle & Hall).
    split; [| split].
    + destruct Hin as [Heq | Hin].
      * rewrite Heq. destruct (Z.max_spec x a) as [[_ ->] | [_ ->]];
          [right; left | by left].
      * right. by right.
    + lia.
    + intros y Hy. apply elem_of_cons in Hy as [-> | Hy]; [lia | by apply Hall].
Qed.

Lemma fold_left_min_spec (l : list Z) :
  ∀ x, (fold_left Z.min l x = x ∨ fold_left Z.min l x ∈ l)
       ∧ fold_left Z.min l x <= x
       ∧ ∀ y, y ∈ l → fold_left Z.min l x <= y.
Proof.
  induction l as [| a l IH]; intros x; simpl.
  - split; [by left |]. split; [lia |]. intros y Hy. inversion Hy.
  - destruct (IH (Z.min x a)) as (Hin & Hle & Hall).
    split; [| split].
    + destruct Hin as [Heq | Hin].
      * rewrite Heq. destruct (Z.min_spec x a) as [[_ ->] | [_ ->]];
          [by left | right; left].
      * right. by right.
    + lia.
    + intros y Hy. apply elem_of_cons in Hy as [-> | Hy]; [lia | by apply Hall].
Qed.

Lemma Series_max_Some (l : list Z) (m : Z) :
  Series_max l = Some m → es_maximo m l.
Proof.
  destruct l as [| x l]; simpl; [discriminate |]. intros [= <-].
  destruct (fold_left_max_spec l x) as (Hin & Hle & Hall). split.
  - destruct Hin as [-> | Hin]; [left | by right].
  - intros y Hy. apply elem_of_cons in Hy as [-> | Hy]; [lia | by apply Hall].
Qed.

Lemma Series_max_None (l : list Z) : Series_max l = None → l = [].
Proof. by destruct l. Qed.

Lemma es_maximo_unique (l : list Z) (a b : Z) :
  es_maximo a l → es_maximo b l → a = b.
Proof. intros [Ha Ha'] [Hb Hb']. specialize (Ha' _ Hb). specialize (Hb' _ Ha). lia. Qed.

Lemma fmap_nil_inv' {A B : Type} (f : A → B) (l : list A) : f <$> l = [] → l = [].
Proof. by destruct l. Qed.

(** ** Last-analysis date *)

(** C8. The result is the date of the later of the latest Sales date and
    the latest History date; with one table empty it is the latest date of
    the other, and with both empty it is the empty string. *)
Theorem fecha_ultimo_analisis_spec
    (ventas_df : list Ventas.row) (historico_df : list Historico.row) :
  match Series_max (Ventas.Fecha <$> ventas_df),
        Series_max (Historico.Fecha <$> historico_df) with
  | None, None =>
      ventas_df = [] ∧ historico_df = []
      ∧ fecha_ultimo_analisis ventas_df historico_df = ""%string
  | Some fv, None =>
      historico_df = [] ∧ es_maximo fv (Ventas.Fecha <$> ventas_df)
      ∧ fecha_ultimo_analisis ventas_df historico_df = str_date fv
  | None, Some fh =>
      ventas_df = [] ∧ es_maximo fh (Historico.Fecha <$> historico_df)
      ∧ fecha_ultimo_analisis ventas_df historico_df = str_date fh
  | Some fv, Some fh =>
      es_maximo fv (Ventas.Fecha <$> ventas_df)
      ∧ es_maximo fh (Historico.Fecha <$> historico_df)
      ∧ fecha_ultimo_analisis ventas_df historico_df = str_date (Z.max fv fh)
  end.
Proof.
  unfold fecha_ultimo_analisis.
  destruct (Series_max (Ventas.Fecha <$> ventas_df)) as [fv |] eqn:Hv;
    destruct (Series_max (Historico.Fecha <$> historico_df)) as [fh |] eqn:Hh.
  - split; [by apply Series_max_Some |]. split; [by apply Series_max_Some |].
    destruct ventas_df; [discriminate |]. destruct historico_df; [discriminate |].
    reflexivity.
  - apply Series_max_None, fmap_nil_inv' in Hh. subst historico_df.
    split; [reflexivity |]. split; [by apply Series_max_Some |].
    destruct ventas_df; [discriminate |]. reflexivity.
  - apply Series_max_None, fmap_nil_inv' in Hv. subst ventas_df.
    split; [reflexivity |]. split; [by apply Series_max_Some |].
    destruct historico_df; [discriminate |]. reflexivity.
  - apply Series_max_None, fmap_nil_inv' in Hv.
    apply Series_max_None, fmap_nil_inv' in Hh. by subst.
Qed.

(** ** Guarded divisions *)

Lemma truthy_no_cero (x : pynum) : truthy x = true → no_cero x.
Proof.
  destruct x as [| q]; simpl; [done |].
  intros H Hq. apply Qeq_bool_iff in Hq. rewrite Hq in H. discriminate.
Qed.

Lemma no_cero_mul (a b : pynum) : no_cero a → no_cero b → no_cero (mul a b).
Proof.
  destruct a as [| qa], b as [| qb]; simpl; try done.
  intros Ha Hb H. rewrite Qred_correct in H.
  apply Qmult_integral in H. tauto.
Qed.

Lemma truediv_no_cero (a b : pynum) :
  no_cero b → ∃ c, truediv a b = Ok c.
Proof.
  destruct b as [| qb]; simpl; [by eexists |].
  intros Hb. destruct (Qeq_bool qb 0) eqn:E.
  - apply Qeq_bool_iff in E. contradiction.
  - destruct a; by eexists.
Qed.

Lemma media_rotacion_total (total_vendido num_productos : Z) :
  ∃ x, media_rotacion total_vendido num_productos = Ok x.
Proof.
  unfold media_rotacion. destruct (truthy (of_int num_productos)) eqn:E.
  - destruct (truediv_no_cero (of_int total_vendido) (of_int num_productos))
      as [c Hc]; [by apply truthy_no_cero |].
    rewrite Hc. by eexists.
  - by eexists.
Qed.

(** ** Dashboard summary *)

(** C9. Both functions return, and the summary is the projection of Global
    Metrics onto its distinct-product count, its total of units sold and its
    rotation average. *)
Theorem resumen_global_dashboard_proyeccion
    (stock_df : list Stock.row) (ventas_df : list Ventas.row)
    (historico_df : list Historico.row) :
  ∃ m, metricas_globales stock_df ventas_df historico_df = Ok m
       ∧ resumen_global_dashboard stock_df ventas_df historico_df
         = Ok (proyeccion_resumen m)
       ∧ Metricas.num_productos m
         = Z.of_nat (size (list_to_set (Stock.SKU <$> stock_df) : gset Z))
       ∧ Metricas.total_vendido m
         = Series_sum (Ventas.Unidades_Vendidas <$> ventas_df)
       ∧ (Metricas.num_productos m = 0
          → Metricas.media_rotacion_por_producto m = of_int 0).
Proof.
  unfold metricas_globales, resumen_global_dashboard.
  destruct (media_rotacion_total
              (Series_sum (Ventas.Unidades_Vendidas <$> ventas_df))
              (nunique (Stock.SKU <$> stock_df))) as [x Hx].
  rewrite Hx. simpl. eexists. split; [reflexivity |].
  split; [reflexivity |]. simpl. split; [reflexivity |]. split; [reflexivity |].
  intros H0. unfold media_rotacion in Hx. rewrite H0 in Hx. simpl in Hx.
  by injection Hx.
Qed.

(** ** Loops *)

Lemma bind_Ok {A B : Type} (a : A) (k : A → result B) : (Ok a ≫= k) = k a.
Proof. reflexivity. Qed.

Lemma for_loop_raise {A S : Type} (body : S → A → result S) (l : list A) :
  ∀ s e, for_loop body s l = Raise e → ∃ s' x, x ∈ l ∧ body s' x = Raise e.
Proof.
  induction l as [| x l IH]; intros s e; simpl; [discriminate |].
  destruct (body s x) as [s' | e'] eqn:E; simpl.
  - intros H. destruct (IH _ _ H) as (s'' & y & Hy & Hb).
    exists s'', y. split; [by right | done].
  - intros [= ->]. exists s, x. split; [by left | done].
Qed.

Lemma for_loop_skip {A S : Type} (body : S → A → result S) (l : list A) :
  (∀ s x, x ∈ l → body s x = Ok s) → ∀ s, for_loop body s l = Ok s.
Proof.
  induction l as [| x l IH]; intros Hb s; simpl; [reflexivity |].
  rewrite Hb by left. simpl. apply IH. intros s' y Hy. apply Hb. by right.
Qed.

(** ** Group keys *)

Lemma elem_of_insert_key (k x : Z) (l : list Z) :
  x ∈ insert_key k l ↔ x = k ∨ x ∈ l.
Proof.
  induction l as [| k' t IH]; simpl.
  - rewrite list_elem_of_singleton, elem_of_nil. tauto.
  - destruct (Z.ltb_spec k k'); [by rewrite elem_of_cons |].
    destruct (Z.eqb_spec k k') as [-> | Hne].
    + rewrite elem_of_cons. tauto.
    + rewrite !elem_of_cons, IH. tauto.
Qed.

Lemma elem_of_group_keys (x : Z) (l : list Z) : x ∈ group_keys l ↔ x ∈ l.
Proof.
  induction l as [| k l IH]; simpl; [reflexivity |].
  rewrite elem_of_insert_key, elem_of_cons, IH. tauto.
Qed.

Lemma elem_of_groupby_SKU_sum (ventas_df : list Ventas.row) (sku total : Z) :
  (sku, total) ∈ groupby_SKU_sum ventas_df
  ↔ sku ∈ Ventas.SKU <$> ventas_df
    ∧ total = Series_sum (Ventas.Unidades_Vendidas <$> ventas_of_sku sku ventas_df).
Proof.
  unfold groupby_SKU_sum. rewrite list_elem_of_fmap. split.
  - intros (k & Heq & Hk). injection Heq as -> ->.
    split; [by apply elem_of_group_keys | reflexivity].
  - intros [Hk ->]. exists sku. split; [reflexivity | by apply elem_of_group_keys].
Qed.

Lemma groupby_SKU_sum_keys (ventas_df : list Ventas.row) :
  (groupby_SKU_sum ventas_df).*1 = group_keys (Ventas.SKU <$> ventas_df).
Proof.
  unfold groupby_SKU_sum.
  induction (group_keys (Ventas.SKU <$> ventas_df)) as [| k ks IH];
    [reflexivity |].
  rewrite !fmap_cons, IH. reflexivity.
Qed.

Lemma groupby_SKU_sum_nil_inv (ventas_df : list Ventas.row) :
  groupby_SKU_sum ventas_df = [] → ventas_df = [].
Proof.
  destruct ventas_df as [| r rest]; [done |]. intros H.
  assert (Hin : Ventas.SKU r ∈ group_keys (Ventas.SKU <$> r :: rest))
    by (apply elem_of_group_keys; left).
  apply fmap_nil_inv' in H. rewrite H in Hin. by apply elem_of_nil in Hin.
Qed.

(** ** Day span *)

Lemma Timedelta_days_nonneg (delta : Z) : 0 <= delta → 0 <= Timedelta_days delta.
Proof. intros H. unfold Timedelta_days, ns_per_day. apply Z.div_pos; lia. Qed.

(** The day span is NaN on the empty table and at least 1 on any other:
    the guard [if dias] never meets a zero. *)
Lemma dias_ventas_cases (ventas_df : list Ventas.row) :
  (ventas_df = [] ∧ dias_ventas ventas_df = NaN)
  ∨ (ventas_df ≠ [] ∧ ∃ d, 1 <= d ∧ dias_ventas ventas_df = of_int d).
Proof.
  destruct ventas_df as [| r rest]; [by left |]. right. split; [done |].
  unfold dias_ventas. rewrite fmap_cons. unfold Series_max, Series_min.
  destruct (fold_left_max_spec (Ventas.Fecha <$> rest) (Ventas.Fecha r))
    as (_ & Hmax & _).
  destruct (fold_left_min_spec (Ventas.Fecha <$> rest) (Ventas.Fecha r))
    as (_ & Hmin & _).
  eexists. split; [| reflexivity].
  pose proof (Timedelta_days_nonneg
    (fold_left Z.max (Ventas.Fecha <$> rest) (Ventas.Fecha r)
     - fold_left Z.min (Ventas.Fecha <$> rest) (Ventas.Fecha r))).
  lia.
Qed.

Lemma truthy_of_int (d : Z) : d ≠ 0 → truthy (of_int d) = true.
Proof.
  intros Hd. unfold truthy, of_int.
  destruct (Qeq_bool (inject_Z d) 0) eqn:E; [| reflexivity].
  apply Qeq_bool_iff in E. unfold Qeq in E. simpl in E. lia.
Qed.

Lemma of_int_inj (a b : Z) : of_int a = of_int b → a = b.
Proof. by intros [= ->]. Qed.

Lemma truediv_cero (q : Q) :
  ¬ (q == 0)%Q → truediv (of_int 0) (Fin q) = Ok (of_int 0).
Proof.
  intros Hq. unfold truediv, of_int.
  destruct (Qeq_bool q 0) eqn:E; [by apply Qeq_bool_iff in E |].
  reflexivity.
Qed.

Lemma truediv_cero_int (d : Z) :
  d ≠ 0 → truediv (of_int 0) (of_int d) = Ok (of_int 0).
Proof.
  intros Hd. apply truediv_cero. intros H. unfold Qeq in H. simpl in H. lia.
Qed.

Lemma ltb_mul_cero (md umbral : pynum) :
  md = of_int 0 ∨ md = NaN → ltb md (mul umbral (of_int 0)) = false.
Proof.
  intros [-> | ->]; [| reflexivity].
  destruct umbral as [| u]; [reflexivity |]. simpl.
  assert (Hu : Qred (u * inject_Z 0) = Qred 0)
    by (apply Qred_complete, Qmult_0_r).
  rewrite Hu. reflexivity.
Qed.

Lemma Series_sum_ceros (l : list Z) : Forall (fun u => u = 0) l → Series_sum l = 0.
Proof.
  intros H. unfold Series_sum.
  assert (H0 : foldr Z.add 0 l = 0)
    by (induction H as [| u l -> _ IH]; simpl; [reflexivity | by rewrite IH]).
  by rewrite H0.
Qed.

(** ** Stock lookup *)

(** The lookup returns a row of the table with the SKU asked for, or fails
    with [IndexError] when the table has none. *)
Lemma stock_row_of_cases (stock_df : list Stock.row) (sku : Z) :
  (∃ r, stock_row_of stock_df sku = Ok r ∧ r ∈ stock_df ∧ Stock.SKU r = sku)
  ∨ (stock_row_of stock_df sku = Raise IndexError
     ∧ ∀ r, r ∈ stock_df → Stock.SKU r ≠ sku).
Proof.
  unfold stock_row_of.
  destruct (filter (λ r, Stock.SKU r = sku) stock_df) as [| r rest] eqn:E.
  - right. split; [reflexivity |]. intros r Hr Hsku.
    assert (Hin : r ∈ filter (λ r, Stock.SKU r = sku) stock_df)
      by (by apply list_elem_of_filter).
    rewrite E in Hin. by apply elem_of_nil in Hin.
  - left. exists r. split; [reflexivity |].
    assert (Hin : r ∈ filter (λ r, Stock.SKU r = sku) stock_df)
      by (rewrite E; left).
    apply list_elem_of_filter in Hin. tauto.
Qed.

(** ** Loops that look rows up in Stock *)

Lemma filter_siempre {A : Type} (l : list A) :
  filter (fun _ : A => true = true) l = l.
Proof.
  induction l as [| x l IH]; [reflexivity |].
  by rewrite filter_cons_True, IH.
Qed.

(** A loop that looks up the Stock row of each selected entry and appends a
    record built from it either meets a selected entry without Stock row
    and raises, or appends one record per selected entry. *)
Lemma for_loop_busqueda {A B : Type} (stock_df : list Stock.row)
    (key : A → Z) (mk : A → Stock.row → B) (sel : A → bool)
    (body : list B → A → result (list B)) (l : list A) :
  (∀ res x, body res x
            = if sel x
              then prod ← stock_row_of stock_df (key x); Ok (res ++ [mk x prod])
              else Ok res) →
  ∀ acc,
    (for_loop body acc l = Raise IndexError
     ∧ ∃ x, x ∈ l ∧ sel x = true ∧ sin_fila_stock stock_df (key x))
    ∨ (∃ filas,
         for_loop body acc l = Ok (acc ++ filas)
         ∧ Forall2 (fun x y => ∃ r, stock_row_of stock_df (key x) = Ok r
                                    ∧ y = mk x r)
                   (filter (fun x => sel x = true) l) filas).
Proof.
  intros Hbody. induction l as [| x l IH]; intros acc.
  - right. exists []. simpl. rewrite app_nil_r. split; [done | constructor].
  - simpl for_loop. rewrite Hbody. destruct (sel x) eqn:Hs.
    + destruct (stock_row_of_cases stock_df (key x))
        as [(r & Hr & _) | [Hr Hfalta]].
      * rewrite Hr, !bind_Ok.
        destruct (IH (acc ++ [mk x r]))
          as [[He (y & Hy & Hsy & Hfy)] | (filas & Hf & HF)].
        -- left. split; [done |]. exists y. split; [by right | done].
        -- right. exists (mk x r :: filas). rewrite Hf, <- app_assoc.
           split; [done |]. rewrite filter_cons_True by done.
           constructor; eauto.
      * left. rewrite Hr. split; [done |]. exists x. split; [by left | done].
    + rewrite bind_Ok.
      destruct (IH acc) as [[He (y & Hy & Hsy & Hfy)] | (filas & Hf & HF)].
      * left. split; [done |]. exists y. split; [by right | done].
      * right. exists filas. split; [done |].
        rewrite filter_cons_False by (rewrite Hs; discriminate). done.
Qed.

Lemma for_loop_busqueda_resultado {B : Type} (stock_df : list Stock.row)
    (mk : Z * Z → Stock.row → B) (sel : Z * Z → bool) (sku_de : B → Z)
    (body : list B → Z * Z → result (list B)) (l : list (Z * Z)) :
  (∀ res x, body res x
            = if sel x
              then prod ← stock_row_of stock_df x.1; Ok (res ++ [mk x prod])
              else Ok res) →
  (∀ x r, Stock.SKU r = x.1 → sku_de (mk x r) = x.1) →
  resultado_busqueda (for_loop body [] l)
    (filter (fun x => sel x = true) l) sku_de stock_df.
Proof.
  intros Hbody Hsku.
  destruct (for_loop_busqueda stock_df fst mk sel body l Hbody [])
    as [[He (x & Hx & Hs & Hf)] | (filas & Hf & HF)].
  - left. split; [done |]. exists x. split; [| done].
    by apply list_elem_of_filter.
  - right. exists filas. split; [done |].
    clear Hf. induction HF as [| x y xs ys Hxy HF IH].
    + split; [| reflexivity]. intros x Hx. by apply elem_of_nil in Hx.
    + destruct Hxy as (r & Hr & ->). destruct IH as [IH1 IH2].
      destruct (stock_row_of_cases stock_df x.1)
        as [(r' & Hr' & Hin & Hk) | [Hr' _]]; [| congruence].
      assert (r' = r) as -> by congruence. split.
      * intros z Hz Hfalta. apply elem_of_cons in Hz as [-> | Hz].
        -- by apply (Hfalta r).
        -- by apply (IH1 z).
      * rewrite !fmap_cons, IH2, Hsku by done. reflexivity.
Qed.

(** ** Slow-rotation detection *)

Lemma media_global_total (ventas_df : list Ventas.row) :
  ∃ mg, media_global ventas_df = Ok mg.
Proof.
  unfold media_global.
  destruct (truthy (dias_ventas ventas_df)
            && truthy (of_int (Z.of_nat (length (groupby_SKU_sum ventas_df)))))
    eqn:E; [| by eexists].
  apply andb_true_iff in E as [Hd Hl].
  apply truediv_no_cero, no_cero_mul; by apply truthy_no_cero.
Qed.

(** The only exception that slow-rotation detection can raise is the failed
    Stock lookup: no division by zero escapes it, whatever the tables. *)
Lemma productos_rotacion_lenta_sin_division_por_cero
    (ventas_df : list Ventas.row) (historico_df : list Historico.row)
    (stock_df : list Stock.row) (umbral : pynum) :
  productos_rotacion_lenta ventas_df historico_df stock_df umbral
  ≠ Raise ZeroDivisionError.
Proof.
  unfold productos_rotacion_lenta.
  destruct (media_global_total ventas_df) as [mg ->]. simpl.
  intros H. apply for_loop_raise in H as (s & [sku total] & _ & H).
  destruct (truthy (dias_ventas ventas_df)) eqn:Hd.
  - unfold media_diaria_de in H. rewrite Hd in H.
    destruct (truediv_no_cero (of_int total) (dias_ventas ventas_df))
      as [md Hmd]; [by apply truthy_no_cero |].
    rewrite Hmd, bind_Ok in H.
    destruct (ltb md (mul umbral mg)); [| discriminate].
    destruct (stock_row_of_cases stock_df sku) as [(r & Hr & _) | [Hr _]];
      rewrite Hr in H; discriminate.
  - unfold media_diaria_de in H. rewrite Hd, bind_Ok in H.
    destruct (ltb (of_int 0) (mul umbral mg)); [| discriminate].
    destruct (stock_row_of_cases stock_df sku) as [(r & Hr & _) | [Hr _]];
      rewrite Hr in H; discriminate.
Qed.

(** C7. On a Sales table whose day span is undefined or zero, or in which no
    SKU has sales, the global average is 0 and slow-rotation detection
    returns the empty list: nothing is flagged and nothing is raised. *)
Theorem productos_rotacion_lenta_degenerado
    (ventas_df : list Ventas.row) (historico_df : list Historico.row)
    (stock_df : list Stock.row) (umbral : pynum) :
  ventas_degeneradas ventas_df →
  media_global ventas_df = Ok (of_int 0)
  ∧ productos_rotacion_lenta ventas_df historico_df stock_df umbral = Ok [].
Proof.
  intros Hdeg.
  destruct (dias_ventas_cases ventas_df) as [[-> _] | [Hne (d & Hd & Hdias)]].
  { split; reflexivity. }
  assert (Hz : Forall (fun r => Ventas.Unidades_Vendidas r = 0) ventas_df).
  { destruct Hdeg as [H | [H | [H | H]]]; [| | | done].
    - rewrite Hdias in H. discriminate.
    - rewrite Hdias in H. apply of_int_inj in H. lia.
    - by apply groupby_SKU_sum_nil_inv in H. }
  assert (Hmg : media_global ventas_df = Ok (of_int 0)).
  { unfold media_global. rewrite Hdias.
    destruct (truthy (of_int d)
              && truthy (of_int (Z.of_nat (length (groupby_SKU_sum ventas_df)))))
      eqn:E; [| reflexivity].
    apply andb_true_iff in E as [E1 E2].
    rewrite (Series_sum_ceros (Ventas.Unidades_Vendidas <$> ventas_df))
      by (by apply Forall_fmap).
    apply (truediv_cero (Qred (inject_Z _ * inject_Z d))).
    apply (no_cero_mul (of_int _) (of_int d)); by apply truthy_no_cero. }
  split; [exact Hmg |].
  unfold productos_rotacion_lenta. rewrite Hmg. simpl.
  apply for_loop_skip. intros lentos [sku total] Hin.
  apply elem_of_groupby_SKU_sum in Hin as [_ ->].
  rewrite Series_sum_ceros
    by (apply Forall_fmap, Forall_forall; intros r Hr;
        apply list_elem_of_filter in Hr as [_ Hr];
        by apply (proj1 (Forall_forall _ _) Hz)).
  unfold media_diaria_de. rewrite Hdias, truthy_of_int by lia.
  rewrite truediv_cero_int, bind_Ok by lia.
  rewrite ltb_mul_cero by (by left). reflexivity.
Qed.

Lemma productos_rotacion_lenta_degenerado_witness :
  let ventas_df := [fila_venta 19723 1 0; fila_venta 19730 2 0] in
  ventas_degeneradas ventas_df
  ∧ media_global ventas_df = Ok (of_int 0)
  ∧ productos_rotacion_lenta ventas_df [] [] umbral_default = Ok [].
Proof.
  assert (H : ventas_degeneradas [fila_venta 19723 1 0; fila_venta 19730 2 0])
    by (do 3 right; repeat constructor).
  split; [exact H |].
  exact (productos_rotacion_lenta_degenerado _ [] [] umbral_default H).
Defined.

(** ** Dead-stock detection *)

Lemma stock_row_of_cons (r : Stock.row) (stock_df : list Stock.row) (sku : Z) :
  stock_row_of (r :: stock_df) sku
  = if decide (Stock.SKU r = sku) then Ok r else stock_row_of stock_df sku.
Proof. unfold stock_row_of. rewrite filter_cons. by case_decide. Qed.

(** With unique SKUs the lookup of a row's SKU returns that very row. *)
Lemma stock_row_of_NoDup (stock_df : list Stock.row) (r : Stock.row) :
  NoDup (Stock.SKU <$> stock_df) → r ∈ stock_df →
  stock_row_of stock_df (Stock.SKU r) = Ok r.
Proof.
  induction stock_df as [| a l IH]; intros Hnd Hin; [by apply elem_of_nil in Hin |].
  rewrite fmap_cons in Hnd. apply NoDup_cons in Hnd as [Ha Hnd].
  rewrite stock_row_of_cons. apply elem_of_cons in Hin as [-> | Hin].
  - by case_decide.
  - case_decide as Heq; [| by apply IH].
    exfalso. apply Ha. rewrite Heq. by apply list_elem_of_fmap_2.
Qed.

Lemma productos_muertos_loop (ventas_df : list Ventas.row)
    (stock_df : list Stock.row) (umbral_dias : Z) (l : list Stock.row) :
  (∀ r, r ∈ l → stock_row_of stock_df (Stock.SKU r) = Ok r) →
  ∀ muertos,
    for_loop (fun muertos sku =>
        if sin_ventas_recientes
             (Series_max (Ventas.Fecha <$> ventas_df))
             (Series_max (Ventas.Fecha <$> ventas_of_sku sku ventas_df))
             umbral_dias
        then producto ← stock_row_of stock_df sku; Ok (muertos ++ [producto])
        else Ok muertos)
      muertos (Stock.SKU <$> l)
    = Ok (muertos
          ++ filter (fun r => prueba_muerto ventas_df umbral_dias (Stock.SKU r) = true) l).
Proof.
  induction l as [| r l IH]; intros Hl muertos.
  - simpl. by rewrite filter_nil, app_nil_r.
  - rewrite fmap_cons. simpl for_loop. rewrite filter_cons.
    fold (prueba_muerto ventas_df umbral_dias (Stock.SKU r)).
    destruct (prueba_muerto ventas_df umbral_dias (Stock.SKU r)) eqn:E.
    + rewrite Hl by left. rewrite !bind_Ok.
      rewrite IH by (intros r' Hr'; apply Hl; by right).
      rewrite decide_True by done. by rewrite <- app_assoc.
    + rewrite bind_Ok. rewrite IH by (intros r' Hr'; apply Hl; by right).
      by rewrite decide_False by done.
Qed.

Lemma elem_of_fechas_de_sku (ventas_df : list Ventas.row) (sku : Z) (u : Z) :
  u ∈ Ventas.Fecha <$> ventas_of_sku sku ventas_df
  ↔ ∃ v, v ∈ ventas_df ∧ Ventas.SKU v = sku ∧ Ventas.Fecha v = u.
Proof.
  unfold ventas_of_sku. rewrite list_elem_of_fmap. split.
  - intros (v & -> & Hv). apply list_elem_of_filter in Hv as [Hs Hv]. eauto.
  - intros (v & Hv & Hs & <-). exists v. split; [done |].
    by apply list_elem_of_filter.
Qed.

Lemma es_maximo_ultima_venta (ventas_df : list Ventas.row) (sku : Z) (u : Z) :
  es_maximo u (Ventas.Fecha <$> ventas_of_sku sku ventas_df)
  ↔ ultima_venta ventas_df sku u.
Proof.
  unfold es_maximo, ultima_venta. rewrite elem_of_fechas_de_sku. split.
  - intros [Hex Hall]. split; [done |]. intros v Hv Hs.
    apply Hall, elem_of_fechas_de_sku. eauto.
  - intros [Hex Hall]. split; [done |]. intros x Hx.
    apply elem_of_fechas_de_sku in Hx as (v & Hv & Hs & <-). by apply Hall.
Qed.

Lemma es_maximo_fecha_maxima (ventas_df : list Ventas.row) (m : Z) :
  es_maximo m (Ventas.Fecha <$> ventas_df) ↔ fecha_maxima ventas_df m.
Proof.
  unfold es_maximo, fecha_maxima. rewrite list_elem_of_fmap. split.
  - intros [(v & -> & Hv) Hall]. split; [eauto |]. intros v' Hv'.
    by apply Hall, list_elem_of_fmap_2.
  - intros [(v & Hv & <-) Hall]. split; [eauto |]. intros x Hx.
    apply list_elem_of_fmap in Hx as (v' & -> & Hv'). by apply Hall.
Qed.

Lemma Timedelta_days_ge (k delta : Z) :
  k <= Timedelta_days delta ↔ k * ns_per_day <= delta.
Proof.
  unfold Timedelta_days, ns_per_day. split; intros H.
  - pose proof (Z.mul_div_le delta 86400000000000). lia.
  - apply Z.div_le_lower_bound; lia.
Qed.

(** The test of the code agrees with the specification's notion of a dead
    product. *)
Lemma prueba_muerto_spec (ventas_df : list Ventas.row) (umbral_dias sku : Z) :
  prueba_muerto ventas_df umbral_dias sku = true
  ↔ producto_muerto ventas_df umbral_dias sku.
Proof.
  unfold prueba_muerto, sin_ventas_recientes, producto_muerto.
  destruct (Series_max (Ventas.Fecha <$> ventas_of_sku sku ventas_df))
    as [u |] eqn:Hu.
  - apply Series_max_Some in Hu. pose proof Hu as Hu'.
    apply es_maximo_ultima_venta in Hu'.
    destruct Hu' as [(v & Hv & Hs & Hf) Hlast].
    destruct (Series_max (Ventas.Fecha <$> ventas_df)) as [m |] eqn:Hm.
    + apply Series_max_Some in Hm. rewrite Z.leb_le, Timedelta_days_ge. split.
      * intros Hle. right. exists u, m.
        split; [by apply es_maximo_ultima_venta |].
        split; [by apply es_maximo_fecha_maxima | done].
      * intros [Hn | (u' & m' & Hu' & Hm' & Hle)]; [by destruct (Hn v Hv) |].
        apply es_maximo_ultima_venta in Hu'. apply es_maximo_fecha_maxima in Hm'.
        by rewrite (es_maximo_unique _ _ _ Hu Hu'), (es_maximo_unique _ _ _ Hm Hm').
    + apply Series_max_None, fmap_nil_inv' in Hm. subst ventas_df.
      by apply elem_of_nil in Hv.
  - split; [| done]. intros _. left. intros v Hv Hs.
    apply Series_max_None in Hu.
    assert (Hin : Ventas.Fecha v ∈ Ventas.Fecha <$> ventas_of_sku sku ventas_df)
      by (apply elem_of_fechas_de_sku; eauto).
    rewrite Hu in Hin. by apply elem_of_nil in Hin.
Qed.

Lemma productos_muertos_spec (ventas_df : list Ventas.row)
    (stock_df : list Stock.row) (umbral_dias : Z) :
  NoDup (Stock.SKU <$> stock_df) →
  ∃ muertos,
    productos_muertos ventas_df stock_df umbral_dias = Ok muertos
    ∧ (∀ r, r ∈ muertos
            ↔ r ∈ stock_df ∧ producto_muerto ventas_df umbral_dias (Stock.SKU r))
    ∧ muertos `sublist_of` stock_df.
Proof.
  intros Hnd. unfold productos_muertos.
  rewrite (productos_muertos_loop ventas_df stock_df umbral_dias stock_df)
    by (intros r Hr; by apply stock_row_of_NoDup).
  eexists. split; [reflexivity |]. simpl. split.
  - intros r. rewrite list_elem_of_filter, prueba_muerto_spec. tauto.
  - apply sublist_filter.
Qed.

(** Without any assumption on the Stock table: the function returns, every
    output row is a Stock row with a dead SKU, and every dead SKU of Stock
    has a row in the output. *)
Lemma productos_muertos_skus (ventas_df : list Ventas.row)
    (stock_df : list Stock.row) (umbral_dias : Z) :
  ∃ muertos,
    productos_muertos ventas_df stock_df umbral_dias = Ok muertos
    ∧ (∀ r, r ∈ muertos
            → r ∈ stock_df ∧ producto_muerto ventas_df umbral_dias (Stock.SKU r))
    ∧ (∀ sku, sku ∈ Stock.SKU <$> muertos
              ↔ sku ∈ Stock.SKU <$> stock_df
                ∧ producto_muerto ventas_df umbral_dias sku).
Proof.
  unfold productos_muertos.
  match goal with |- ∃ _, for_loop ?body [] ?l = _ ∧ _ =>
    destruct (for_loop_busqueda stock_df id (fun _ prod => prod)
                (prueba_muerto ventas_df umbral_dias) body l
                (fun _ _ => eq_refl) [])
      as [[_ (sku & Hsku & _ & Hfalta)] | (muertos & Hm & HF)]
  end.
  { exfalso. apply list_elem_of_fmap in Hsku as (r & Heq & Hr).
    apply (Hfalta r Hr). symmetry. exact Heq. }
  unfold id in HF. exists muertos. split; [exact Hm |].
  assert (Hfila : ∀ sku r, stock_row_of stock_df sku = Ok r
                           → r ∈ stock_df ∧ Stock.SKU r = sku).
  { intros sku r Hr.
    destruct (stock_row_of_cases stock_df sku)
      as [(r' & Hr' & Hin & Hk) | [Hr' _]]; [| congruence].
    assert (r' = r) as -> by congruence. done. }
  split.
  - intros r Hr. apply list_elem_of_lookup in Hr as [i Hr].
    destruct (Forall2_lookup_r _ _ _ _ _ HF Hr) as (sku & Hsku & r' & Hr' & ->).
    apply list_elem_of_lookup_2, list_elem_of_filter in Hsku as [Hdead _].
    destruct (Hfila _ _ Hr') as [Hin <-].
    split; [done | by apply prueba_muerto_spec].
  - intros sku. split.
    + intros Hsku. apply list_elem_of_fmap in Hsku as (r & -> & Hr).
      apply list_elem_of_lookup in Hr as [i Hr].
      destruct (Forall2_lookup_r _ _ _ _ _ HF Hr) as (sku & Hsku & r' & Hr' & ->).
      apply list_elem_of_lookup_2, list_elem_of_filter in Hsku as [Hdead Hsku].
      destruct (Hfila _ _ Hr') as [Hin <-].
      split; [by apply list_elem_of_fmap_2 | by apply prueba_muerto_spec].
    + intros [Hsku Hdead].
      assert (Hsel : sku ∈ filter
                       (fun x => prueba_muerto ventas_df umbral_dias x = true)
                       (Stock.SKU <$> stock_df))
        by (apply list_elem_of_filter; split; [by apply prueba_muerto_spec | done]).
      apply list_elem_of_lookup in Hsel as [i Hi].
      destruct (Forall2_lookup_l _ _ _ _ _ HF Hi) as (r & Hr & r' & Hr' & ->).
      destruct (Hfila _ _ Hr') as [_ <-].
      by eapply list_elem_of_fmap_2, list_elem_of_lookup_2.
Qed.

(** C3. Dead-stock detection returns; its output consists of Stock rows,
    and the SKUs in it are exactly the SKUs of Stock that never appear in
    Sales or whose most recent sale is at least 14 days before the latest
    date of the Sales table.  With the SKUs of the Stock table unique (its
    invariant) the output is exactly the set of those Stock rows, in the
    order of the table. *)
Theorem productos_muertos_exacto (ventas_df : list Ventas.row)
    (stock_df : list Stock.row) :
  ∃ muertos,
    productos_muertos ventas_df stock_df umbral_dias_default = Ok muertos
    ∧ (∀ r, r ∈ muertos
            → r ∈ stock_df ∧ producto_muerto ventas_df 14 (Stock.SKU r))
    ∧ (∀ sku, sku ∈ Stock.SKU <$> muertos
              ↔ sku ∈ Stock.SKU <$> stock_df ∧ producto_muerto ventas_df 14 sku)
    ∧ (NoDup (Stock.SKU <$> stock_df) →
       (∀ r, r ∈ muertos
             ↔ r ∈ stock_df ∧ producto_muerto ventas_df 14 (Stock.SKU r))
       ∧ muertos `sublist_of` stock_df).
Proof.
  destruct (productos_muertos_skus ventas_df stock_df umbral_dias_default)
    as (muertos & Hm & Hfilas & Hskus).
  exists muertos. split; [exact Hm |]. split; [exact Hfilas |].
  split; [exact Hskus |]. intros Hnd.
  destruct (productos_muertos_spec ventas_df stock_df umbral_dias_default Hnd)
    as (muertos' & Hm' & Hiff & Hsub).
  assert (muertos' = muertos) as -> by congruence. done.
Qed.

Lemma productos_muertos_exacto_witness :
  let ventas_df := [fila_venta 19723 7 1; fila_venta 19737 8 3] in
  let stock_df := [fila_stock 7 "Camisa" 4 2; fila_stock 8 "Gorra" 0 1;
                   fila_stock 9 "Bufanda" 6 1] in
  NoDup (Stock.SKU <$> stock_df)
  ∧ ∃ muertos,
      productos_muertos ventas_df stock_df umbral_dias_default = Ok muertos
      ∧ (∀ r, r ∈ muertos
              ↔ r ∈ stock_df ∧ producto_muerto ventas_df 14 (Stock.SKU r))
      ∧ muertos `sublist_of` stock_df.
Proof.
  assert (H : NoDup (Stock.SKU <$> [fila_stock 7 "Camisa" 4 2;
                                     fila_stock 8 "Gorra" 0 1;
                                     fila_stock 9 "Bufanda" 6 1]))
    by (vm_compute; repeat constructor; rewrite ?elem_of_cons, elem_of_nil; lia).
  split; [exact H |].
  destruct (productos_muertos_exacto
              [fila_venta 19723 7 1; fila_venta 19737 8 3]
              [fila_stock 7 "Camisa" 4 2; fila_stock 8 "Gorra" 0 1;
               fila_stock 9 "Bufanda" 6 1])
    as (muertos & Hm & _ & _ & Hexacto).
  exists muertos. split; [exact Hm | exact (Hexacto H)].
Defined.

(** ** Operations that look rows up in Stock *)

Lemma media_diaria_de_total (ventas_df : list Ventas.row) (total : Z) :
  ∃ md, media_diaria_de (dias_ventas ventas_df) total = Ok md.
Proof.
  unfold media_diaria_de.
  destruct (truthy (dias_ventas ventas_df)) eqn:E; [| by eexists].
  by apply truediv_no_cero, truthy_no_cero.
Qed.

Lemma productos_rotacion_lenta_busqueda
    (ventas_df : list Ventas.row) (historico_df : list Historico.row)
    (stock_df : list Stock.row) (umbral : pynum) :
  resultado_busqueda
    (productos_rotacion_lenta ventas_df historico_df stock_df umbral)
    (lentos_de ventas_df umbral)
    (fun l => Stock.SKU (Lento.producto l)) stock_df.
Proof.
  unfold productos_rotacion_lenta, lentos_de.
  destruct (media_global_total ventas_df) as [mg Hmg]. rewrite Hmg, bind_Ok.
  apply (for_loop_busqueda_resultado stock_df
           (fun x prod => {| Lento.producto := prod;
                             Lento.media_diaria := media_diaria_o_nan ventas_df x |})).
  - intros res [sku total]. unfold es_lento, media_diaria_o_nan. rewrite Hmg.
    cbn [snd fst].
    destruct (media_diaria_de_total ventas_df total) as [md ->].
    rewrite bind_Ok. reflexivity.
  - intros x r Hr. exact Hr.
Qed.

Lemma top_n_vendidos_mes_busqueda (ventas_df : list Ventas.row)
    (stock_df : list Stock.row) (n : Z) :
  resultado_busqueda (top_n_vendidos_mes ventas_df stock_df n)
    (ranking_mes ventas_df n)
    (fun t => Stock.SKU (TopMes.producto t)) stock_df.
Proof.
  unfold top_n_vendidos_mes, ranking_mes.
  destruct ventas_df as [| v rest].
  { right. exists []. split; [reflexivity |]. split; [| reflexivity].
    intros x Hx. by apply elem_of_nil in Hx. }
  cbn [length Nat.eqb].
  destruct (Series_max (Ventas.Fecha <$> v :: rest)) as [fmax |] eqn:Hmax;
    [| discriminate].
  rewrite <- (filter_siempre (Series_head n _)) at 2.
  apply (for_loop_busqueda_resultado stock_df
           (fun x prod => {| TopMes.producto := prod;
                             TopMes.total_vendido_mes := x.2 |})
           (fun _ => true)).
  - by intros res [sku total].
  - intros x r Hr. exact Hr.
Qed.

Lemma top_3_vendidos_dashboard_busqueda (ventas_df : list Ventas.row)
    (stock_df : list Stock.row) :
  resultado_busqueda (top_3_vendidos_dashboard ventas_df stock_df)
    (ranking_total ventas_df) Top3.sku stock_df.
Proof.
  unfold top_3_vendidos_dashboard, ranking_total.
  rewrite <- (filter_siempre (Series_head 3 _)) at 2.
  apply (for_loop_busqueda_resultado stock_df
           (fun x prod => {| Top3.nombre := Stock.Producto prod;
                             Top3.sku := x.1;
                             Top3.total_vendido := x.2 |})
           (fun _ => true)).
  - by intros res [sku total].
  - reflexivity.
Qed.

(** C1, as the specification words it, fails: SKU 2 has sales and no Stock
    row, it is flagged as slow and ranked, and all three operations raise
    [IndexError] instead of skipping it. *)
Lemma busqueda_en_stock_falla :
  let ventas_df := [fila_venta 19723 1 10; fila_venta 19723 2 1] in
  let stock_df := [fila_stock 1 "Camisa" 5 10] in
  2 ∈ Ventas.SKU <$> ventas_df
  ∧ sin_fila_stock stock_df 2
  ∧ productos_rotacion_lenta ventas_df [] stock_df umbral_default
    = Raise IndexError
  ∧ top_n_vendidos_mes ventas_df stock_df 5 = Raise IndexError
  ∧ top_3_vendidos_dashboard ventas_df stock_df = Raise IndexError.
Proof.
  cbv zeta. split; [right; left |]. split.
  - intros r Hr. apply list_elem_of_singleton in Hr as ->. discriminate.
  - repeat split; vm_compute; reflexivity.
Qed.

(** ** Ranking *)

Lemma insert_desc_Permutation (x : Z * Z) (l : list (Z * Z)) :
  insert_desc x l ≡ₚ x :: l.
Proof.
  induction l as [| y t IH]; simpl; [reflexivity |].
  destruct (x.2 <? y.2); [| reflexivity].
  rewrite IH. apply Permutation_swap.
Qed.

Lemma sort_values_desc_Permutation (s : list (Z * Z)) :
  sort_values_desc s ≡ₚ s.
Proof.
  induction s as [| x s IH]; simpl; [reflexivity |].
  by rewrite insert_desc_Permutation, IH.
Qed.

Lemma insert_desc_sorted (x : Z * Z) (l : list (Z * Z)) :
  StronglySorted (fun a b => b.2 <= a.2) l →
  StronglySorted (fun a b => b.2 <= a.2) (insert_desc x l).
Proof.
  induction 1 as [| y t Hs IH Hy]; simpl.
  - repeat constructor.
  - destruct (Z.ltb_spec x.2 y.2) as [Hlt | Hge].
    + constructor; [exact IH |].
      rewrite insert_desc_Permutation. constructor; [lia | exact Hy].
    + constructor; [by constructor |].
      constructor; [lia |].
      eapply Forall_impl; [exact Hy |]. simpl. intros z Hz. lia.
Qed.

Lemma sort_values_desc_sorted (s : list (Z * Z)) :
  StronglySorted (fun a b => b.2 <= a.2) (sort_values_desc s).
Proof.
  induction s as [| x s IH]; simpl; [constructor | by apply insert_desc_sorted].
Qed.

Lemma StronglySorted_take {A : Type} (R : relation A) (k : nat) (l : list A) :
  StronglySorted R l → StronglySorted R (take k l).
Proof.
  intros Hl. revert k. induction Hl as [| x l Hl IH Hx]; intros [| k]; simpl;
    try constructor; [apply IH | by apply Forall_take].
Qed.

(** A negative count is not a bound: [head(-1)] keeps all but the last
    entry. *)
Example Series_head_negativo : Series_head (-1) [10; 20; 30] = [10; 20].
Proof. reflexivity. Qed.

Lemma Series_head_sublist {A : Type} (n : Z) (s : list A) :
  Series_head n s `sublist_of` s.
Proof. unfold Series_head. destruct (0 <=? n); apply sublist_take. Qed.

Lemma Series_head_length {A : Type} (n : Z) (s : list A) :
  0 <= n → Z.of_nat (length (Series_head n s)) <= n.
Proof.
  intros Hn. unfold Series_head. rewrite (proj2 (Z.leb_le 0 n)) by done.
  rewrite length_take. lia.
Qed.

Lemma Series_head_sorted {A : Type} (R : relation A) (n : Z) (s : list A) :
  StronglySorted R s → StronglySorted R (Series_head n s).
Proof. unfold Series_head. destruct (0 <=? n); apply StronglySorted_take. Qed.

(** An entry of the ranking of the month is a group of the month's sales:
    its total sums the month's units of its SKU, and the SKU sold then. *)
Lemma elem_of_ranking (ventas_df : list Ventas.row) (fmax : Timestamp) (n : Z)
    (x : Z * Z) :
  x ∈ Series_head n (sort_values_desc
        (groupby_SKU_sum (ventas_del_mes (month fmax) (year fmax) ventas_df))) →
  x.2 = unidades_del_mes ventas_df fmax x.1
  ∧ ∃ v, v ∈ ventas_df ∧ Ventas.SKU v = x.1 ∧ en_mes_de fmax v.
Proof.
  intros Hx. eapply elem_of_sublist in Hx; [| apply Series_head_sublist].
  rewrite sort_values_desc_Permutation in Hx. destruct x as [sku total].
  apply elem_of_groupby_SKU_sum in Hx as [Hsku ->]. cbn [fst snd]. split.
  - unfold unidades_del_mes, ventas_of_sku, ventas_del_mes, en_mes_de.
    by rewrite list_filter_filter.
  - apply list_elem_of_fmap in Hsku as (v & -> & Hv).
    apply list_elem_of_filter in Hv as [Hmes Hv]. by exists v.
Qed.

(** ** Top N sellers of the month *)

Lemma top_n_vendidos_mes_Ok_inv (v : Ventas.row) (rest : list Ventas.row)
    (stock_df : list Stock.row) (n : Z) (res : list TopMes.t) :
  top_n_vendidos_mes (v :: rest) stock_df n = Ok res →
  ∃ fmax, Series_max (Ventas.Fecha <$> v :: rest) = Some fmax
    ∧ Forall2 (fun x t => ∃ r, stock_row_of stock_df x.1 = Ok r
                               ∧ t = {| TopMes.producto := r;
                                        TopMes.total_vendido_mes := x.2 |})
        (Series_head n (sort_values_desc
           (groupby_SKU_sum
              (ventas_del_mes (month fmax) (year fmax) (v :: rest)))))
        res.
Proof.
  unfold top_n_vendidos_mes. cbn [length Nat.eqb].
  destruct (Series_max (Ventas.Fecha <$> v :: rest)) as [fmax |] eqn:Hmax;
    [| discriminate].
  intros Hres. exists fmax. split; [reflexivity |].
  set (mk := fun (x : Z * Z) prod =>
               {| TopMes.producto := prod; TopMes.total_vendido_mes := x.2 |}).
  match type of Hres with for_loop ?body [] ?l = _ =>
    assert (Hb : ∀ acc x, body acc x
                   = if (fun _ : Z * Z => true) x
                     then prod ← stock_row_of stock_df x.1; Ok (acc ++ [mk x prod])
                     else Ok acc)
      by (by intros acc [sku total]);
    destruct (for_loop_busqueda stock_df fst mk (fun _ => true) body l Hb [])
      as [[He _] | (filas & Hf & HF)]
  end.
  - congruence.
  - rewrite filter_siempre in HF. rewrite Hf in Hres. simpl in Hres.
    by injection Hres as <-.
Qed.

Lemma top_n_vendidos_mes_correcto (ventas_df : list Ventas.row)
    (stock_df : list Stock.row) (n : Z) (res : list TopMes.t) :
  ventas_df ≠ [] → 0 <= n →
  top_n_vendidos_mes ventas_df stock_df n = Ok res →
  top_mes_correcto ventas_df n res.
Proof.
  intros Hne Hn Hres. destruct ventas_df as [| v rest]; [done |].
  apply top_n_vendidos_mes_Ok_inv in Hres as (fmax & Hmax & HF).
  exists fmax. split; [by apply es_maximo_fecha_maxima, Series_max_Some |].
  split; [| split].
  - rewrite <- (Forall2_length _ _ _ HF). by apply Series_head_length.
  - intros t Ht. apply list_elem_of_lookup in Ht as [i Ht].
    destruct (Forall2_lookup_r _ _ _ _ _ HF Ht) as (x & Hx & r & Hr & ->).
    apply list_elem_of_lookup_2, elem_of_ranking in Hx.
    destruct (stock_row_of_cases stock_df x.1)
      as [(r' & Hr' & _ & Hk) | [Hr' _]]; [| congruence].
    assert (r' = r) as -> by congruence. cbn. by rewrite Hk.
  - assert (Htot : TopMes.total_vendido_mes <$> res
                   = (Series_head n (sort_values_desc
                        (groupby_SKU_sum
                           (ventas_del_mes (month fmax) (year fmax) (v :: rest))))).*2).
    { clear Hmax. induction HF as [| x t xs ts (r & _ & ->) _ IH];
        [reflexivity |]. rewrite !fmap_cons, IH. reflexivity. }
    unfold descendente. rewrite Htot.
    apply (StronglySorted_fmap snd (fun a b => b.2 <= a.2)); [done |].
    apply Series_head_sorted, sort_values_desc_sorted.
Qed.

Lemma top_n_vendidos_mes_total (ventas_df : list Ventas.row)
    (stock_df : list Stock.row) (n : Z) :
  (∀ v, v ∈ ventas_df → ¬ sin_fila_stock stock_df (Ventas.SKU v)) →
  ∃ res, top_n_vendidos_mes ventas_df stock_df n = Ok res.
Proof.
  intros Hcub.
  destruct (top_n_vendidos_mes_busqueda ventas_df stock_df n)
    as [[_ (x & Hx & Hfalta)] | (res & Hres & _)]; [| by exists res].
  exfalso. unfold ranking_mes in Hx.
  destruct (Series_max (Ventas.Fecha <$> ventas_df)) as [fmax |];
    [| by apply elem_of_nil in Hx].
  apply elem_of_ranking in Hx as [_ (v & Hv & Hsku & _)].
  apply (Hcub v Hv). by rewrite Hsku.
Qed.

(** C4. On the empty Sales table the top N of the month is the empty
    sequence.  On a non-empty one, for a count [n >= 0], whatever the
    function returns has at most [n] rows, each carrying the units that its
    SKU sold in the calendar month and year of the latest Sales date (and
    the SKU did sell then), in descending order of those units; and the
    function does return when every SKU of Sales has a Stock row. *)
Theorem top_n_vendidos_mes_spec :
  (∀ stock_df n, top_n_vendidos_mes [] stock_df n = Ok [])
  ∧ (∀ ventas_df stock_df n,
       ventas_df ≠ [] → 0 <= n →
       (∀ res, top_n_vendidos_mes ventas_df stock_df n = Ok res →
               top_mes_correcto ventas_df n res)
       ∧ ((∀ v, v ∈ ventas_df → ¬ sin_fila_stock stock_df (Ventas.SKU v)) →
          ∃ res, top_n_vendidos_mes ventas_df stock_df n = Ok res)).
Proof.
  split; [reflexivity |]. intros ventas_df stock_df n Hne Hn. split.
  - intros res. by apply top_n_vendidos_mes_correcto.
  - apply top_n_vendidos_mes_total.
Qed.

Lemma top_n_vendidos_mes_spec_witness :
  let ventas_df := [fila_venta 19723 7 1; fila_venta 19724 8 3;
                    fila_venta 19700 9 30; fila_venta 19725 7 1] in
  let stock_df := [fila_stock 7 "Camisa" 4 2; fila_stock 8 "Gorra" 0 1;
                   fila_stock 9 "Bufanda" 6 1] in
  ventas_df ≠ [] ∧ 0 <= 2
  ∧ ∃ res, top_n_vendidos_mes ventas_df stock_df 2 = Ok res
           ∧ top_mes_correcto ventas_df 2 res.
Proof.
  cbv zeta.
  assert (Hne : [fila_venta 19723 7 1; fila_venta 19724 8 3;
                 fila_venta 19700 9 30; fila_venta 19725 7 1] ≠ [])
    by discriminate.
  assert (Hn : 0 <= 2) by lia.
  split; [exact Hne |]. split; [exact Hn |].
  destruct (proj2 top_n_vendidos_mes_spec _
              [fila_stock 7 "Camisa" 4 2; fila_stock 8 "Gorra" 0 1;
               fila_stock 9 "Bufanda" 6 1] 2 Hne Hn) as [Hcorrecto Htotal].
  destruct Htotal as [res Hres].
  - intros v Hv Hfalta.
    repeat (apply elem_of_cons in Hv as [-> | Hv]);
      [ apply (Hfalta (fila_stock 7 "Camisa" 4 2)); [left | reflexivity]
      | apply (Hfalta (fila_stock 8 "Gorra" 0 1)); [right; left | reflexivity]
      | apply (Hfalta (fila_stock 9 "Bufanda" 6 1));
          [right; right; left | reflexivity]
      | apply (Hfalta (fila_stock 7 "Camisa" 4 2)); [left | reflexivity]
      | by apply elem_of_nil in Hv ].
  - exists res. split; [exact Hres | exact (Hcorrecto res Hres)].
Defined.

(** ** Lookups do not skip *)

Lemma lentos_de_en_ventas (ventas_df : list Ventas.row) (umbral : pynum)
    (x : Z * Z) :
  x ∈ lentos_de ventas_df umbral → x.1 ∈ Ventas.SKU <$> ventas_df.
Proof.
  intros Hx. apply list_elem_of_filter in Hx as [_ Hx]. destruct x as [sku total].
  by apply elem_of_groupby_SKU_sum in Hx as [Hsku _].
Qed.

Lemma ranking_mes_en_ventas (ventas_df : list Ventas.row) (n : Z) (x : Z * Z) :
  x ∈ ranking_mes ventas_df n → x.1 ∈ Ventas.SKU <$> ventas_df.
Proof.
  unfold ranking_mes.
  destruct (Series_max (Ventas.Fecha <$> ventas_df)) as [fmax |];
    [| intros Hx; by apply elem_of_nil in Hx].
  intros Hx. apply elem_of_ranking in Hx as [_ (v & Hv & <- & _)].
  by apply list_elem_of_fmap_2.
Qed.

Lemma ranking_total_en_ventas (ventas_df : list Ventas.row) (x : Z * Z) :
  x ∈ ranking_total ventas_df → x.1 ∈ Ventas.SKU <$> ventas_df.
Proof.
  intros Hx. eapply elem_of_sublist in Hx; [| apply Series_head_sublist].
  rewrite sort_values_desc_Permutation in Hx. destruct x as [sku total].
  by apply elem_of_groupby_SKU_sum in Hx as [Hsku _].
Qed.

(** What an operation looks up does not depend on the Stock table: the SKUs
    of the rows that it returns on a table that has them all are the SKUs
    that it looks up on any other table. *)
Lemma busqueda_en_dos_tablas {B : Type} (f : list Stock.row → result (list B))
    (buscados : list (Z * Z)) (sku_de : B → Z)
    (stock_df stock_completo : list Stock.row) (ventas_df : list Ventas.row) :
  (∀ stock, resultado_busqueda (f stock) buscados sku_de stock) →
  (∀ x, x ∈ buscados → x.1 ∈ Ventas.SKU <$> ventas_df) →
  stock_cubre stock_completo ventas_df →
  ∃ filas, f stock_completo = Ok filas
    ∧ busqueda_sin_omision (f stock_df) (sku_de <$> filas) sku_de stock_df.
Proof.
  intros Hf Hventas Hcubre.
  destruct (Hf stock_completo) as [[_ (x & Hx & Hfalta)] | (filas & Hfilas & _ & Hskus)].
  { exfalso. apply Hventas, list_elem_of_fmap in Hx as (v & Hsku & Hv).
    apply (Hcubre v Hv). by rewrite <- Hsku. }
  exists filas. split; [exact Hfilas |]. rewrite Hskus.
  destruct (Hf stock_df) as [[He (x & Hx & Hfalta)] | (filas' & He & Htodos & Hskus')].
  - left. split; [exact He |]. exists x.1. split; [| exact Hfalta].
    by apply list_elem_of_fmap_2.
  - right. exists filas'. split; [exact He |]. split; [| exact Hskus'].
    intros sku Hsku. apply list_elem_of_fmap in Hsku as (x & -> & Hx).
    by apply Htodos.
Qed.

(** C1, as the code has it.  A SKU of Sales without Stock row is not
    skipped.  Which SKUs an operation looks up depends on the Sales table
    alone: they are the SKUs of the rows that it returns, in their order,
    on a Stock table with a row for every SKU of Sales, where it does
    return (the SKUs that it flags as slow, its top N of the month, its
    overall top 3).  On any Stock table, each of the three operations
    raises [IndexError] exactly when one of these SKUs has no Stock row,
    and otherwise returns one record per looked-up SKU, in that order. *)
Theorem busqueda_en_stock_no_omite
    (ventas_df : list Ventas.row) (historico_df : list Historico.row)
    (stock_df stock_completo : list Stock.row) (umbral : pynum) (n : Z) :
  stock_cubre stock_completo ventas_df →
  ∃ lentos top_n top_3,
    productos_rotacion_lenta ventas_df historico_df stock_completo umbral
    = Ok lentos
    ∧ top_n_vendidos_mes ventas_df stock_completo n = Ok top_n
    ∧ top_3_vendidos_dashboard ventas_df stock_completo = Ok top_3
    ∧ busqueda_sin_omision
        (productos_rotacion_lenta ventas_df historico_df stock_df umbral)
        ((fun l => Stock.SKU (Lento.producto l)) <$> lentos)
        (fun l => Stock.SKU (Lento.producto l)) stock_df
    ∧ busqueda_sin_omision (top_n_vendidos_mes ventas_df stock_df n)
        ((fun t => Stock.SKU (TopMes.producto t)) <$> top_n)
        (fun t => Stock.SKU (TopMes.producto t)) stock_df
    ∧ busqueda_sin_omision (top_3_vendidos_dashboard ventas_df stock_df)
        (Top3.sku <$> top_3) Top3.sku stock_df.
Proof.
  intros Hcubre.
  destruct (busqueda_en_dos_tablas
              (fun stock => productos_rotacion_lenta ventas_df historico_df
                              stock umbral)
              (lentos_de ventas_df umbral)
              (fun l => Stock.SKU (Lento.producto l))
              stock_df stock_completo ventas_df) as (lentos & Hl & Hl');
    [ intros stock; apply productos_rotacion_lenta_busqueda
    | apply lentos_de_en_ventas | exact Hcubre |].
  destruct (busqueda_en_dos_tablas
              (fun stock => top_n_vendidos_mes ventas_df stock n)
              (ranking_mes ventas_df n)
              (fun t => Stock.SKU (TopMes.producto t))
              stock_df stock_completo ventas_df) as (top_n & Hn & Hn');
    [ intros stock; apply top_n_vendidos_mes_busqueda
    | apply ranking_mes_en_ventas | exact Hcubre |].
  destruct (busqueda_en_dos_tablas
              (fun stock => top_3_vendidos_dashboard ventas_df stock)
              (ranking_total ventas_df) Top3.sku
              stock_df stock_completo ventas_df) as (top_3 & H3 & H3');
    [ intros stock; apply top_3_vendidos_dashboard_busqueda
    | apply ranking_total_en_ventas | exact Hcubre |].
  exists lentos, top_n, top_3. by repeat split.
Qed.

Lemma busqueda_en_stock_no_omite_witness :
  let ventas_df := [fila_venta 19723 1 10; fila_venta 19723 2 1] in
  let stock_completo := [fila_stock 1 "Camisa" 5 10; fila_stock 2 "Gorra" 8 3] in
  let stock_df := [fila_stock 1 "Camisa" 5 10] in
  stock_cubre stock_completo ventas_df
  ∧ ∃ lentos top_n top_3,
      productos_rotacion_lenta ventas_df [] stock_completo umbral_default
      = Ok lentos
      ∧ top_n_vendidos_mes ventas_df stock_completo 5 = Ok top_n
      ∧ top_3_vendidos_dashboard ventas_df stock_completo = Ok top_3
      ∧ busqueda_sin_omision
          (productos_rotacion_lenta ventas_df [] stock_df umbral_default)
          ((fun l => Stock.SKU (Lento.producto l)) <$> lentos)
          (fun l => Stock.SKU (Lento.producto l)) stock_df
      ∧ busqueda_sin_omision (top_n_vendidos_mes ventas_df stock_df 5)
          ((fun t => Stock.SKU (TopMes.producto t)) <$> top_n)
          (fun t => Stock.SKU (TopMes.producto t)) stock_df
      ∧ busqueda_sin_omision (top_3_vendidos_dashboard ventas_df stock_df)
          (Top3.sku <$> top_3) Top3.sku stock_df.
Proof.
  cbv zeta.
  assert (H : stock_cubre
                [fila_stock 1 "Camisa" 5 10; fila_stock 2 "Gorra" 8 3]
                [fila_venta 19723 1 10; fila_venta 19723 2 1]).
  { intros v Hv Hfalta.
    repeat (apply elem_of_cons in Hv as [-> | Hv]);
      [ apply (Hfalta (fila_stock 1 "Camisa" 5 10)); [left | reflexivity]
      | apply (Hfalta (fila_stock 2 "Gorra" 8 3)); [right; left | reflexivity]
      | by apply elem_of_nil in Hv ]. }
  split; [exact H |].
  exact (busqueda_en_stock_no_omite _ [] [fila_stock 1 "Camisa" 5 10] _
           umbral_default 5 H).
Defined.

(** ** Sales velocity *)

(** The guard of the velocity formula does substitute 0 for a day span of
    0; but no Sales table has that span ([dias_ventas_cases]), and the NaN
    span of the empty table is truthy and passes the guard. *)
Lemma velocidad_dias_cero (ventas : list (Z * Z)) (sku : Z) :
  velocidad ventas (of_int 0) sku = Ok (of_int 0).
Proof. reflexivity. Qed.

Lemma velocidad_dias_nan (ventas : list (Z * Z)) (sku : Z) :
  velocidad ventas NaN sku = Ok NaN.
Proof. reflexivity. Qed.

Lemma Series_get_fmap (h : Z → Z) (ks : list Z) (sku : Z) :
  Series_get ((fun k => (k, h k)) <$> ks) sku 0
  = if decide (sku ∈ ks) then h sku else 0.
Proof.
  induction ks as [| k ks IH]; [reflexivity |].
  rewrite fmap_cons. simpl. destruct (Z.eqb_spec k sku) as [-> | Hne].
  - rewrite decide_True by left. reflexivity.
  - rewrite IH. destruct (decide (sku ∈ ks)) as [Hin | Hnin].
    + rewrite decide_True by (by right). reflexivity.
    + rewrite decide_False; [reflexivity |].
      intros H. apply elem_of_cons in H as [-> | H]; done.
Qed.

(** [ventas.get(sku, 0)] is the sum of the units of [sku], also for a SKU
    without sales. *)
Lemma Series_get_groupby (ventas_df : list Ventas.row) (sku : Z) :
  Series_get (groupby_SKU_sum ventas_df) sku 0 = unidades_de ventas_df sku.
Proof.
  unfold groupby_SKU_sum, unidades_de.
  rewrite (Series_get_fmap
             (fun k => Series_sum (Ventas.Unidades_Vendidas
                                   <$> ventas_of_sku k ventas_df))).
  case_decide as Hin; [reflexivity |].
  rewrite elem_of_group_keys in Hin.
  assert (Hnil : ventas_of_sku sku ventas_df = []).
  { apply elem_of_nil_inv. intros v Hv.
    apply list_elem_of_filter in Hv as [Hs Hv].
    apply Hin. rewrite <- Hs. by apply list_elem_of_fmap_2. }
  by rewrite Hnil.
Qed.

Lemma velocidad_con_dias (ventas_df : list Ventas.row) (dias sku : Z) :
  dias ≠ 0 →
  velocidad (groupby_SKU_sum ventas_df) (of_int dias) sku
  = Ok (velocidad_esperada ventas_df dias sku).
Proof.
  intros Hd. unfold velocidad, velocidad_esperada.
  rewrite truthy_of_int, Series_get_groupby by done.
  unfold truediv, of_int.
  destruct (Qeq_bool (inject_Z dias) 0) eqn:E; [| reflexivity].
  apply Qeq_bool_iff in E. unfold Qeq in E. simpl in E. lia.
Qed.

Lemma for_loop_mapa (g : Z → pynum) (f : Z → result pynum) (skus : list Z) :
  (∀ sku, f sku = Ok (g sku)) →
  ∀ d0, for_loop (fun d sku => v ← f sku; Ok (<[pretty sku := v]> d)) d0 skus
        = Ok (mapa_de g skus d0).
Proof.
  intros Hf. induction skus as [| sku skus IH]; intros d0; [reflexivity |].
  simpl for_loop. rewrite Hf, !bind_Ok. apply IH.
Qed.

Lemma mapa_de_lookup_otro (g : Z → pynum) (skus : list Z) (k : string) :
  (∀ sku, sku ∈ skus → pretty sku ≠ k) →
  ∀ d0, mapa_de g skus d0 !! k = d0 !! k.
Proof.
  unfold mapa_de. induction skus as [| a skus IH]; intros Hk d0; [reflexivity |].
  simpl. rewrite IH by (intros sku Hsku; apply Hk; by right).
  apply lookup_insert_ne, Hk. left.
Qed.

Lemma mapa_de_lookup (g : Z → pynum) (skus : list Z) (sku : Z) :
  sku ∈ skus → ∀ d0, mapa_de g skus d0 !! pretty sku = Some (g sku).
Proof.
  induction skus as [| a skus IH]; intros Hin d0; [by apply elem_of_nil in Hin |].
  destruct (decide (sku ∈ skus)) as [Hin' | Hnin].
  - unfold mapa_de. simpl. by apply IH.
  - apply elem_of_cons in Hin as [-> | Hin]; [| done].
    unfold mapa_de. simpl. fold (mapa_de g skus (<[pretty a := g a]> d0)).
    rewrite mapa_de_lookup_otro; [apply lookup_insert_eq |].
    intros sku Hsku Heq. apply (inj pretty) in Heq. by subst.
Qed.

Lemma mapa_de_dom (g : Z → pynum) (skus : list Z) :
  dom (mapa_de g skus ∅) = list_to_set (pretty <$> skus).
Proof.
  apply set_eq. intros k. rewrite elem_of_dom, elem_of_list_to_set.
  destruct (decide (k ∈ pretty <$> skus)) as [Hin | Hnin].
  - split; [done |]. intros _.
    apply list_elem_of_fmap in Hin as (sku & -> & Hsku).
    rewrite mapa_de_lookup by done. by eexists.
  - split; [| done]. intros [x Hx]. exfalso.
    rewrite mapa_de_lookup_otro in Hx; [by rewrite lookup_empty in Hx |].
    intros sku Hsku <-. apply Hnin. by apply list_elem_of_fmap_2.
Qed.

(** On a non-empty Sales table both mappings are as the specification says:
    the velocity map has the SKUs of Stock as keys, the average-units map
    the SKUs of Sales, and every entry is the expected velocity. *)
Lemma velocidades_con_ventas (ventas_df : list Ventas.row)
    (stock_df : list Stock.row) :
  ventas_df ≠ [] →
  ∃ dias d p,
    1 <= dias ∧ dias_ventas ventas_df = of_int dias
    ∧ estimaciones_velocidad_venta ventas_df stock_df = Ok d
    ∧ promedios_unidades_vendidas ventas_df = Ok p
    ∧ dom d = list_to_set (pretty <$> (Stock.SKU <$> stock_df))
    ∧ dom p = list_to_set (pretty <$> (Ventas.SKU <$> ventas_df))
    ∧ (∀ sku x, d !! pretty sku = Some x
                → x = velocidad_esperada ventas_df dias sku)
    ∧ (∀ sku x, p !! pretty sku = Some x
                → x = velocidad_esperada ventas_df dias sku).
Proof.
  intros Hne.
  destruct (dias_ventas_cases ventas_df) as [[-> _] | [_ (dias & Hd & Hdias)]];
    [done |].
  exists dias. unfold estimaciones_velocidad_venta, promedios_unidades_vendidas.
  rewrite Hdias.
  rewrite !(for_loop_mapa (velocidad_esperada ventas_df dias))
    by (intros sku; apply velocidad_con_dias; lia).
  do 2 eexists. split; [done |]. split; [done |].
  split; [reflexivity |]. split; [reflexivity |].
  assert (Hlook : ∀ skus sku x,
            mapa_de (velocidad_esperada ventas_df dias) skus ∅ !! pretty sku
            = Some x → x = velocidad_esperada ventas_df dias sku).
  { intros skus sku x Hx. destruct (decide (sku ∈ skus)) as [Hin | Hnin].
    - rewrite mapa_de_lookup in Hx by done. congruence.
    - rewrite mapa_de_lookup_otro, lookup_empty in Hx; [done |].
      intros sku' Hsku' Heq. apply (inj pretty) in Heq. by subst. }
  split; [apply mapa_de_dom |]. split; [| split; apply Hlook].
  rewrite mapa_de_dom. apply set_eq. intros k.
  rewrite groupby_SKU_sum_keys, !elem_of_list_to_set, !list_elem_of_fmap.
  split; intros (sku & -> & Hsku); exists sku; (split; [done |]);
    by apply elem_of_group_keys.
Qed.

Lemma round_half_even_nonneg (q : Q) : (0 <= q)%Q → 0 <= round_half_even q.
Proof.
  intros Hq. unfold round_half_even.
  pose proof (Qfloor_resp_le 0 q Hq) as Hf. change (Qfloor 0) with 0 in Hf.
  destruct (_ ?= _)%Q; [destruct (Z.even _) | |]; lia.
Qed.

Lemma round2_nonneg (q : Q) : (0 <= q)%Q → nonneg (round2 (Fin q)).
Proof.
  intros Hq. simpl. rewrite Qred_correct.
  apply Qmult_le_0_compat; [| done].
  change 0%Q with (inject_Z 0). rewrite <- Zle_Qle.
  apply round_half_even_nonneg.
  apply Qmult_le_0_compat; done.
Qed.

(** The expected velocity is non-negative when the units sold are and their
    int64 sum does not wrap around. *)
Lemma velocidad_esperada_nonneg (ventas_df : list Ventas.row) (dias sku : Z) :
  1 <= dias → 0 <= unidades_de ventas_df sku →
  nonneg (velocidad_esperada ventas_df dias sku).
Proof.
  intros Hd Hu. unfold velocidad_esperada. apply round2_nonneg.
  rewrite Qred_correct. apply Qmult_le_0_compat.
  - change 0%Q with (inject_Z 0). by rewrite <- Zle_Qle.
  - apply Qinv_le_0_compat. change 0%Q with (inject_Z 0).
    rewrite <- Zle_Qle. lia.
Qed.

Lemma wrap_int64_small (z : Z) : - 2 ^ 63 <= z < 2 ^ 63 → wrap_int64 z = z.
Proof. intros Hz. unfold wrap_int64. rewrite Z.mod_small; lia. Qed.

Lemma suma_filter_acotada (P : Ventas.row → Prop) `{!∀ v, Decision (P v)}
    (ventas_df : list Ventas.row) :
  Forall (fun v => 0 <= Ventas.Unidades_Vendidas v) ventas_df →
  0 <= foldr Z.add 0 (Ventas.Unidades_Vendidas <$> filter P ventas_df)
    <= foldr Z.add 0 (Ventas.Unidades_Vendidas <$> ventas_df).
Proof.
  induction 1 as [| v l Hv _ IH]; [simpl; lia |].
  rewrite filter_cons. case_decide; rewrite !fmap_cons; simpl; lia.
Qed.

(** C5 on a non-empty Sales table, with non-negative units whose int64 sum
    does not wrap around: both mappings are returned and all their entries
    are non-negative. *)
Lemma velocidades_no_negativas (ventas_df : list Ventas.row)
    (stock_df : list Stock.row) :
  ventas_df ≠ [] →
  Forall (fun v => 0 <= Ventas.Unidades_Vendidas v) ventas_df →
  foldr Z.add 0 (Ventas.Unidades_Vendidas <$> ventas_df) < 2 ^ 63 →
  ∃ d p,
    estimaciones_velocidad_venta ventas_df stock_df = Ok d
    ∧ promedios_unidades_vendidas ventas_df = Ok p
    ∧ (∀ k x, d !! k = Some x → nonneg x)
    ∧ (∀ k x, p !! k = Some x → nonneg x).
Proof.
  intros Hne Hpos Hsum.
  destruct (velocidades_con_ventas ventas_df stock_df Hne)
    as (dias & d & p & Hd & _ & Hed & Hep & Hdd & Hdp & Hvd & Hvp).
  exists d, p. split; [done |]. split; [done |].
  assert (Hnn : ∀ sku, nonneg (velocidad_esperada ventas_df dias sku)).
  { intros sku. apply velocidad_esperada_nonneg; [done |].
    unfold unidades_de, Series_sum, ventas_of_sku.
    pose proof (suma_filter_acotada (fun r => Ventas.SKU r = sku) ventas_df Hpos).
    rewrite wrap_int64_small; lia. }
  split; intros k x Hx.
  - assert (Hk : k ∈ dom d) by (apply elem_of_dom; by eexists).
    rewrite Hdd, elem_of_list_to_set in Hk.
    apply list_elem_of_fmap in Hk as (sku & -> & _).
    rewrite (Hvd sku x Hx). apply Hnn.
  - assert (Hk : k ∈ dom p) by (apply elem_of_dom; by eexists).
    rewrite Hdp, elem_of_list_to_set in Hk.
    apply list_elem_of_fmap in Hk as (sku & -> & _).
    rewrite (Hvp sku x Hx). apply Hnn.
Qed.

(** On the empty Sales table the average-units map is empty, and the
    velocity map gives NaN to every SKU of Stock. *)
Lemma velocidades_sin_ventas (stock_df : list Stock.row) :
  promedios_unidades_vendidas [] = Ok ∅
  ∧ estimaciones_velocidad_venta [] stock_df
    = Ok (mapa_de (fun _ => NaN) (Stock.SKU <$> stock_df) ∅).
Proof.
  split; [reflexivity |]. unfold estimaciones_velocidad_venta.
  by apply for_loop_mapa.
Qed.

(** C5 fails on the code.  With an empty Sales table the day span is NaN,
    and the velocity of every Stock SKU is NaN: an entry that is neither
    non-negative nor the 0 that the specification substitutes for a
    degenerate day span. *)
Theorem estimaciones_velocidad_venta_sin_ventas :
  ∃ d, estimaciones_velocidad_venta [] [fila_stock 1 "Camisa" 5 10] = Ok d
       ∧ d !! "1"%string = Some NaN
       ∧ ¬ nonneg NaN
       ∧ NaN ≠ of_int 0.
Proof.
  eexists. split; [reflexivity |]. split; [by vm_compute |].
  split; [by intros [] | discriminate].
Qed.

(** * Further properties of the analytics layer *)

(** ** Group keys are strictly ascending *)

Lemma insert_key_sorted (k : Z) (l : list Z) :
  StronglySorted Z.lt l → StronglySorted Z.lt (insert_key k l).
Proof.
  induction 1 as [| k' t Hs IH Hk']; simpl.
  - repeat constructor.
  - destruct (Z.ltb_spec k k') as [Hlt | Hge].
    + constructor; [by constructor |].
      constructor; [done |]. eapply Forall_impl; [exact Hk' |]. simpl. lia.
    + destruct (Z.eqb_spec k k') as [-> | Hne]; [by constructor |].
      constructor; [exact IH |].
      apply Forall_forall. intros x Hx.
      apply elem_of_insert_key in Hx as [-> | Hx]; [lia |].
      by apply (proj1 (Forall_forall _ _) Hk').
Qed.

Lemma group_keys_sorted (l : list Z) : StronglySorted Z.lt (group_keys l).
Proof.
  induction l as [| k l IH]; simpl; [constructor | by apply insert_key_sorted].
Qed.

Lemma StronglySorted_lt_NoDup (l : list Z) : StronglySorted Z.lt l → NoDup l.
Proof.
  induction 1 as [| k t Hs IH Hk]; constructor; [| done].
  intros Hin. apply (proj1 (Forall_forall _ _) Hk) in Hin. lia.
Qed.

Lemma group_keys_NoDup (l : list Z) : NoDup (group_keys l).
Proof. apply StronglySorted_lt_NoDup, group_keys_sorted. Qed.

(** The number of groups is the number of distinct keys. *)
Lemma length_group_keys (l : list Z) :
  length (group_keys l) = size (list_to_set l : gset Z).
Proof.
  rewrite <- (size_list_to_set (C := gset Z)) by apply group_keys_NoDup.
  f_equal. apply set_eq. intros x.
  by rewrite !elem_of_list_to_set, elem_of_group_keys.
Qed.

(** ** Dashboard top 3 *)

Lemma top_3_vendidos_dashboard_Ok_inv (ventas_df : list Ventas.row)
    (stock_df : list Stock.row) (res : list Top3.t) :
  top_3_vendidos_dashboard ventas_df stock_df = Ok res →
  Forall2 (fun x t => ∃ r, stock_row_of stock_df x.1 = Ok r
                           ∧ t = {| Top3.nombre := Stock.Producto r;
                                    Top3.sku := x.1;
                                    Top3.total_vendido := x.2 |})
          (ranking_total ventas_df) res.
Proof.
  unfold top_3_vendidos_dashboard, ranking_total. intros Hres.
  set (mk := fun (x : Z * Z) prod =>
               {| Top3.nombre := Stock.Producto prod; Top3.sku := x.1;
                  Top3.total_vendido := x.2 |}).
  match type of Hres with for_loop ?body [] ?l = _ =>
    assert (Hb : ∀ acc x, body acc x
                   = if (fun _ : Z * Z => true) x
                     then prod ← stock_row_of stock_df x.1; Ok (acc ++ [mk x prod])
                     else Ok acc)
      by (by intros acc [sku total]);
    destruct (for_loop_busqueda stock_df fst mk (fun _ => true) body l Hb [])
      as [[He _] | (filas & Hf & HF)]
  end.
  - congruence.
  - rewrite filter_siempre in HF. rewrite Hf in Hres. simpl in Hres.
    by injection Hres as <-.
Qed.

Lemma top_3_columnas (stock_df : list Stock.row) (xs : list (Z * Z))
    (res : list Top3.t) :
  Forall2 (fun x t => ∃ r, stock_row_of stock_df x.1 = Ok r
                           ∧ t = {| Top3.nombre := Stock.Producto r;
                                    Top3.sku := x.1;
                                    Top3.total_vendido := x.2 |})
          xs res →
  Top3.sku <$> res = xs.*1 ∧ Top3.total_vendido <$> res = xs.*2.
Proof.
  induction 1 as [| x t xs ts (r & _ & ->) _ [IH1 IH2]]; [done |].
  rewrite !fmap_cons, IH1, IH2. done.
Qed.

Lemma ranking_total_spec (ventas_df : list Ventas.row) :
  length (ranking_total ventas_df)
  = Nat.min 3 (size (list_to_set (Ventas.SKU <$> ventas_df) : gset Z))
  ∧ NoDup (ranking_total ventas_df).*1
  ∧ (∀ x, x ∈ ranking_total ventas_df
          → x.2 = unidades_de ventas_df x.1 ∧ x.1 ∈ Ventas.SKU <$> ventas_df)
  ∧ StronglySorted (fun a b => b.2 <= a.2) (ranking_total ventas_df)
  ∧ (∀ sku x, sku ∈ Ventas.SKU <$> ventas_df → sku ∉ (ranking_total ventas_df).*1 →
       x ∈ ranking_total ventas_df → unidades_de ventas_df sku <= x.2).
Proof.
  unfold ranking_total, Series_head.
  change (0 <=? 3) with true. change (Z.to_nat 3) with 3%nat. cbv iota.
  set (l := sort_values_desc (groupby_SKU_sum ventas_df)).
  assert (Hperm : l ≡ₚ groupby_SKU_sum ventas_df)
    by apply sort_values_desc_Permutation.
  assert (Hsorted : StronglySorted (fun a b => b.2 <= a.2) l)
    by apply sort_values_desc_sorted.
  split; [| split; [| split; [| split]]].
  - rewrite length_take, Hperm. unfold groupby_SKU_sum.
    by rewrite length_fmap, length_group_keys.
  - apply (sublist_NoDup _ (l.*1)); [| apply fmap_sublist, sublist_take].
    rewrite Hperm, groupby_SKU_sum_keys. apply group_keys_NoDup.
  - intros [sku total] Hx. eapply elem_of_sublist in Hx; [| apply sublist_take].
    rewrite Hperm in Hx. apply elem_of_groupby_SKU_sum in Hx as [Hsku ->]. done.
  - by apply StronglySorted_take.
  - intros sku x Hsku Hout Hx.
    assert (Hin : (sku, unidades_de ventas_df sku) ∈ l)
      by (rewrite Hperm; by apply elem_of_groupby_SKU_sum).
    rewrite <- (take_drop 3 l) in Hin, Hsorted.
    apply elem_of_app in Hin as [Hin | Hin].
    + exfalso. apply Hout.
      by apply (list_elem_of_fmap_2 fst) in Hin.
    + exact (StronglySorted_app_1_elem_of _ _ _ x
               (sku, unidades_de ventas_df sku) Hsorted Hx Hin).
Qed.

(** X1. The dashboard top 3 returns when every SKU of Sales has a Stock row,
    and whatever it returns is the top 3 of the whole Sales table: as many
    rows as there are distinct SKUs, up to three, one per SKU, each with the
    total units of its SKU and the name of its Stock row, in descending
    order, and no SKU outside it sold more than a SKU inside it. *)
Theorem top_3_vendidos_dashboard_spec (ventas_df : list Ventas.row)
    (stock_df : list Stock.row) :
  (∀ res, top_3_vendidos_dashboard ventas_df stock_df = Ok res
          → top_3_correcto ventas_df stock_df res)
  ∧ ((∀ v, v ∈ ventas_df → ¬ sin_fila_stock stock_df (Ventas.SKU v))
     → ∃ res, top_3_vendidos_dashboard ventas_df stock_df = Ok res).
Proof.
  destruct (ranking_total_spec ventas_df)
    as (Hlen & Hnd & Hin & Hsorted & Hmax).
  split.
  - intros res Hres. apply top_3_vendidos_dashboard_Ok_inv in Hres.
    destruct (top_3_columnas stock_df _ _ Hres) as [Hsku Htot].
    assert (Hfila : ∀ t, t ∈ res →
              ∃ x r, x ∈ ranking_total ventas_df
                     ∧ stock_row_of stock_df x.1 = Ok r
                     ∧ t = {| Top3.nombre := Stock.Producto r; Top3.sku := x.1;
                              Top3.total_vendido := x.2 |}).
    { intros t Ht. apply list_elem_of_lookup in Ht as [i Ht].
      destruct (Forall2_lookup_r _ _ _ _ _ Hres Ht) as (x & Hx & r & Hr & ->).
      exists x, r. split; [by eapply list_elem_of_lookup_2 | done]. }
    unfold top_3_correcto. rewrite Hsku, Htot.
    split; [by rewrite <- (Forall2_length _ _ _ Hres) |].
    split; [done |]. split; [| split].
    + intros t Ht. destruct (Hfila t Ht) as (x & r & Hx & Hr & ->). cbn.
      destruct (Hin x Hx) as [Hu Hs]. split; [done |]. split; [done |].
      destruct (stock_row_of_cases stock_df x.1)
        as [(r' & Hr' & Hrin & Hk) | [Hr' _]]; [| congruence].
      assert (r' = r) as -> by congruence. by exists r.
    + unfold descendente.
      by apply (StronglySorted_fmap snd (fun a b => b.2 <= a.2)).
    + intros sku t Hs Hout Ht.
      destruct (Hfila t Ht) as (x & r & Hx & Hr & ->). cbn.
      by apply Hmax.
  - intros Hcub.
    destruct (top_3_vendidos_dashboard_busqueda ventas_df stock_df)
      as [[_ (x & Hx & Hfalta)] | (res & Hres & _)]; [| by exists res].
    exfalso. destruct (Hin x Hx) as [_ Hs].
    apply list_elem_of_fmap in Hs as (v & Hv & Hvin).
    apply (Hcub v Hvin). by rewrite <- Hv.
Qed.

(** ** The two rankings *)

Lemma filter_todos {A : Type} (P : A → Prop) `{!∀ x, Decision (P x)}
    (l : list A) :
  (∀ x, x ∈ l → P x) → filter P l = l.
Proof.
  induction l as [| x l IH]; intros Hl; [reflexivity |].
  rewrite filter_cons_True by (apply Hl; left).
  f_equal. apply IH. intros y Hy. apply Hl. by right.
Qed.

Lemma for_loop_proyeccion {A B C : Type} (f : B → C)
    (body1 : list B → A → result (list B))
    (body2 : list C → A → result (list C)) (l : list A) :
  (∀ acc x, body2 (f <$> acc) x
            = match body1 acc x with
              | Ok acc' => Ok (f <$> acc')
              | Raise e => Raise e
              end) →
  ∀ acc, for_loop body2 (f <$> acc) l
         = match for_loop body1 acc l with
           | Ok res => Ok (f <$> res)
           | Raise e => Raise e
           end.
Proof.
  intros Hb. induction l as [| x l IH]; intros acc; [reflexivity |].
  simpl for_loop. rewrite Hb.
  destruct (body1 acc x) as [acc' | e]; [| reflexivity].
  rewrite !bind_Ok. apply IH.
Qed.

(** X2. When all the sales fall in one calendar month, the dashboard top 3
    is the top 3 of the month, row for row (and fails when it fails). *)
Theorem top_3_es_top_n_del_mes (ventas_df : list Ventas.row)
    (stock_df : list Stock.row) :
  ventas_de_un_mes ventas_df →
  top_3_vendidos_dashboard ventas_df stock_df
  = match top_n_vendidos_mes ventas_df stock_df 3 with
    | Ok res => Ok (top_3_de <$> res)
    | Raise e => Raise e
    end.
Proof.
  intros Hmes. destruct ventas_df as [| v rest]; [reflexivity |].
  unfold top_n_vendidos_mes, top_3_vendidos_dashboard. cbn [length Nat.eqb].
  destruct (Series_max (Ventas.Fecha <$> v :: rest)) as [fmax |] eqn:Hmax;
    [| discriminate].
  assert (Hfmax : ∃ w, w ∈ v :: rest ∧ Ventas.Fecha w = fmax).
  { apply Series_max_Some in Hmax as [Hin _].
    apply list_elem_of_fmap in Hin as (w & -> & Hw). by exists w. }
  destruct Hfmax as (w & Hw & <-).
  unfold ventas_del_mes. rewrite filter_todos by (intros x Hx; by apply Hmes).
  apply (for_loop_proyeccion top_3_de _ _ _) with (acc := []).
  intros acc [sku total].
  destruct (stock_row_of_cases stock_df sku) as [(r & Hr & _ & Hk) | [Hr _]];
    rewrite Hr; [| reflexivity].
  rewrite !bind_Ok, fmap_app. subst sku. reflexivity.
Qed.

Lemma top_3_es_top_n_del_mes_witness :
  let ventas_df := [fila_venta 19723 7 1; fila_venta 19724 8 3;
                    fila_venta 19730 9 2; fila_venta 19725 7 4;
                    fila_venta 19726 6 1] in
  let stock_df := [fila_stock 6 "Cinto" 1 1; fila_stock 7 "Camisa" 4 2;
                   fila_stock 8 "Gorra" 0 1; fila_stock 9 "Bufanda" 6 1] in
  ventas_de_un_mes ventas_df
  ∧ top_3_vendidos_dashboard ventas_df stock_df
    = match top_n_vendidos_mes ventas_df stock_df 3 with
      | Ok res => Ok (top_3_de <$> res)
      | Raise e => Raise e
      end.
Proof.
  cbv zeta.
  assert (H : ventas_de_un_mes
                [fila_venta 19723 7 1; fila_venta 19724 8 3;
                 fila_venta 19730 9 2; fila_venta 19725 7 4;
                 fila_venta 19726 6 1]).
  { intros v w Hv Hw.
    repeat (apply elem_of_cons in Hv as [-> | Hv]);
      try (by apply elem_of_nil in Hv);
      repeat (apply elem_of_cons in Hw as [-> | Hw]);
      try (by apply elem_of_nil in Hw); by vm_compute. }
  split; [exact H |].
  exact (top_3_es_top_n_del_mes _
           [fila_stock 6 "Cinto" 1 1; fila_stock 7 "Camisa" 4 2;
            fila_stock 8 "Gorra" 0 1; fila_stock 9 "Bufanda" 6 1] H).
Defined.

(** ** Global metrics *)

Lemma roturas_de_eventos (historico_df : list Historico.row) :
  filter es_rotura (eventos_detectados historico_df)
  = evento_rotura <$> filter (fun r => Historico.Stock r = 0) historico_df.
Proof.
  rewrite eventos_detectados_concat.
  induction historico_df as [| row rest IH]; [reflexivity |].
  rewrite fmap_cons, concat_cons, filter_app, roturas_de_fila, IH, filter_cons.
  case_decide; reflexivity.
Qed.

Lemma reposiciones_de_eventos (historico_df : list Historico.row) :
  filter es_reposicion (eventos_detectados historico_df)
  = evento_reposicion
    <$> filter (fun r => Historico.Reposicion r = 1) historico_df.
Proof.
  rewrite eventos_detectados_concat.
  induction historico_df as [| row rest IH]; [reflexivity |].
  rewrite fmap_cons, concat_cons, filter_app, reposiciones_de_fila, IH, filter_cons.
  case_decide; reflexivity.
Qed.

Lemma length_eventos_detectados (historico_df : list Historico.row) :
  length (eventos_detectados historico_df)
  = Nat.add (length (filter (fun r => Historico.Stock r = 0) historico_df))
            (length (filter (fun r => Historico.Reposicion r = 1) historico_df)).
Proof.
  rewrite eventos_detectados_concat.
  induction historico_df as [| row rest IH]; [reflexivity |].
  rewrite fmap_cons, concat_cons, length_app, IH, !filter_cons.
  unfold eventos_de_fila. repeat case_decide; simpl; lia.
Qed.

(** X3. Global Metrics always returns, and its two counters count the
    events that event extraction emits on the same History table: the
    stockout events, the restock events, and together all the events. *)
Theorem metricas_globales_cuenta_eventos (stock_df : list Stock.row)
    (ventas_df : list Ventas.row) (historico_df : list Historico.row) :
  ∃ m, metricas_globales stock_df ventas_df historico_df = Ok m
       ∧ Metricas.num_roturas_detectadas m
         = Z.of_nat (length (filter es_rotura (eventos_detectados historico_df)))
       ∧ Metricas.num_reposiciones_detectadas m
         = Z.of_nat (length (filter es_reposicion
                               (eventos_detectados historico_df)))
       ∧ Metricas.num_roturas_detectadas m
         + Metricas.num_reposiciones_detectadas m
         = Z.of_nat (length (eventos_detectados historico_df)).
Proof.
  unfold metricas_globales.
  destruct (media_rotacion_total
              (Series_sum (Ventas.Unidades_Vendidas <$> ventas_df))
              (nunique (Stock.SKU <$> stock_df))) as [x ->].
  rewrite bind_Ok. eexists. split; [reflexivity |]. cbn.
  rewrite roturas_de_eventos, reposiciones_de_eventos, !length_fmap,
    length_eventos_detectados.
  split; [reflexivity |]. split; [reflexivity | lia].
Qed.

Lemma length_insert_key (k : Z) (ks : list Z) :
  StronglySorted Z.lt ks →
  length (insert_key k ks)
  = if decide (k ∈ ks) then length ks else S (length ks).
Proof.
  induction 1 as [| k' t Hs IH Hk'].
  - destruct (decide (k ∈ [])) as [Hin | _]; [by apply elem_of_nil in Hin | done].
  - cbn [insert_key]. destruct (Z.ltb_spec k k') as [Hlt | Hge].
    + destruct (decide (k ∈ k' :: t)) as [Hin | _]; [| reflexivity].
      exfalso. apply elem_of_cons in Hin as [-> | Hin]; [lia |].
      apply (proj1 (Forall_forall _ _) Hk') in Hin. lia.
    + destruct (Z.eqb_spec k k') as [-> | Hne].
      * destruct (decide (k' ∈ k' :: t)) as [_ | Hnin]; [reflexivity |].
        exfalso. apply Hnin. left.
      * cbn [length]. rewrite IH.
        destruct (decide (k ∈ t)) as [Hin | Hnin];
          destruct (decide (k ∈ k' :: t)) as [Hin' | Hnin']; try reflexivity.
        -- exfalso. apply Hnin'. by right.
        -- exfalso. apply elem_of_cons in Hin' as [-> | Hin']; done.
Qed.

Lemma length_group_keys_le (l : list Z) :
  (length (group_keys l) <= length l)%nat
  ∧ (length (group_keys l) = length l ↔ NoDup l).
Proof.
  induction l as [| k l [IHle IHiff]]; [split; [done | split; [constructor | done]] |].
  simpl. rewrite length_insert_key by apply group_keys_sorted.
  rewrite NoDup_cons, <- IHiff.
  destruct (decide (k ∈ group_keys l)) as [Hin | Hnin].
  - split; [lia |]. rewrite elem_of_group_keys in Hin.
    split; [lia | by intros [Hn _]].
  - rewrite elem_of_group_keys in Hnin. split; [lia |]. split; [| lia].
    intros Heq. split; [done | lia].
Qed.

(** X4. Global Metrics counts distinct SKUs: the product count lies between
    0 and the number of Stock rows, it reaches the number of rows exactly
    when the SKUs are unique, it is 0 exactly for the empty table, and then
    the rotation average is 0. *)
Theorem metricas_globales_num_productos (stock_df : list Stock.row)
    (ventas_df : list Ventas.row) (historico_df : list Historico.row) :
  ∃ m, metricas_globales stock_df ventas_df historico_df = Ok m
       ∧ 0 <= Metricas.num_productos m <= Z.of_nat (length stock_df)
       ∧ (Metricas.num_productos m = Z.of_nat (length stock_df)
          ↔ NoDup (Stock.SKU <$> stock_df))
       ∧ (Metricas.num_productos m = 0 ↔ stock_df = [])
       ∧ (stock_df = [] → Metricas.media_rotacion_por_producto m = of_int 0).
Proof.
  unfold metricas_globales.
  destruct (media_rotacion_total
              (Series_sum (Ventas.Unidades_Vendidas <$> ventas_df))
              (nunique (Stock.SKU <$> stock_df))) as [x Hx].
  rewrite Hx, bind_Ok. eexists. split; [reflexivity |]. cbn.
  unfold nunique. rewrite <- length_group_keys.
  destruct (length_group_keys_le (Stock.SKU <$> stock_df)) as [Hle Hiff].
  rewrite length_fmap in Hle, Hiff.
  split; [lia |]. split; [rewrite <- Hiff; lia |]. split.
  - split.
    + intros H0. destruct stock_df as [| r rest]; [done |]. exfalso.
      assert (Hin : Stock.SKU r ∈ group_keys (Stock.SKU <$> r :: rest))
        by (apply elem_of_group_keys; left).
      destruct (group_keys (Stock.SKU <$> r :: rest)); [| simpl in H0; lia].
      by apply elem_of_nil in Hin.
    + by intros ->.
  - intros ->. cbn in Hx. by injection Hx.
Qed.

(** ** More on dead stock *)

(** The output of dead-stock detection, SKU by SKU: the Stock row found for
    each SKU of the table that passes the test, in the order of the table. *)
Lemma productos_muertos_filas (ventas_df : list Ventas.row)
    (stock_df : list Stock.row) (umbral_dias : Z) :
  ∃ muertos,
    productos_muertos ventas_df stock_df umbral_dias = Ok muertos
    ∧ Forall2 (fun sku r => stock_row_of stock_df sku = Ok r)
        (filter (fun sku => prueba_muerto ventas_df umbral_dias sku = true)
                (Stock.SKU <$> stock_df))
        muertos.
Proof.
  unfold productos_muertos.
  match goal with |- ∃ _, for_loop ?body [] ?l = _ ∧ _ =>
    destruct (for_loop_busqueda stock_df id (fun _ prod => prod)
                (prueba_muerto ventas_df umbral_dias) body l
                (fun _ _ => eq_refl) [])
      as [[_ (sku & Hsku & _ & Hfalta)] | (muertos & Hm & HF)]
  end.
  { exfalso. apply list_elem_of_fmap in Hsku as (r & Heq & Hr).
    apply (Hfalta r Hr). symmetry. exact Heq. }
  exists muertos. split; [exact Hm |].
  eapply Forall2_impl; [exact HF |].
  intros sku r (r' & Hr' & ->). exact Hr'.
Qed.

Lemma stock_row_of_SKU (stock_df : list Stock.row) (sku : Z) (r : Stock.row) :
  stock_row_of stock_df sku = Ok r → r ∈ stock_df ∧ Stock.SKU r = sku.
Proof.
  intros Hr.
  destruct (stock_row_of_cases stock_df sku)
    as [(r' & Hr' & Hin & Hk) | [Hr' _]]; [| congruence].
  assert (r' = r) as -> by congruence. done.
Qed.

Lemma Forall2_filas_SKU (stock_df : list Stock.row) (skus : list Z)
    (filas : list Stock.row) :
  Forall2 (fun sku r => stock_row_of stock_df sku = Ok r) skus filas →
  Stock.SKU <$> filas = skus.
Proof.
  induction 1 as [| sku r skus filas Hr _ IH]; [reflexivity |].
  rewrite fmap_cons, IH. f_equal. by apply (stock_row_of_SKU stock_df).
Qed.

Lemma Forall2_filas_NoDup (stock_df l : list Stock.row)
    (filas : list Stock.row) :
  (∀ r, r ∈ l → stock_row_of stock_df (Stock.SKU r) = Ok r) →
  Forall2 (fun sku r => stock_row_of stock_df sku = Ok r)
          (Stock.SKU <$> l) filas →
  filas = l.
Proof.
  revert filas. induction l as [| r l IH]; intros filas Hl HF.
  - by inversion HF.
  - rewrite fmap_cons in HF. inversion HF as [| sku r' skus filas' Hr HF']; subst.
    rewrite (Hl r) in Hr by left. injection Hr as <-.
    f_equal. apply IH; [| done]. intros r' Hr'. apply Hl. by right.
Qed.

Lemma prueba_muerto_umbral_no_positivo (ventas_df : list Ventas.row)
    (umbral_dias sku : Z) :
  umbral_dias <= 0 → prueba_muerto ventas_df umbral_dias sku = true.
Proof.
  intros Hk. apply prueba_muerto_spec. unfold producto_muerto.
  destruct (Series_max (Ventas.Fecha <$> ventas_of_sku sku ventas_df))
    as [u |] eqn:Hu.
  - right. apply Series_max_Some in Hu. pose proof Hu as Hu'.
    apply es_maximo_ultima_venta in Hu'.
    destruct Hu' as [(v & Hv & Hs & Hf) Hlast].
    destruct (Series_max (Ventas.Fecha <$> ventas_df)) as [m |] eqn:Hm.
    + apply Series_max_Some in Hm. exists u, m.
      split; [by apply es_maximo_ultima_venta |].
      split; [by apply es_maximo_fecha_maxima |].
      destruct Hm as [_ Hle]. specialize (Hle u).
      assert (u <= m)
        by (apply Hle; rewrite <- Hf; by apply list_elem_of_fmap_2).
      unfold ns_per_day. lia.
    + apply Series_max_None, fmap_nil_inv' in Hm. subst ventas_df.
      by apply elem_of_nil in Hv.
  - left. intros v Hv Hs. apply Series_max_None in Hu.
    assert (Hin : Ventas.Fecha v ∈ Ventas.Fecha <$> ventas_of_sku sku ventas_df)
      by (apply elem_of_fechas_de_sku; eauto).
    rewrite Hu in Hin. by apply elem_of_nil in Hin.
Qed.

(** X5. With no sales at all, or with an idle threshold of 0 days or less,
    dead-stock detection reports one row for every row of Stock, with the
    SKUs of the table in its order; with unique SKUs the output is the
    Stock table itself. *)
Theorem productos_muertos_todos (ventas_df : list Ventas.row)
    (stock_df : list Stock.row) (umbral_dias : Z) :
  ventas_df = [] ∨ umbral_dias <= 0 →
  ∃ muertos,
    productos_muertos ventas_df stock_df umbral_dias = Ok muertos
    ∧ Stock.SKU <$> muertos = Stock.SKU <$> stock_df
    ∧ (NoDup (Stock.SKU <$> stock_df) → muertos = stock_df).
Proof.
  intros Hcaso.
  destruct (productos_muertos_filas ventas_df stock_df umbral_dias)
    as (muertos & Hm & HF).
  rewrite filter_todos in HF.
  2:{ intros sku _. destruct Hcaso as [-> | Hk]; [reflexivity |].
      by apply prueba_muerto_umbral_no_positivo. }
  exists muertos. split; [exact Hm |].
  split; [by apply (Forall2_filas_SKU stock_df) |].
  intros Hnd. apply (Forall2_filas_NoDup stock_df); [| done].
  intros r Hr. by apply stock_row_of_NoDup.
Qed.

Lemma productos_muertos_todos_witness :
  let ventas_df := [fila_venta 19723 7 1; fila_venta 19737 8 3] in
  let stock_df := [fila_stock 7 "Camisa" 4 2; fila_stock 8 "Gorra" 0 1;
                   fila_stock 7 "Camisa L" 1 2] in
  (ventas_df = [] ∨ 0 <= 0)
  ∧ ∃ muertos,
      productos_muertos ventas_df stock_df 0 = Ok muertos
      ∧ Stock.SKU <$> muertos = Stock.SKU <$> stock_df
      ∧ (NoDup (Stock.SKU <$> stock_df) → muertos = stock_df).
Proof.
  cbv zeta.
  assert (H : [fila_venta 19723 7 1; fila_venta 19737 8 3] = [] ∨ 0 <= 0)
    by (right; lia).
  split; [exact H |].
  exact (productos_muertos_todos _
           [fila_stock 7 "Camisa" 4 2; fila_stock 8 "Gorra" 0 1;
            fila_stock 7 "Camisa L" 1 2] 0 H).
Defined.

Lemma producto_muerto_monotono (ventas_df : list Ventas.row)
    (k k' sku : Z) :
  k <= k' → producto_muerto ventas_df k' sku → producto_muerto ventas_df k sku.
Proof.
  intros Hk [Hn | (u & m & Hu & Hm & Hle)]; [by left |].
  right. exists u, m. split; [done |]. split; [done |].
  unfold ns_per_day in *. lia.
Qed.

(** X6. Raising the idle threshold can only shrink the dead-stock output:
    every row reported with a threshold is reported with any smaller one. *)
Theorem productos_muertos_monotono (ventas_df : list Ventas.row)
    (stock_df : list Stock.row) (k k' : Z) :
  k <= k' →
  ∃ muertos muertos',
    productos_muertos ventas_df stock_df k = Ok muertos
    ∧ productos_muertos ventas_df stock_df k' = Ok muertos'
    ∧ ∀ r, r ∈ muertos' → r ∈ muertos.
Proof.
  intros Hk.
  destruct (productos_muertos_filas ventas_df stock_df k) as (m & Hm & HF).
  destruct (productos_muertos_filas ventas_df stock_df k') as (m' & Hm' & HF').
  exists m, m'. split; [done |]. split; [done |].
  intros r Hr. apply list_elem_of_lookup in Hr as [i Hr].
  destruct (Forall2_lookup_r _ _ _ _ _ HF' Hr) as (sku & Hsku & Hfila).
  apply list_elem_of_lookup_2, list_elem_of_filter in Hsku as [Hdead Hsku].
  assert (Hsel : sku ∈ filter (fun sku => prueba_muerto ventas_df k sku = true)
                              (Stock.SKU <$> stock_df)).
  { apply list_elem_of_filter. split; [| done].
    apply prueba_muerto_spec, (producto_muerto_monotono _ k k'); [done |].
    by apply prueba_muerto_spec. }
  apply list_elem_of_lookup in Hsel as [j Hj].
  destruct (Forall2_lookup_l _ _ _ _ _ HF Hj) as (r' & Hr' & Hfila').
  assert (r' = r) as -> by congruence.
  by eapply list_elem_of_lookup_2.
Qed.

Lemma productos_muertos_monotono_witness :
  let ventas_df := [fila_venta 19723 7 1; fila_venta 19737 8 3;
                    fila_venta 19730 9 2] in
  let stock_df := [fila_stock 7 "Camisa" 4 2; fila_stock 8 "Gorra" 0 1;
                   fila_stock 9 "Bufanda" 6 1] in
  7 <= 14
  ∧ ∃ muertos muertos',
      productos_muertos ventas_df stock_df 7 = Ok muertos
      ∧ productos_muertos ventas_df stock_df 14 = Ok muertos'
      ∧ ∀ r, r ∈ muertos' → r ∈ muertos.
Proof.
  cbv zeta. assert (H : 7 <= 14) by lia. split; [exact H |].
  exact (productos_muertos_monotono
           [fila_venta 19723 7 1; fila_venta 19737 8 3; fila_venta 19730 9 2]
           [fila_stock 7 "Camisa" 4 2; fila_stock 8 "Gorra" 0 1;
            fila_stock 9 "Bufanda" 6 1] 7 14 H).
Defined.

(** X7. A SKU with a sale less than [umbral_dias] days before the latest
    date of the Sales table is never reported as dead; in particular, for a
    threshold of at least one day, no SKU sold on the latest date is. *)
Theorem productos_muertos_venta_reciente (ventas_df : list Ventas.row)
    (stock_df : list Stock.row) (umbral_dias : Z) (v : Ventas.row)
    (m : Timestamp) :
  v ∈ ventas_df → fecha_maxima ventas_df m →
  m - Ventas.Fecha v < umbral_dias * ns_per_day →
  ∃ muertos,
    productos_muertos ventas_df stock_df umbral_dias = Ok muertos
    ∧ Ventas.SKU v ∉ Stock.SKU <$> muertos.
Proof.
  intros Hv Hm Hrec.
  destruct (productos_muertos_skus ventas_df stock_df umbral_dias)
    as (muertos & Hok & _ & Hskus).
  exists muertos. split; [exact Hok |]. intros Hin.
  apply Hskus in Hin as [_ [Hn | (u & m' & [_ Hu] & Hm' & Hle)]].
  - by apply (Hn v).
  - apply es_maximo_fecha_maxima in Hm, Hm'.
    rewrite (es_maximo_unique _ _ _ Hm' Hm) in Hle.
    specialize (Hu v Hv eq_refl). lia.
Qed.

Lemma productos_muertos_venta_reciente_witness :
  let ventas_df := [fila_venta 19723 7 1; fila_venta 19737 8 3;
                    fila_venta 19730 9 2] in
  let stock_df := [fila_stock 7 "Camisa" 4 2; fila_stock 8 "Gorra" 0 1;
                   fila_stock 9 "Bufanda" 6 1] in
  fila_venta 19730 9 2 ∈ ventas_df
  ∧ fecha_maxima ventas_df (19737 * ns_per_day)
  ∧ 19737 * ns_per_day - Ventas.Fecha (fila_venta 19730 9 2) < 14 * ns_per_day
  ∧ ∃ muertos,
      productos_muertos ventas_df stock_df 14 = Ok muertos
      ∧ Ventas.SKU (fila_venta 19730 9 2) ∉ Stock.SKU <$> muertos.
Proof.
  cbv zeta.
  assert (Hv : fila_venta 19730 9 2
               ∈ [fila_venta 19723 7 1; fila_venta 19737 8 3;
                  fila_venta 19730 9 2]) by (do 2 right; left).
  assert (Hm : fecha_maxima
                 [fila_venta 19723 7 1; fila_venta 19737 8 3;
                  fila_venta 19730 9 2] (19737 * ns_per_day)).
  { split.
    - exists (fila_venta 19737 8 3). split; [right; left | reflexivity].
    - intros w Hw. repeat (apply elem_of_cons in Hw as [-> | Hw]);
        [by vm_compute | by vm_compute | by vm_compute
        | by apply elem_of_nil in Hw]. }
  assert (Hr : 19737 * ns_per_day - Ventas.Fecha (fila_venta 19730 9 2)
               < 14 * ns_per_day) by (by vm_compute).
  split; [exact Hv |]. split; [exact Hm |]. split; [exact Hr |].
  exact (productos_muertos_venta_reciente _
           [fila_stock 7 "Camisa" 4 2; fila_stock 8 "Gorra" 0 1;
            fila_stock 9 "Bufanda" 6 1] 14 _ _ Hv Hm Hr).
Defined.

(** ** More on the velocity mappings *)

Lemma velocidad_total (ventas : list (Z * Z)) (dias : pynum) (sku : Z) :
  ∃ v, velocidad ventas dias sku = Ok v.
Proof.
  unfold velocidad. destruct (truthy dias) eqn:E; [| by eexists].
  destruct (truediv_no_cero (of_int (Series_get ventas sku 0)) dias)
    as [x ->]; [by apply truthy_no_cero |].
  rewrite bind_Ok. by eexists.
Qed.

Lemma velocidad_o_nan_Ok (ventas_df : list Ventas.row) (sku : Z) :
  velocidad (groupby_SKU_sum ventas_df) (dias_ventas ventas_df) sku
  = Ok (velocidad_o_nan ventas_df sku).
Proof.
  unfold velocidad_o_nan.
  by destruct (velocidad_total (groupby_SKU_sum ventas_df)
                 (dias_ventas ventas_df) sku) as [v ->].
Qed.

Lemma mapa_de_lookup_inv (g : Z → pynum) (skus : list Z) (k : string)
    (x : pynum) :
  mapa_de g skus ∅ !! k = Some x → ∃ sku, sku ∈ skus ∧ k = pretty sku ∧ x = g sku.
Proof.
  intros Hx. destruct (decide (k ∈ pretty <$> skus)) as [Hin | Hnin].
  - apply list_elem_of_fmap in Hin as (sku & -> & Hsku).
    rewrite mapa_de_lookup in Hx by done. exists sku. split; [done |].
    split; [done | congruence].
  - rewrite mapa_de_lookup_otro, lookup_empty in Hx; [done |].
    intros sku Hsku <-. apply Hnin. by apply list_elem_of_fmap_2.
Qed.

(** A map keyed by the decimal form of SKUs has one entry per distinct SKU. *)
Lemma mapa_de_size (g : Z → pynum) (skus : list Z) :
  size (mapa_de g skus ∅) = size (list_to_set skus : gset Z).
Proof.
  rewrite <- (size_dom (D := gset string)), mapa_de_dom.
  transitivity (length (group_keys skus)); [| apply length_group_keys].
  rewrite <- (length_fmap pretty).
  rewrite <- (size_list_to_set (C := gset string) (pretty <$> group_keys skus))
    by apply (NoDup_fmap_2 _), group_keys_NoDup.
  f_equal. apply set_eq. intros k.
  rewrite !elem_of_list_to_set, !list_elem_of_fmap.
  split; intros (sku & -> & Hsku); exists sku; (split; [done |]);
    by apply elem_of_group_keys.
Qed.

(** X8. Both velocity mappings are returned for all tables, they give the
    same value to every SKU that they share, and they have one entry per
    distinct SKU: of Stock for the velocity map, which therefore has as many
    entries as Global Metrics counts products, and of Sales for the
    average-units map. *)
Theorem velocidades_coherentes (ventas_df : list Ventas.row)
    (stock_df : list Stock.row) (historico_df : list Historico.row) :
  ∃ d p m,
    estimaciones_velocidad_venta ventas_df stock_df = Ok d
    ∧ promedios_unidades_vendidas ventas_df = Ok p
    ∧ metricas_globales stock_df ventas_df historico_df = Ok m
    ∧ (∀ k x y, d !! k = Some x → p !! k = Some y → x = y)
    ∧ Z.of_nat (size d) = Metricas.num_productos m
    ∧ size p = size (list_to_set (Ventas.SKU <$> ventas_df) : gset Z).
Proof.
  unfold estimaciones_velocidad_venta, promedios_unidades_vendidas,
    metricas_globales.
  rewrite !(for_loop_mapa (velocidad_o_nan ventas_df))
    by apply velocidad_o_nan_Ok.
  destruct (media_rotacion_total
              (Series_sum (Ventas.Unidades_Vendidas <$> ventas_df))
              (nunique (Stock.SKU <$> stock_df))) as [x ->].
  rewrite bind_Ok. do 3 eexists. do 3 (split; [reflexivity |]). cbn.
  split; [| split].
  - intros k a b Ha Hb.
    apply mapa_de_lookup_inv in Ha as (sku & _ & -> & ->).
    apply mapa_de_lookup_inv in Hb as (sku' & _ & Heq & ->).
    apply (inj pretty) in Heq. by subst.
  - by rewrite mapa_de_size.
  - rewrite mapa_de_size, groupby_SKU_sum_keys. f_equal.
    apply set_eq. intros k. by rewrite !elem_of_list_to_set, elem_of_group_keys.
Qed.

Lemma unidades_de_nunca_vendido (ventas_df : list Ventas.row) (sku : Z) :
  nunca_vendido ventas_df sku → unidades_de ventas_df sku = 0.
Proof.
  intros Hn. unfold unidades_de.
  assert (Hnil : ventas_of_sku sku ventas_df = []).
  { apply elem_of_nil_inv. intros v Hv.
    apply list_elem_of_filter in Hv as [Hs Hv]. by apply (Hn v). }
  by rewrite Hnil.
Qed.

(** X9. On a non-empty Sales table a product of Stock that was never sold
    has velocity 0 (the default of the lookup of its total). *)
Theorem estimaciones_velocidad_venta_sin_vender (ventas_df : list Ventas.row)
    (stock_df : list Stock.row) (r : Stock.row) :
  ventas_df ≠ [] → r ∈ stock_df → nunca_vendido ventas_df (Stock.SKU r) →
  ∃ d, estimaciones_velocidad_venta ventas_df stock_df = Ok d
       ∧ d !! pretty (Stock.SKU r) = Some (of_int 0).
Proof.
  intros Hne Hr Hn.
  destruct (velocidades_con_ventas ventas_df stock_df Hne)
    as (dias & d & p & Hd & _ & Hed & _ & Hdom & _ & Hval & _).
  exists d. split; [exact Hed |].
  assert (Hk : pretty (Stock.SKU r) ∈ dom d).
  { rewrite Hdom, elem_of_list_to_set.
    by apply list_elem_of_fmap_2, list_elem_of_fmap_2. }
  apply elem_of_dom in Hk as [x Hx]. rewrite Hx. f_equal.
  rewrite (Hval _ _ Hx). unfold velocidad_esperada.
  rewrite unidades_de_nunca_vendido by done.
  destruct dias; reflexivity.
Qed.

Lemma estimaciones_velocidad_venta_sin_vender_witness :
  let ventas_df := [fila_venta 19723 7 1; fila_venta 19737 8 3] in
  let stock_df := [fila_stock 7 "Camisa" 4 2; fila_stock 9 "Bufanda" 6 1] in
  ventas_df ≠ [] ∧ fila_stock 9 "Bufanda" 6 1 ∈ stock_df
  ∧ nunca_vendido ventas_df 9
  ∧ ∃ d, estimaciones_velocidad_venta ventas_df stock_df = Ok d
         ∧ d !! pretty 9 = Some (of_int 0).
Proof.
  cbv zeta.
  assert (Hne : [fila_venta 19723 7 1; fila_venta 19737 8 3] ≠ [])
    by discriminate.
  assert (Hr : fila_stock 9 "Bufanda" 6 1
               ∈ [fila_stock 7 "Camisa" 4 2; fila_stock 9 "Bufanda" 6 1])
    by (right; left).
  assert (Hn : nunca_vendido [fila_venta 19723 7 1; fila_venta 19737 8 3]
                 (Stock.SKU (fila_stock 9 "Bufanda" 6 1))).
  { intros v Hv. repeat (apply elem_of_cons in Hv as [-> | Hv]);
      [discriminate | discriminate | by apply elem_of_nil in Hv]. }
  split; [exact Hne |]. split; [exact Hr |]. split; [exact Hn |].
  exact (estimaciones_velocidad_venta_sin_vender _ _ _ Hne Hr Hn).
Defined.

(** ** More on the last-analysis date *)

Lemma append_no_vacia (a b : string) (c : Ascii.ascii) :
  String.append a (String c b) ≠ ""%string.
Proof. destruct a; discriminate. Qed.

Lemma str_date_no_vacia (t : Timestamp) : str_date t ≠ ""%string.
Proof.
  unfold str_date. destruct (date t) as [[y m] d].
  apply append_no_vacia.
Qed.

(** X10. The last-analysis date is the empty string exactly when both the
    Sales and the History table are empty. *)
Theorem fecha_ultimo_analisis_vacia (ventas_df : list Ventas.row)
    (historico_df : list Historico.row) :
  fecha_ultimo_analisis ventas_df historico_df = ""%string
  ↔ ventas_df = [] ∧ historico_df = [].
Proof.
  split; [| by intros [-> ->]].
  unfold fecha_ultimo_analisis.
  destruct ventas_df as [| v vs], historico_df as [| h hs]; [done | | |];
    intros H; by apply str_date_no_vacia in H.
Qed.

(** ** The rows of slow-rotation detection *)

Lemma productos_rotacion_lenta_Ok_inv
    (ventas_df : list Ventas.row) (historico_df : list Historico.row)
    (stock_df : list Stock.row) (umbral : pynum) (res : list Lento.t) :
  productos_rotacion_lenta ventas_df historico_df stock_df umbral = Ok res →
  Forall2 (fun x l => ∃ r, stock_row_of stock_df x.1 = Ok r
                           ∧ l = {| Lento.producto := r;
                                    Lento.media_diaria :=
                                      media_diaria_o_nan ventas_df x |})
          (lentos_de ventas_df umbral) res.
Proof.
  unfold productos_rotacion_lenta, lentos_de.
  destruct (media_global_total ventas_df) as [mg Hmg]. rewrite Hmg, bind_Ok.
  intros Hres.
  set (mk := fun (x : Z * Z) prod =>
               {| Lento.producto := prod;
                  Lento.media_diaria := media_diaria_o_nan ventas_df x |}).
  match type of Hres with for_loop ?body [] ?l = _ =>
    assert (Hb : ∀ acc x, body acc x
                   = if es_lento ventas_df umbral x
                     then prod ← stock_row_of stock_df x.1; Ok (acc ++ [mk x prod])
                     else Ok acc);
    [| destruct (for_loop_busqueda stock_df fst mk (es_lento ventas_df umbral)
                   body l Hb [])
         as [[He _] | (filas & Hf & HF)] ]
  end.
  - intros acc [sku total]. unfold es_lento, mk, media_diaria_o_nan.
    rewrite Hmg. cbn [snd fst].
    destruct (media_diaria_de_total ventas_df total) as [md ->].
    rewrite bind_Ok. reflexivity.
  - congruence.
  - rewrite Hf in Hres. simpl in Hres. by injection Hres as <-.
Qed.

Lemma lentos_columnas (ventas_df : list Ventas.row) (stock_df : list Stock.row)
    (xs : list (Z * Z)) (res : list Lento.t) :
  Forall2 (fun x l => ∃ r, stock_row_of stock_df x.1 = Ok r
                           ∧ l = {| Lento.producto := r;
                                    Lento.media_diaria :=
                                      media_diaria_o_nan ventas_df x |})
          xs res →
  (fun l => Stock.SKU (Lento.producto l)) <$> res = xs.*1.
Proof.
  induction 1 as [| x l xs ls (r & Hr & ->) _ IH]; [done |].
  rewrite !fmap_cons, IH. cbn. f_equal.
  by apply (stock_row_of_SKU stock_df).
Qed.

Lemma StronglySorted_sublist {A : Type} (R : relation A) (l k : list A) :
  l `sublist_of` k → StronglySorted R k → StronglySorted R l.
Proof.
  induction 1 as [| x l k Hs IH | x l k Hs IH]; intros Hk.
  - constructor.
  - apply StronglySorted_inv in Hk as [Hk Hx].
    constructor; [by apply IH |].
    apply Forall_forall. intros y Hy.
    apply (proj1 (Forall_forall _ _) Hx). by eapply elem_of_sublist.
  - apply StronglySorted_inv in Hk as [Hk _]. by apply IH.
Qed.

(** X15. The rows that slow-rotation detection returns come in strictly
    ascending order of SKU (so one per SKU); each is a Stock row of a SKU of
    Sales and carries that SKU's total units divided by the day span,
    unrounded. *)
Theorem productos_rotacion_lenta_filas
    (ventas_df : list Ventas.row) (historico_df : list Historico.row)
    (stock_df : list Stock.row) (umbral : pynum) (res : list Lento.t) :
  productos_rotacion_lenta ventas_df historico_df stock_df umbral = Ok res →
  StronglySorted Z.lt ((fun l => Stock.SKU (Lento.producto l)) <$> res)
  ∧ ∀ l, l ∈ res →
      Lento.producto l ∈ stock_df
      ∧ Stock.SKU (Lento.producto l) ∈ Ventas.SKU <$> ventas_df
      ∧ ∃ d, 1 <= d ∧ dias_ventas ventas_df = of_int d
             ∧ Lento.media_diaria l
               = Fin (Qred (inject_Z (unidades_de ventas_df
                                        (Stock.SKU (Lento.producto l)))
                            / inject_Z d)).
Proof.
  intros Hres. apply productos_rotacion_lenta_Ok_inv in Hres.
  split.
  - rewrite (lentos_columnas _ _ _ _ Hres). unfold lentos_de.
    apply (StronglySorted_sublist _ _ ((groupby_SKU_sum ventas_df).*1)).
    + apply fmap_sublist, sublist_filter.
    + rewrite groupby_SKU_sum_keys. apply group_keys_sorted.
  - intros l Hl. apply list_elem_of_lookup in Hl as [i Hl].
    destruct (Forall2_lookup_r _ _ _ _ _ Hres Hl) as (x & Hx & r & Hr & ->).
    apply list_elem_of_lookup_2, list_elem_of_filter in Hx as [_ Hx].
    destruct x as [sku total].
    apply elem_of_groupby_SKU_sum in Hx as [Hsku ->].
    apply stock_row_of_SKU in Hr as [Hin Hk]. cbn in Hk. cbn.
    split; [done |]. split; [by rewrite Hk |].
    destruct (dias_ventas_cases ventas_df) as [[-> _] | [_ (d & Hd & Hdias)]];
      [by apply elem_of_nil in Hsku |].
    exists d. split; [done |]. split; [done |].
    unfold media_diaria_o_nan, media_diaria_de. rewrite Hdias.
    rewrite truthy_of_int by lia. cbn [snd]. unfold truediv, of_int.
    destruct (Qeq_bool (inject_Z d) 0) eqn:E.
    { apply Qeq_bool_iff in E. unfold Qeq in E. simpl in E. lia. }
    by rewrite Hk.
Qed.

Lemma productos_rotacion_lenta_filas_witness :
  let ventas_df := [fila_venta 19723 1 10; fila_venta 19724 2 1;
                    fila_venta 19725 2 1] in
  let stock_df := [fila_stock 1 "Camisa" 5 10; fila_stock 2 "Gorra" 8 3] in
  ∃ res,
    productos_rotacion_lenta ventas_df [] stock_df umbral_default = Ok res
    ∧ StronglySorted Z.lt ((fun l => Stock.SKU (Lento.producto l)) <$> res)
    ∧ ∀ l, l ∈ res →
        Lento.producto l ∈ stock_df
        ∧ Stock.SKU (Lento.producto l) ∈ Ventas.SKU <$> ventas_df
        ∧ ∃ d, 1 <= d ∧ dias_ventas ventas_df = of_int d
               ∧ Lento.media_diaria l
                 = Fin (Qred (inject_Z (unidades_de ventas_df
                                          (Stock.SKU (Lento.producto l)))
                              / inject_Z d)).
Proof.
  cbv zeta.
  destruct (productos_rotacion_lenta
              [fila_venta 19723 1 10; fila_venta 19724 2 1; fila_venta 19725 2 1]
              [] [fila_stock 1 "Camisa" 5 10; fila_stock 2 "Gorra" 8 3]
              umbral_default) as [res | e] eqn:H; [| by vm_compute in H].
  exists res. split; [reflexivity |].
  exact (productos_rotacion_lenta_filas _ _ _ _ res H).
Defined.

(** ** Slow rotation flags from the bottom *)

(** The test of the loop is monotone in the total of the entry. *)
Lemma es_lento_monotono (ventas_df : list Ventas.row) (umbral : pynum)
    (x y : Z * Z) :
  ventas_df ≠ [] → y.2 <= x.2 →
  es_lento ventas_df umbral x = true → es_lento ventas_df umbral y = true.
Proof.
  intros Hne Hle.
  destruct (dias_ventas_cases ventas_df) as [[-> _] | [_ (d & Hd & Hdias)]];
    [done |].
  unfold es_lento, media_diaria_de. rewrite Hdias, truthy_of_int by lia.
  destruct (media_global ventas_df) as [mg | e]; [| done].
  unfold truediv, of_int.
  destruct (Qeq_bool (inject_Z d) 0) eqn:E.
  { apply Qeq_bool_iff in E. unfold Qeq in E. simpl in E. lia. }
  destruct (mul umbral mg) as [| t]; [done |]. unfold ltb.
  rewrite !negb_true_iff, <- !not_true_iff_false, !Qle_bool_iff, !Qred_correct.
  intros Hx Hy. apply Hx. apply (Qle_trans _ _ _ Hy).
  apply Qmult_le_compat_r.
  - by rewrite <- Zle_Qle.
  - apply Qinv_le_0_compat. change 0%Q with (inject_Z 0). rewrite <- Zle_Qle. lia.
Qed.

(** X14. Slow-rotation detection flags from the bottom: when it reports a
    SKU, it also reports every SKU of Sales that sold no more units than
    that one. *)
Theorem productos_rotacion_lenta_desde_abajo
    (ventas_df : list Ventas.row) (historico_df : list Historico.row)
    (stock_df : list Stock.row) (umbral : pynum) (res : list Lento.t) :
  productos_rotacion_lenta ventas_df historico_df stock_df umbral = Ok res →
  ∀ l v, l ∈ res → v ∈ ventas_df →
    unidades_de ventas_df (Ventas.SKU v)
    <= unidades_de ventas_df (Stock.SKU (Lento.producto l)) →
    Ventas.SKU v ∈ (fun l => Stock.SKU (Lento.producto l)) <$> res.
Proof.
  intros Hres l v Hl Hv Hle.
  apply productos_rotacion_lenta_Ok_inv in Hres.
  rewrite (lentos_columnas _ _ _ _ Hres).
  apply list_elem_of_lookup in Hl as [i Hl].
  destruct (Forall2_lookup_r _ _ _ _ _ Hres Hl) as (x & Hx & r & Hr & ->).
  apply list_elem_of_lookup_2, list_elem_of_filter in Hx as [Hlento Hx].
  destruct x as [sku total].
  apply elem_of_groupby_SKU_sum in Hx as [_ ->].
  apply stock_row_of_SKU in Hr as [_ Hk]. cbn in Hk, Hle. rewrite Hk in Hle.
  apply list_elem_of_fmap.
  exists (Ventas.SKU v, unidades_de ventas_df (Ventas.SKU v)).
  split; [reflexivity |]. apply list_elem_of_filter. split.
  - assert (Hne : ventas_df ≠ []) by (intros ->; by apply elem_of_nil in Hv).
    exact (es_lento_monotono ventas_df umbral
             (sku, unidades_de ventas_df sku)
             (Ventas.SKU v, unidades_de ventas_df (Ventas.SKU v))
             Hne Hle Hlento).
  - apply elem_of_groupby_SKU_sum. split; [by apply list_elem_of_fmap_2 | done].
Qed.

Lemma productos_rotacion_lenta_desde_abajo_witness :
  let ventas_df := [fila_venta 19723 1 10; fila_venta 19724 2 1;
                    fila_venta 19725 3 2; fila_venta 19725 4 9] in
  let stock_df := [fila_stock 1 "Camisa" 5 10; fila_stock 2 "Gorra" 8 3;
                   fila_stock 3 "Bufanda" 6 1] in
  ∃ res,
    productos_rotacion_lenta ventas_df [] stock_df umbral_default = Ok res
    ∧ ∀ l v, l ∈ res → v ∈ ventas_df →
        unidades_de ventas_df (Ventas.SKU v)
        <= unidades_de ventas_df (Stock.SKU (Lento.producto l)) →
        Ventas.SKU v ∈ (fun l => Stock.SKU (Lento.producto l)) <$> res.
Proof.
  cbv zeta.
  destruct (productos_rotacion_lenta
              [fila_venta 19723 1 10; fila_venta 19724 2 1;
               fila_venta 19725 3 2; fila_venta 19725 4 9]
              [] [fila_stock 1 "Camisa" 5 10; fila_stock 2 "Gorra" 8 3;
                  fila_stock 3 "Bufanda" 6 1]
              umbral_default) as [res | e] eqn:H; [| by vm_compute in H].
  exists res. split; [reflexivity |].
  exact (productos_rotacion_lenta_desde_abajo _ _ _ _ res H).
Defined.

(** ** The top N of the month is a top *)

Lemma ranking_general (ventas_df : list Ventas.row) (n : nat) :
  let rk := take n (sort_values_desc (groupby_SKU_sum ventas_df)) in
  length rk = Nat.min n (size (list_to_set (Ventas.SKU <$> ventas_df) : gset Z))
  ∧ NoDup rk.*1
  ∧ (∀ sku x, sku ∈ Ventas.SKU <$> ventas_df → sku ∉ rk.*1 → x ∈ rk →
       unidades_de ventas_df sku <= x.2).
Proof.
  cbv zeta. set (l := sort_values_desc (groupby_SKU_sum ventas_df)).
  assert (Hperm : l ≡ₚ groupby_SKU_sum ventas_df)
    by apply sort_values_desc_Permutation.
  assert (Hsorted : StronglySorted (fun a b => b.2 <= a.2) l)
    by apply sort_values_desc_sorted.
  split; [| split].
  - rewrite length_take, Hperm. unfold groupby_SKU_sum.
    by rewrite length_fmap, length_group_keys.
  - apply (sublist_NoDup _ (l.*1)); [| apply fmap_sublist, sublist_take].
    rewrite Hperm, groupby_SKU_sum_keys. apply group_keys_NoDup.
  - intros sku x Hsku Hout Hx.
    assert (Hin : (sku, unidades_de ventas_df sku) ∈ l)
      by (rewrite Hperm; by apply elem_of_groupby_SKU_sum).
    rewrite <- (take_drop n l) in Hin, Hsorted.
    apply elem_of_app in Hin as [Hin | Hin].
    + exfalso. apply Hout. by apply (list_elem_of_fmap_2 fst) in Hin.
    + exact (StronglySorted_app_1_elem_of _ _ _ x
               (sku, unidades_de ventas_df sku) Hsorted Hx Hin).
Qed.

Lemma top_mes_columnas (stock_df : list Stock.row) (xs : list (Z * Z))
    (res : list TopMes.t) :
  Forall2 (fun x t => ∃ r, stock_row_of stock_df x.1 = Ok r
                           ∧ t = {| TopMes.producto := r;
                                    TopMes.total_vendido_mes := x.2 |})
          xs res →
  (fun t => (Stock.SKU (TopMes.producto t), TopMes.total_vendido_mes t)) <$> res
  = xs.
Proof.
  induction 1 as [| x t xs ts (r & Hr & ->) _ IH]; [done |].
  rewrite fmap_cons, IH. cbn. apply stock_row_of_SKU in Hr as [_ ->].
  by destruct x.
Qed.

(** X16. For a count [n >= 0], what the top N of the month returns has as
    many rows as SKUs sold in the month of the latest sale, up to [n], one
    row per SKU, and no SKU sold in that month and left out sold more in
    it than a SKU that is in. *)
Theorem top_n_vendidos_mes_maximo (ventas_df : list Ventas.row)
    (stock_df : list Stock.row) (n : Z) (fmax : Timestamp)
    (res : list TopMes.t) :
  0 <= n → fecha_maxima ventas_df fmax →
  top_n_vendidos_mes ventas_df stock_df n = Ok res →
  length res
  = Nat.min (Z.to_nat n)
      (size (list_to_set (Ventas.SKU <$> filter (en_mes_de fmax) ventas_df)
             : gset Z))
  ∧ NoDup ((fun t => Stock.SKU (TopMes.producto t)) <$> res)
  ∧ ∀ v t, v ∈ ventas_df → en_mes_de fmax v →
      Ventas.SKU v ∉ (fun t => Stock.SKU (TopMes.producto t)) <$> res →
      t ∈ res →
      unidades_del_mes ventas_df fmax (Ventas.SKU v) <= TopMes.total_vendido_mes t.
Proof.
  intros Hn Hfmax Hres.
  destruct ventas_df as [| v0 rest];
    [destruct Hfmax as [(v & Hv & _) _]; by apply elem_of_nil in Hv |].
  apply top_n_vendidos_mes_Ok_inv in Hres as (fmax' & Hmax & HF).
  apply Series_max_Some in Hmax. apply es_maximo_fecha_maxima in Hfmax.
  rewrite (es_maximo_unique _ _ _ Hmax Hfmax) in HF. clear fmax' Hmax.
  unfold Series_head in HF. rewrite (proj2 (Z.leb_le 0 n)) in HF by done.
  change (ventas_del_mes (month fmax) (year fmax) (v0 :: rest))
    with (filter (en_mes_de fmax) (v0 :: rest)) in HF.
  set (mes := filter (en_mes_de fmax) (v0 :: rest)) in *.
  destruct (ranking_general mes (Z.to_nat n)) as (Hlen & Hnd & Hmaxi).
  pose proof (top_mes_columnas _ _ _ HF) as Hcols.
  assert (Hskus : (fun t => Stock.SKU (TopMes.producto t)) <$> res
                  = (take (Z.to_nat n)
                       (sort_values_desc (groupby_SKU_sum mes))).*1).
  { rewrite <- Hcols, <- list_fmap_compose. reflexivity. }
  rewrite Hskus. split; [by rewrite <- (Forall2_length _ _ _ HF) |].
  split; [done |].
  intros v t Hv Hmes Hout Ht.
  assert (Hx : (Stock.SKU (TopMes.producto t), TopMes.total_vendido_mes t)
               ∈ take (Z.to_nat n) (sort_values_desc (groupby_SKU_sum mes))).
  { rewrite <- Hcols.
    by apply (list_elem_of_fmap_2
                (fun t => (Stock.SKU (TopMes.producto t),
                           TopMes.total_vendido_mes t))). }
  assert (Hsku : Ventas.SKU v ∈ Ventas.SKU <$> mes)
    by (apply list_elem_of_fmap_2, list_elem_of_filter; by split).
  pose proof (Hmaxi _ _ Hsku Hout Hx) as Hle. cbn [fst snd] in Hle.
  unfold unidades_de, mes, ventas_of_sku in Hle.
  rewrite list_filter_filter in Hle. exact Hle.
Qed.

Lemma top_n_vendidos_mes_maximo_witness :
  let ventas_df := [fila_venta 19723 7 1; fila_venta 19724 8 3;
                    fila_venta 19700 9 30; fila_venta 19725 7 1;
                    fila_venta 19726 6 1] in
  let stock_df := [fila_stock 6 "Cinto" 1 1; fila_stock 7 "Camisa" 4 2;
                   fila_stock 8 "Gorra" 0 1; fila_stock 9 "Bufanda" 6 1] in
  let fmax := 19726 * ns_per_day in
  0 <= 2 ∧ fecha_maxima ventas_df fmax
  ∧ ∃ res,
      top_n_vendidos_mes ventas_df stock_df 2 = Ok res
      ∧ length res
        = Nat.min (Z.to_nat 2)
            (size (list_to_set (Ventas.SKU <$> filter (en_mes_de fmax) ventas_df)
                   : gset Z))
      ∧ NoDup ((fun t => Stock.SKU (TopMes.producto t)) <$> res)
      ∧ ∀ v t, v ∈ ventas_df → en_mes_de fmax v →
          Ventas.SKU v ∉ (fun t => Stock.SKU (TopMes.producto t)) <$> res →
          t ∈ res →
          unidades_del_mes ventas_df fmax (Ventas.SKU v)
          <= TopMes.total_vendido_mes t.
Proof.
  cbv zeta. assert (Hn : 0 <= 2) by lia.
  assert (Hm : fecha_maxima
                 [fila_venta 19723 7 1; fila_venta 19724 8 3;
                  fila_venta 19700 9 30; fila_venta 19725 7 1;
                  fila_venta 19726 6 1] (19726 * ns_per_day)).
  { split.
    - exists (fila_venta 19726 6 1). split; [do 4 right; left | reflexivity].
    - intros w Hw. repeat (apply elem_of_cons in Hw as [-> | Hw]);
        [by vm_compute .. | by apply elem_of_nil in Hw]. }
  split; [exact Hn |]. split; [exact Hm |].
  destruct (top_n_vendidos_mes
              [fila_venta 19723 7 1; fila_venta 19724 8 3;
               fila_venta 19700 9 30; fila_venta 19725 7 1;
               fila_venta 19726 6 1]
              [fila_stock 6 "Cinto" 1 1; fila_stock 7 "Camisa" 4 2;
               fila_stock 8 "Gorra" 0 1; fila_stock 9 "Bufanda" 6 1] 2)
    as [res | e] eqn:H; [| by vm_compute in H].
  exists res. split; [reflexivity |].
  exact (top_n_vendidos_mes_maximo _ _ 2 _ res Hn Hm H).
Defined.

(** * The endpoint *)

Lemma llamar_Ok {A B : Type} (a : A) (k : A → intento B) :
  (llamar (Ok a) ≫= k) = k a.
Proof. reflexivity. Qed.

Lemma llamar_Raise {A B : Type} (e : pyerror) (k : A → intento B) :
  (llamar (Raise e : result A) ≫= k) = Fallo (Propagada e).
Proof. reflexivity. Qed.

Lemma velocidades_total (ventas_df : list Ventas.row) (stock_df : list Stock.row) :
  estimaciones_velocidad_venta ventas_df stock_df
  = Ok (mapa_de (velocidad_o_nan ventas_df) (Stock.SKU <$> stock_df) ∅)
  ∧ promedios_unidades_vendidas ventas_df
    = Ok (mapa_de (velocidad_o_nan ventas_df) (groupby_SKU_sum ventas_df).*1 ∅).
Proof.
  unfold estimaciones_velocidad_venta, promedios_unidades_vendidas.
  by rewrite !(for_loop_mapa (velocidad_o_nan ventas_df))
    by apply velocidad_o_nan_Ok.
Qed.

(** ** The readers *)

Lemma read_stock_csv_cases (df : DataFrame.t Stock.row) :
  (DataFrame.columns df = stock_expected_cols ∧ read_stock_csv df = Exito df)
  ∨ (DataFrame.columns df ≠ stock_expected_cols
     ∧ read_stock_csv df
       = Fallo (ValueError (mensaje_columnas "stock.csv" stock_expected_cols))).
Proof.
  unfold read_stock_csv. case_decide; [by right | left]. split; [| done].
  by destruct (decide (DataFrame.columns df = stock_expected_cols)).
Qed.

Lemma read_ventas_csv_cases (to_datetime : conversor)
    (df : DataFrame.t VentasCSV.row) :
  (DataFrame.columns df ≠ ventas_expected_cols
   ∧ read_ventas_csv to_datetime df
     = Fallo (ValueError (mensaje_columnas "ventas.csv" ventas_expected_cols)))
  ∨ (DataFrame.columns df = ventas_expected_cols
     ∧ ∃ e, to_datetime (VentasCSV.Fecha <$> DataFrame.rows df) = Fallo e
            ∧ read_ventas_csv to_datetime df = Fallo e)
  ∨ (DataFrame.columns df = ventas_expected_cols
     ∧ ∃ fechas,
         to_datetime (VentasCSV.Fecha <$> DataFrame.rows df) = Exito fechas
         ∧ read_ventas_csv to_datetime df
           = Exito {| DataFrame.columns := DataFrame.columns df;
                      DataFrame.rows :=
                        zip_with ventas_con_fecha (DataFrame.rows df) fechas |}).
Proof.
  unfold read_ventas_csv. case_decide as Hc; [by left | right].
  assert (Hc' : DataFrame.columns df = ventas_expected_cols)
    by (by destruct (decide (DataFrame.columns df = ventas_expected_cols))).
  destruct (to_datetime _) as [fechas | e]; [right | left]; split; eauto.
Qed.

Lemma read_historico_csv_cases (to_datetime : conversor)
    (df : DataFrame.t HistoricoCSV.row) :
  (DataFrame.columns df ≠ historico_expected_cols
   ∧ read_historico_csv to_datetime df
     = Fallo (ValueError (mensaje_columnas "historico_stock_ventas.csv"
                            historico_expected_cols)))
  ∨ (DataFrame.columns df = historico_expected_cols
     ∧ ∃ e, to_datetime (HistoricoCSV.Fecha <$> DataFrame.rows df) = Fallo e
            ∧ read_historico_csv to_datetime df = Fallo e)
  ∨ (DataFrame.columns df = historico_expected_cols
     ∧ ∃ fechas,
         to_datetime (HistoricoCSV.Fecha <$> DataFrame.rows df) = Exito fechas
         ∧ read_historico_csv to_datetime df
           = Exito {| DataFrame.columns := DataFrame.columns df;
                      DataFrame.rows :=
                        zip_with historico_con_fecha (DataFrame.rows df)
                          fechas |}).
Proof.
  unfold read_historico_csv. case_decide as Hc; [by left | right].
  assert (Hc' : DataFrame.columns df = historico_expected_cols)
    by (by destruct (decide (DataFrame.columns df = historico_expected_cols))).
  destruct (to_datetime _) as [fechas | e]; [right | left]; split; eauto.
Qed.

(** X11. The uploads are validated in the order stock, ventas, histórico,
    and the first failure ends the request: a wrong header raises the
    [ValueError] of its file, a date column that [pd.to_datetime] refuses
    raises the exception of the conversion, and a later file is not looked
    at.  The three header messages differ, so the message names the
    file. *)
Theorem procesar_todos_validacion (to_datetime : conversor)
    (stock_file : DataFrame.t Stock.row)
    (ventas_file : DataFrame.t VentasCSV.row)
    (historico_file : DataFrame.t HistoricoCSV.row) :
  let salida := procesar_todos to_datetime stock_file ventas_file historico_file in
  let fechas_ventas :=
    to_datetime (VentasCSV.Fecha <$> DataFrame.rows ventas_file) in
  let fechas_historico :=
    to_datetime (HistoricoCSV.Fecha <$> DataFrame.rows historico_file) in
  (DataFrame.columns stock_file ≠ stock_expected_cols →
   salida = Fallo (ValueError (mensaje_columnas "stock.csv" stock_expected_cols)))
  ∧ (DataFrame.columns stock_file = stock_expected_cols →
     DataFrame.columns ventas_file ≠ ventas_expected_cols →
     salida
     = Fallo (ValueError (mensaje_columnas "ventas.csv" ventas_expected_cols)))
  ∧ (DataFrame.columns stock_file = stock_expected_cols →
     DataFrame.columns ventas_file = ventas_expected_cols →
     ∀ e, fechas_ventas = Fallo e → salida = Fallo e)
  ∧ (DataFrame.columns stock_file = stock_expected_cols →
     DataFrame.columns ventas_file = ventas_expected_cols →
     (∃ fechas, fechas_ventas = Exito fechas) →
     DataFrame.columns historico_file ≠ historico_expected_cols →
     salida
     = Fallo (ValueError (mensaje_columnas "historico_stock_ventas.csv"
                            historico_expected_cols)))
  ∧ (DataFrame.columns stock_file = stock_expected_cols →
     DataFrame.columns ventas_file = ventas_expected_cols →
     (∃ fechas, fechas_ventas = Exito fechas) →
     DataFrame.columns historico_file = historico_expected_cols →
     ∀ e, fechas_historico = Fallo e → salida = Fallo e)
  ∧ mensaje_columnas "stock.csv" stock_expected_cols
    ≠ mensaje_columnas "ventas.csv" ventas_expected_cols
  ∧ mensaje_columnas "stock.csv" stock_expected_cols
    ≠ mensaje_columnas "historico_stock_ventas.csv" historico_expected_cols
  ∧ mensaje_columnas "ventas.csv" ventas_expected_cols
    ≠ mensaje_columnas "historico_stock_ventas.csv" historico_expected_cols.
Proof.
  cbv zeta.
  destruct (read_stock_csv_cases stock_file) as [[Hs Hrs] | [Hs Hrs]];
    destruct (read_ventas_csv_cases to_datetime ventas_file)
      as [[Hv Hrv] | [(Hv & ev & Hev & Hrv) | (Hv & fv & Hfv & Hrv)]];
    destruct (read_historico_csv_cases to_datetime historico_file)
      as [[Hh Hrh] | [(Hh & eh & Heh & Hrh) | (Hh & fh & Hfh & Hrh)]];
    unfold procesar_todos; rewrite Hrs; cbn [mbind intento_bind];
    try rewrite Hrv; cbn [mbind intento_bind];
    try rewrite Hrh; cbn [mbind intento_bind];
    (split; [intros Hs'; first [done | contradiction] |]);
    (split; [intros Hs' Hv'; first [done | contradiction] |]);
    (split; [intros Hs' Hv' e He; first [contradiction | congruence] |]);
    (split; [intros Hs' Hv' [f Hf] Hh';
             first [contradiction | congruence | done] |]);
    (split; [intros Hs' Hv' [f Hf] Hh' e He;
             first [contradiction | congruence] |]);
    (split; [intros H; vm_compute in H; discriminate |]);
    (split; intros H; vm_compute in H; discriminate).
Qed.

(** ** The content and its rendering *)



Lemma JSONResponse_inv (c r : Respuesta.t) : JSONResponse c = Exito r → r = c.
Proof. unfold JSONResponse. destruct (forallb _ _); congruence. Qed.

(** The steps of a request after the three readers: which of them can fail,
    and what the content is when none does. *)
Lemma procesar_todos_pasos (to_datetime : conversor)
    (stock_file : DataFrame.t Stock.row)
    (ventas_file : DataFrame.t VentasCSV.row)
    (historico_file : DataFrame.t HistoricoCSV.row)
    (stock : DataFrame.t Stock.row) (ventas : DataFrame.t Ventas.row)
    (historico : DataFrame.t Historico.row) :
  read_stock_csv stock_file = Exito stock →
  read_ventas_csv to_datetime ventas_file = Exito ventas →
  read_historico_csv to_datetime historico_file = Exito historico →
  let stock_df := DataFrame.rows stock in
  let ventas_df := DataFrame.rows ventas in
  let historico_df := DataFrame.rows historico in
  ∃ muertos metricas resumen,
    productos_muertos ventas_df stock_df umbral_dias_default = Ok muertos
    ∧ metricas_globales stock_df ventas_df historico_df = Ok metricas
    ∧ resumen_global_dashboard stock_df ventas_df historico_df = Ok resumen
    ∧ procesar_todos to_datetime stock_file ventas_file historico_file
      = match productos_rotacion_lenta ventas_df historico_df stock_df
                umbral_default,
              top_n_vendidos_mes ventas_df stock_df 5,
              top_3_vendidos_dashboard ventas_df stock_df with
        | Raise e, _, _ => Fallo (Propagada e)
        | Ok _, Raise e, _ => Fallo (Propagada e)
        | Ok _, Ok _, Raise e => Fallo (Propagada e)
        | Ok lentos, Ok top_5, Ok top_3 =>
            JSONResponse
              (contenido stock_df ventas_df historico_df lentos muertos top_5
                 (mapa_de (velocidad_o_nan ventas_df) (Stock.SKU <$> stock_df) ∅)
                 (mapa_de (velocidad_o_nan ventas_df)
                    (groupby_SKU_sum ventas_df).*1 ∅)
                 metricas resumen top_3)
        end.
Proof.
  intros Hs Hv Hh. cbv zeta.
  destruct (productos_muertos_filas (DataFrame.rows ventas)
              (DataFrame.rows stock) umbral_dias_default)
    as (muertos & Hm & _).
  destruct (velocidades_total (DataFrame.rows ventas) (DataFrame.rows stock))
    as [Hd Hp].
  destruct (media_rotacion_total
              (Series_sum (Ventas.Unidades_Vendidas <$> DataFrame.rows ventas))
              (nunique (Stock.SKU <$> DataFrame.rows stock))) as [x Hx].
  assert (Hmet : ∃ m, metricas_globales (DataFrame.rows stock)
                        (DataFrame.rows ventas) (DataFrame.rows historico) = Ok m)
    by (unfold metricas_globales; rewrite Hx; by eexists).
  assert (Hres : ∃ r, resumen_global_dashboard (DataFrame.rows stock)
                        (DataFrame.rows ventas) (DataFrame.rows historico) = Ok r)
    by (unfold resumen_global_dashboard; rewrite Hx; by eexists).
  destruct Hmet as [m Hmet]. destruct Hres as [r Hres].
  exists muertos, m, r.
  split; [exact Hm |]. split; [exact Hmet |]. split; [exact Hres |].
  unfold procesar_todos. rewrite Hs, Hv, Hh.
  cbn [mbind intento_bind]. rewrite Hm, Hd, Hp, Hmet, Hres.
  destruct (productos_rotacion_lenta _ _ _ _) as [lentos | e]; [| reflexivity].
  destruct (top_n_vendidos_mes _ _ _) as [top_5 | e]; [| reflexivity].
  destruct (top_3_vendidos_dashboard _ _) as [top_3 | e]; reflexivity.
Qed.

Lemma metricas_globales_campos (stock_df : list Stock.row)
    (ventas_df : list Ventas.row) (historico_df : list Historico.row)
    (m : Metricas.t) :
  metricas_globales stock_df ventas_df historico_df = Ok m →
  Metricas.num_productos m = nunique (Stock.SKU <$> stock_df)
  ∧ Metricas.total_vendido m
    = Series_sum (Ventas.Unidades_Vendidas <$> ventas_df)
  ∧ media_rotacion (Metricas.total_vendido m) (Metricas.num_productos m)
    = Ok (Metricas.media_rotacion_por_producto m)
  ∧ Metricas.num_roturas_detectadas m + Metricas.num_reposiciones_detectadas m
    = Z.of_nat (length (eventos_detectados historico_df)).
Proof.
  unfold metricas_globales.
  destruct (media_rotacion _ _) as [x |] eqn:Hx; [| discriminate].
  rewrite bind_Ok. intros [= <-]. cbn.
  rewrite length_eventos_detectados. repeat split; [done | lia].
Qed.

Lemma resumen_global_dashboard_campos (stock_df : list Stock.row)
    (ventas_df : list Ventas.row) (historico_df : list Historico.row)
    (r : Resumen.t) :
  resumen_global_dashboard stock_df ventas_df historico_df = Ok r →
  Resumen.total_productos r = nunique (Stock.SKU <$> stock_df)
  ∧ Resumen.total_vendido r
    = Series_sum (Ventas.Unidades_Vendidas <$> ventas_df)
  ∧ media_rotacion (Resumen.total_vendido r) (Resumen.total_productos r)
    = Ok (Resumen.promedio_rotacion r).
Proof.
  unfold resumen_global_dashboard.
  destruct (media_rotacion _ _) as [x |] eqn:Hx; [| discriminate].
  rewrite bind_Ok. intros [= <-]. cbn. done.
Qed.

(** ** The floats of a content *)






(** ** The outcome of a request *)



Lemma length_ranking_mes (ventas_df : list Ventas.row) :
  (length (ranking_mes ventas_df 5) <= 5)%nat.
Proof.
  unfold ranking_mes.
  destruct (Series_max (Ventas.Fecha <$> ventas_df)); [| simpl; lia].
  match goal with |- (length (Series_head 5 ?l) <= 5)%nat =>
    pose proof (Series_head_length 5 l) end. lia.
Qed.

Lemma length_ranking_total (ventas_df : list Ventas.row) :
  (length (ranking_total ventas_df) <= 3)%nat.
Proof.
  unfold ranking_total.
  match goal with |- (length (Series_head 3 ?l) <= 3)%nat =>
    pose proof (Series_head_length 3 l) end. lia.
Qed.

(** X13. The content of a successful request is coherent: the dashboard
    alerts are the low-stock products of the detailed block, each a Stock
    row at or below its threshold; the dashboard summary is the projection
    of the detailed Global Metrics; the velocity map has as many entries as
    products counted; the stockout and restock counters add up to the
    event list; the two rankings have at most 5 and 3 rows; and every row
    of the top 3 names a Stock row of its SKU. *)
Theorem procesar_todos_contenido (to_datetime : conversor)
    (stock_file : DataFrame.t Stock.row)
    (ventas_file : DataFrame.t VentasCSV.row)
    (historico_file : DataFrame.t HistoricoCSV.row) (resp : Respuesta.t) :
  procesar_todos to_datetime stock_file ventas_file historico_file = Exito resp →
  cabeceras_validas stock_file ventas_file historico_file
  ∧ contenido_coherente (DataFrame.rows stock_file) resp.
Proof.
  intros Hresp.
  destruct (read_stock_csv_cases stock_file) as [[Hs Hrs] | [Hs Hrs]];
    [| unfold procesar_todos in Hresp; rewrite Hrs in Hresp; discriminate].
  destruct (read_ventas_csv_cases to_datetime ventas_file)
    as [[Hv Hrv] | [(Hv & e & _ & Hrv) | (Hv & fv & _ & Hrv)]];
    [ unfold procesar_todos in Hresp; rewrite Hrs, Hrv in Hresp; discriminate
    | unfold procesar_todos in Hresp; rewrite Hrs, Hrv in Hresp; discriminate |].
  destruct (read_historico_csv_cases to_datetime historico_file)
    as [[Hh Hrh] | [(Hh & e & _ & Hrh) | (Hh & fh & _ & Hrh)]];
    [ unfold procesar_todos in Hresp; rewrite Hrs, Hrv, Hrh in Hresp;
      discriminate
    | unfold procesar_todos in Hresp; rewrite Hrs, Hrv, Hrh in Hresp;
      discriminate |].
  split; [by repeat split |].
  destruct (procesar_todos_pasos to_datetime stock_file ventas_file
              historico_file _ _ _ Hrs Hrv Hrh)
    as (muertos & m & r & _ & Hm & Hr & Hpasos).
  rewrite Hpasos in Hresp. clear Hpasos. cbn [DataFrame.rows] in *.
  set (ventas_df := zip_with ventas_con_fecha (DataFrame.rows ventas_file) fv) in *.
  set (historico_df :=
         zip_with historico_con_fecha (DataFrame.rows historico_file) fh) in *.
  destruct (top_n_vendidos_mes_busqueda ventas_df (DataFrame.rows stock_file) 5)
    as [[H5 _] | (top_5 & H5 & _ & Hl5)];
    rewrite H5 in Hresp;
    [destruct (productos_rotacion_lenta _ _ _ _); discriminate |].
  pose proof (top_3_vendidos_dashboard_Ok_inv ventas_df
                (DataFrame.rows stock_file)) as Hinv.
  destruct (top_3_vendidos_dashboard ventas_df (DataFrame.rows stock_file))
    as [top_3 | e];
    [| destruct (productos_rotacion_lenta _ _ _ _); discriminate].
  specialize (Hinv top_3 eq_refl).
  destruct (productos_rotacion_lenta _ _ _ _) as [lentos | e]; [| discriminate].
  apply JSONResponse_inv in Hresp as ->.
  unfold contenido_coherente, contenido. cbn.
  destruct (metricas_globales_campos _ _ _ _ Hm) as (Hnum & Htot & Hmed & Hev).
  destruct (resumen_global_dashboard_campos _ _ _ _ Hr) as (Hnum' & Htot' & Hmed').
  split; [reflexivity |]. split; [reflexivity |]. split; [| split; [| split]].
  - intros a Ha. apply list_elem_of_fmap in Ha as (prod & -> & Hprod).
    apply list_elem_of_filter in Hprod as [Hle Hin]. by exists prod.
  - destruct r as [tp tv pr], m as [ts mv np nr nre mr]. cbn in *.
    unfold proyeccion_resumen. cbn. subst. f_equal. congruence.
  - by rewrite mapa_de_size, Hnum.
  - split; [exact Hev |]. split; [| split].
    + rewrite <- (length_fmap (fun t => Stock.SKU (TopMes.producto t))), Hl5,
        length_fmap. apply length_ranking_mes.
    + rewrite <- (Forall2_length _ _ _ Hinv). apply length_ranking_total.
    + intros t Ht. apply list_elem_of_lookup in Ht as [i Ht].
      destruct (Forall2_lookup_r _ _ _ _ _ Hinv Ht) as (x & _ & r' & Hr' & ->).
      apply stock_row_of_SKU in Hr' as [Hin Hk]. by exists r'.
Qed.

Lemma procesar_todos_contenido_witness :
  let stock_file :=
    archivo_stock [fila_stock 1 "Camisa" 5 10; fila_stock 2 "Gorra" 8 3] in
  let ventas_file :=
    archivo_ventas [fila_venta_csv "2024-01-01" 1 10;
                    fila_venta_csv "2024-01-02" 2 1] in
  let historico_file :=
    archivo_historico [fila_historico_csv "2024-01-01" 1 0 1;
                       fila_historico_csv "2024-01-02" 2 8 0] in
  ∃ resp,
    procesar_todos to_datetime_iso stock_file ventas_file historico_file
    = Exito resp
    ∧ cabeceras_validas stock_file ventas_file historico_file
    ∧ contenido_coherente (DataFrame.rows stock_file) resp.
Proof.
  cbv zeta.
  destruct (procesar_todos to_datetime_iso
              (archivo_stock [fila_stock 1 "Camisa" 5 10; fila_stock 2 "Gorra" 8 3])
              (archivo_ventas [fila_venta_csv "2024-01-01" 1 10;
                               fila_venta_csv "2024-01-02" 2 1])
              (archivo_historico [fila_historico_csv "2024-01-01" 1 0 1;
                                  fila_historico_csv "2024-01-02" 2 8 0]))
    as [resp | e] eqn:H; [| by vm_compute in H].
  exists resp. split; [reflexivity |].
  exact (procesar_todos_contenido _ _ _ _ resp H).
Defined.
